(** * nfc-ctc: dump tool for MIFARE Ultralight, Ultralight EV1 and NTAG21x tags

    A shallow embedding of [utils/nfc-ctc.c].  The C file keeps its state in
    file-scope variables and talks to a reader through libnfc; here the
    file-scope variables are the fields of one record, [world], and every C
    function is a function in a state monad over it.  The reader and the tag
    are a script of replies, consumed one per libnfc call, and every call is
    appended to a trace, so that statements can speak about which frames
    were sent and in which order. *)

From stdpp Require Import base list strings.
From Stdlib Require Import ZArith Lia Ascii.

Local Open Scope Z_scope.

(** ** Integers of the C program *)

Definition wrap32 (x : Z) : Z := x mod 2 ^ 32.
Definition wrap8 (x : Z) : Z := x mod 2 ^ 8.

(** ** What libnfc is asked and what it answers *)

Inductive property := NP_HANDLE_CRC | NP_EASY_FRAMING | NP_INFINITE_SELECT.

Inductive mifare_cmd := MC_READ | MC_WRITE.

(** One constructor per libnfc entry point the tool calls, with the
    arguments that reach the reader. *)
Inductive call :=
| NfcInit
| NfcOpen
| NfcInitiatorInit
| NfcListPassiveTargets
| NfcSetProperty (p : property) (v : bool)
| NfcSelectPassiveTarget
| NfcTransceiveBytes (tx : list Z)
| NfcTransceiveBits (tx : list Z) (szTxBits : Z)
| NfcMifareCmd (mc : mifare_cmd) (ui8Block : Z) (abtData : list Z)
| NfcClose
| NfcExit.

(** The answer to one call: an error, or success together with the bytes
    that came back (empty for calls that return no data). *)
Inductive reply := Nak | Ack (rx : list Z).

(** ** What the tool hands to LOG *)

Inductive mark := MkSkip | MkOk | MkFail.

(** The progress characters ('s', '.', 'f'), one per page, and the two
    summary lines.  The page number next to a mark is not printed by the C
    code; it is kept here to relate a mark to its page.  Whether the text
    reaches stderr depends on [logging]; the journal records it always. *)
Inductive logline :=
| LogMark (page : Z) (m : mark)
| LogReadDone (read total failed : Z)
| LogWriteDone (written total skipped failed : Z).

(** ** The state *)

Record world := mkWorld {
  script : list reply;  (* replies the reader will give to the calls still to come *)
  trace : list (call * bool);  (* calls issued so far, oldest first, each with whether it succeeded *)
  handle_crc : bool;  (* NP_HANDLE_CRC as last set successfully *)
  easy_framing : bool;  (* NP_EASY_FRAMING as last set successfully *)
  logging : Z;
  wait_for_tag : Z;
  nt : list Z;  (* nfc_target: abtAtqa[0..1] followed by the UID *)
  mp : list Z;  (* mp.mpd.abtData, 16 bytes *)
  mtDump : list Z;  (* the maxtag union seen as bytes *)
  uiBlocks : Z;
  uiReadPages : Z;
  iPWD : list Z;
  iPACK : list Z;
  iEV1Type : Z;
  iNTAGType : Z;
  abtEV1 : list Z;
  abtPWAuth : list Z;
  abtHalt : list Z;
  abtRx : list Z;
  szRxBits : Z;
  szRx : Z;
  stdin : list (option Z);  (* what each fgets still to come returns: the first character of the line, or EOF *)
  stdout : list Z;  (* bytes printed with printf *)
  journal : list logline;  (* what was handed to LOG, oldest first *)
  junk_original_b0 : list Z;  (* indeterminate contents of check_magic's local original_b0 *)
  junk_buffer : Z  (* indeterminate buffer[0] of write_card's local buffer *)
}.

Definition set_script (v : list reply) (w : world) : world :=
  mkWorld v (trace w) (handle_crc w) (easy_framing w) (logging w)
    (wait_for_tag w) (nt w) (mp w) (mtDump w) (uiBlocks w) (uiReadPages w)
    (iPWD w) (iPACK w) (iEV1Type w) (iNTAGType w) (abtEV1 w) (abtPWAuth w)
    (abtHalt w) (abtRx w) (szRxBits w) (szRx w) (stdin w) (stdout w)
    (journal w) (junk_original_b0 w) (junk_buffer w).
Definition set_trace (v : list (call * bool)) (w : world) : world :=
  mkWorld (script w) v (handle_crc w) (easy_framing w) (logging w)
    (wait_for_tag w) (nt w) (mp w) (mtDump w) (uiBlocks w) (uiReadPages w)
    (iPWD w) (iPACK w) (iEV1Type w) (iNTAGType w) (abtEV1 w) (abtPWAuth w)
    (abtHalt w) (abtRx w) (szRxBits w) (szRx w) (stdin w) (stdout w)
    (journal w) (junk_original_b0 w) (junk_buffer w).
Definition set_handle_crc (v : bool) (w : world) : world :=
  mkWorld (script w) (trace w) v (easy_framing w) (logging w) (wait_for_tag w)
    (nt w) (mp w) (mtDump w) (uiBlocks w) (uiReadPages w) (iPWD w) (iPACK w)
    (iEV1Type w) (iNTAGType w) (abtEV1 w) (abtPWAuth w) (abtHalt w) (abtRx w)
    (szRxBits w) (szRx w) (stdin w) (stdout w) (journal w)
    (junk_original_b0 w) (junk_buffer w).
Definition set_easy_framing (v : bool) (w : world) : world :=
  mkWorld (script w) (trace w) (handle_crc w) v (logging w) (wait_for_tag w)
    (nt w) (mp w) (mtDump w) (uiBlocks w) (uiReadPages w) (iPWD w) (iPACK w)
    (iEV1Type w) (iNTAGType w) (abtEV1 w) (abtPWAuth w) (abtHalt w) (abtRx w)
    (szRxBits w) (szRx w) (stdin w) (stdout w) (journal w)
    (junk_original_b0 w) (junk_buffer w).
Definition set_logging (v : Z) (w : world) : world :=
  mkWorld (script w) (trace w) (handle_crc w) (easy_framing w) v
    (wait_for_tag w) (nt w) (mp w) (mtDump w) (uiBlocks w) (uiReadPages w)
    (iPWD w) (iPACK w) (iEV1Type w) (iNTAGType w) (abtEV1 w) (abtPWAuth w)
    (abtHalt w) (abtRx w) (szRxBits w) (szRx w) (stdin w) (stdout w)
    (journal w) (junk_original_b0 w) (junk_buffer w).
Definition set_wait_for_tag (v : Z) (w : world) : world :=
  mkWorld (script w) (trace w) (handle_crc w) (easy_framing w) (logging w) v
    (nt w) (mp w) (mtDump w) (uiBlocks w) (uiReadPages w) (iPWD w) (iPACK w)
    (iEV1Type w) (iNTAGType w) (abtEV1 w) (abtPWAuth w) (abtHalt w) (abtRx w)
    (szRxBits w) (szRx w) (stdin w) (stdout w) (journal w)
    (junk_original_b0 w) (junk_buffer w).
Definition set_nt (v : list Z) (w : world) : world :=
  mkWorld (script w) (trace w) (handle_crc w) (easy_framing w) (logging w)
    (wait_for_tag w) v (mp w) (mtDump w) (uiBlocks w) (uiReadPages w) (iPWD w)
    (iPACK w) (iEV1Type w) (iNTAGType w) (abtEV1 w) (abtPWAuth w) (abtHalt w)
    (abtRx w) (szRxBits w) (szRx w) (stdin w) (stdout w) (journal w)
    (junk_original_b0 w) (junk_buffer w).
Definition set_mp (v : list Z) (w : world) : world :=
  mkWorld (script w) (trace w) (handle_crc w) (easy_framing w) (logging w)
    (wait_for_tag w) (nt w) v (mtDump w) (uiBlocks w) (uiReadPages w) (iPWD w)
    (iPACK w) (iEV1Type w) (iNTAGType w) (abtEV1 w) (abtPWAuth w) (abtHalt w)
    (abtRx w) (szRxBits w) (szRx w) (stdin w) (stdout w) (journal w)
    (junk_original_b0 w) (junk_buffer w).
Definition set_mtDump (v : list Z) (w : world) : world :=
  mkWorld (script w) (trace w) (handle_crc w) (easy_framing w) (logging w)
    (wait_for_tag w) (nt w) (mp w) v (uiBlocks w) (uiReadPages w) (iPWD w)
    (iPACK w) (iEV1Type w) (iNTAGType w) (abtEV1 w) (abtPWAuth w) (abtHalt w)
    (abtRx w) (szRxBits w) (szRx w) (stdin w) (stdout w) (journal w)
    (junk_original_b0 w) (junk_buffer w).
Definition set_uiBlocks (v : Z) (w : world) : world :=
  mkWorld (script w) (trace w) (handle_crc w) (easy_framing w) (logging w)
    (wait_for_tag w) (nt w) (mp w) (mtDump w) v (uiReadPages w) (iPWD w)
    (iPACK w) (iEV1Type w) (iNTAGType w) (abtEV1 w) (abtPWAuth w) (abtHalt w)
    (abtRx w) (szRxBits w) (szRx w) (stdin w) (stdout w) (journal w)
    (junk_original_b0 w) (junk_buffer w).
Definition set_uiReadPages (v : Z) (w : world) : world :=
  mkWorld (script w) (trace w) (handle_crc w) (easy_framing w) (logging w)
    (wait_for_tag w) (nt w) (mp w) (mtDump w) (uiBlocks w) v (iPWD w)
    (iPACK w) (iEV1Type w) (iNTAGType w) (abtEV1 w) (abtPWAuth w) (abtHalt w)
    (abtRx w) (szRxBits w) (szRx w) (stdin w) (stdout w) (journal w)
    (junk_original_b0 w) (junk_buffer w).
Definition set_iPWD (v : list Z) (w : world) : world :=
  mkWorld (script w) (trace w) (handle_crc w) (easy_framing w) (logging w)
    (wait_for_tag w) (nt w) (mp w) (mtDump w) (uiBlocks w) (uiReadPages w)
    v (iPACK w) (iEV1Type w) (iNTAGType w) (abtEV1 w) (abtPWAuth w)
    (abtHalt w) (abtRx w) (szRxBits w) (szRx w) (stdin w) (stdout w)
    (journal w) (junk_original_b0 w) (junk_buffer w).
Definition set_iPACK (v : list Z) (w : world) : world :=
  mkWorld (script w) (trace w) (handle_crc w) (easy_framing w) (logging w)
    (wait_for_tag w) (nt w) (mp w) (mtDump w) (uiBlocks w) (uiReadPages w)
    (iPWD w) v (iEV1Type w) (iNTAGType w) (abtEV1 w) (abtPWAuth w) (abtHalt w)
    (abtRx w) (szRxBits w) (szRx w) (stdin w) (stdout w) (journal w)
    (junk_original_b0 w) (junk_buffer w).
Definition set_iEV1Type (v : Z) (w : world) : world :=
  mkWorld (script w) (trace w) (handle_crc w) (easy_framing w) (logging w)
    (wait_for_tag w) (nt w) (mp w) (mtDump w) (uiBlocks w) (uiReadPages w)
    (iPWD w) (iPACK w) v (iNTAGType w) (abtEV1 w) (abtPWAuth w) (abtHalt w)
    (abtRx w) (szRxBits w) (szRx w) (stdin w) (stdout w) (journal w)
    (junk_original_b0 w) (junk_buffer w).
Definition set_iNTAGType (v : Z) (w : world) : world :=
  mkWorld (script w) (trace w) (handle_crc w) (easy_framing w) (logging w)
    (wait_for_tag w) (nt w) (mp w) (mtDump w) (uiBlocks w) (uiReadPages w)
    (iPWD w) (iPACK w) (iEV1Type w) v (abtEV1 w) (abtPWAuth w) (abtHalt w)
    (abtRx w) (szRxBits w) (szRx w) (stdin w) (stdout w) (journal w)
    (junk_original_b0 w) (junk_buffer w).
Definition set_abtEV1 (v : list Z) (w : world) : world :=
  mkWorld (script w) (trace w) (handle_crc w) (easy_framing w) (logging w)
    (wait_for_tag w) (nt w) (mp w) (mtDump w) (uiBlocks w) (uiReadPages w)
    (iPWD w) (iPACK w) (iEV1Type w) (iNTAGType w) v (abtPWAuth w) (abtHalt w)
    (abtRx w) (szRxBits w) (szRx w) (stdin w) (stdout w) (journal w)
    (junk_original_b0 w) (junk_buffer w).
Definition set_abtPWAuth (v : list Z) (w : world) : world :=
  mkWorld (script w) (trace w) (handle_crc w) (easy_framing w) (logging w)
    (wait_for_tag w) (nt w) (mp w) (mtDump w) (uiBlocks w) (uiReadPages w)
    (iPWD w) (iPACK w) (iEV1Type w) (iNTAGType w) (abtEV1 w) v (abtHalt w)
    (abtRx w) (szRxBits w) (szRx w) (stdin w) (stdout w) (journal w)
    (junk_original_b0 w) (junk_buffer w).
Definition set_abtHalt (v : list Z) (w : world) : world :=
  mkWorld (script w) (trace w) (handle_crc w) (easy_framing w) (logging w)
    (wait_for_tag w) (nt w) (mp w) (mtDump w) (uiBlocks w) (uiReadPages w)
    (iPWD w) (iPACK w) (iEV1Type w) (iNTAGType w) (abtEV1 w) (abtPWAuth w) v
    (abtRx w) (szRxBits w) (szRx w) (stdin w) (stdout w) (journal w)
    (junk_original_b0 w) (junk_buffer w).
Definition set_abtRx (v : list Z) (w : world) : world :=
  mkWorld (script w) (trace w) (handle_crc w) (easy_framing w) (logging w)
    (wait_for_tag w) (nt w) (mp w) (mtDump w) (uiBlocks w) (uiReadPages w)
    (iPWD w) (iPACK w) (iEV1Type w) (iNTAGType w) (abtEV1 w) (abtPWAuth w)
    (abtHalt w) v (szRxBits w) (szRx w) (stdin w) (stdout w) (journal w)
    (junk_original_b0 w) (junk_buffer w).
Definition set_szRxBits (v : Z) (w : world) : world :=
  mkWorld (script w) (trace w) (handle_crc w) (easy_framing w) (logging w)
    (wait_for_tag w) (nt w) (mp w) (mtDump w) (uiBlocks w) (uiReadPages w)
    (iPWD w) (iPACK w) (iEV1Type w) (iNTAGType w) (abtEV1 w) (abtPWAuth w)
    (abtHalt w) (abtRx w) v (szRx w) (stdin w) (stdout w) (journal w)
    (junk_original_b0 w) (junk_buffer w).
Definition set_szRx (v : Z) (w : world) : world :=
  mkWorld (script w) (trace w) (handle_crc w) (easy_framing w) (logging w)
    (wait_for_tag w) (nt w) (mp w) (mtDump w) (uiBlocks w) (uiReadPages w)
    (iPWD w) (iPACK w) (iEV1Type w) (iNTAGType w) (abtEV1 w) (abtPWAuth w)
    (abtHalt w) (abtRx w) (szRxBits w) v (stdin w) (stdout w) (journal w)
    (junk_original_b0 w) (junk_buffer w).
Definition set_stdin (v : list (option Z)) (w : world) : world :=
  mkWorld (script w) (trace w) (handle_crc w) (easy_framing w) (logging w)
    (wait_for_tag w) (nt w) (mp w) (mtDump w) (uiBlocks w) (uiReadPages w)
    (iPWD w) (iPACK w) (iEV1Type w) (iNTAGType w) (abtEV1 w) (abtPWAuth w)
    (abtHalt w) (abtRx w) (szRxBits w) (szRx w) v (stdout w) (journal w)
    (junk_original_b0 w) (junk_buffer w).
Definition set_stdout (v : list Z) (w : world) : world :=
  mkWorld (script w) (trace w) (handle_crc w) (easy_framing w) (logging w)
    (wait_for_tag w) (nt w) (mp w) (mtDump w) (uiBlocks w) (uiReadPages w)
    (iPWD w) (iPACK w) (iEV1Type w) (iNTAGType w) (abtEV1 w) (abtPWAuth w)
    (abtHalt w) (abtRx w) (szRxBits w) (szRx w) (stdin w) v (journal w)
    (junk_original_b0 w) (junk_buffer w).
Definition set_journal (v : list logline) (w : world) : world :=
  mkWorld (script w) (trace w) (handle_crc w) (easy_framing w) (logging w)
    (wait_for_tag w) (nt w) (mp w) (mtDump w) (uiBlocks w) (uiReadPages w)
    (iPWD w) (iPACK w) (iEV1Type w) (iNTAGType w) (abtEV1 w) (abtPWAuth w)
    (abtHalt w) (abtRx w) (szRxBits w) (szRx w) (stdin w) (stdout w) v
    (junk_original_b0 w) (junk_buffer w).

(** ** The state monad *)

Definition M (A : Type) : Type := world -> A * world.

Definition ret {A} (a : A) : M A := fun w => (a, w).

Definition bind {A B} (m : M A) (k : A -> M B) : M B :=
  fun w => let (a, w') := m w in k a w'.

Definition gets {A} (f : world -> A) : M A := fun w => (f w, w).

Definition modify (f : world -> world) : M unit := fun w => (tt, f w).

Declare Scope nfc_scope.
Delimit Scope nfc_scope with nfc.
Notation "x <- m ;; k" := (bind m (fun x => k))
  (at level 100, m at next level, right associativity) : nfc_scope.
Notation "m ;;; k" := (bind m (fun _ => k))
  (at level 100, right associativity) : nfc_scope.
Local Open Scope nfc_scope.

(** ** Buffers *)

(** memcpy(dst + off, src, n) on byte lists. *)
Definition memcpy (dst : list Z) (off : nat) (src : list Z) (n : nat) : list Z :=
  list_inserts off (take n src) dst.

(** ** Declarations the file uses but does not contain

    mifare.h (the union [maxtag] and the block structs whose fields [pwd]
    and [pack] read_card writes) and libnfc's [iso14443a_crc] are not part
    of nfc-ctc.c.  They are parameters of the model: the size of [maxtag],
    the offset of each field inside its block, and the two CRC bytes of a
    frame. *)
Class Declarations := {
  sizeof_maxtag : nat;
  mbc11_pwd : nat;
  mbc11_pack : nat;
  mbc21a_pwd : nat;
  mbc21b_pack : nat;
  mbc21356d_pwd : nat;
  mbc21356e_pack : nat;
  iso14443a_crc : list Z -> Z * Z
}.

(** Byte offset of [mtDump.ul[i]] (blocks of 16 bytes: one MC_READ) and of
    [mtDump.nt[i]] (blocks of 4 bytes: one page). *)
Definition ul (i : nat) : nat := (16 * i)%nat.
Definition nt_ (i : nat) : nat := (4 * i)%nat.

Arguments ul : simpl never.
Arguments nt_ : simpl never.
Arguments memcpy : simpl never.
Arguments wrap32 : simpl never.
Arguments wrap8 : simpl never.

Definition memset (dst : list Z) (off : nat) (c : Z) (n : nat) : list Z :=
  list_inserts off (replicate n c) dst.

Arguments memset : simpl never.

(** iso14443a_crc_append(pbtData, szLen): the CRC of the first szLen bytes
    is stored in the two bytes that follow them. *)
Definition iso14443a_crc_append `{Declarations} (pbtData : list Z) (szLen : nat)
  : list Z :=
  let crc := iso14443a_crc (take szLen pbtData) in
  list_inserts szLen [crc.1; crc.2] pbtData.

(** ** Constants of nfc-ctc.c *)

Definition EV1_NONE : Z := 0.
Definition EV1_UL11 : Z := 1.
Definition EV1_UL21 : Z := 2.

Definition NTAG_NONE : Z := 0.
Definition NTAG_213 : Z := 1.
Definition NTAG_215 : Z := 2.
Definition NTAG_216 : Z := 3.

Definition MAX_FRAME_LEN : nat := 264.

Definition abtUnlock1 : list Z := [0x40].
Definition abtUnlock2 : list Z := [0x43].

Definition LOG (l : logline) : M unit :=
  modify (fun w => set_journal (journal w ++ [l]) w).

(** ** The reader *)

Definition take_reply : M reply :=
  fun w => (hd Nak (script w), set_script (tl (script w)) w).

Definition issued (c : call) (ok : bool) : M unit :=
  modify (fun w => set_trace (trace w ++ [(c, ok)]) w).

(** A property keeps its value when setting it fails. *)
Definition nfc_device_set_property_bool (p : property) (v : bool) : M Z :=
  r <- take_reply ;;
  match r with
  | Ack _ =>
      issued (NfcSetProperty p v) true ;;;
      modify (match p with
              | NP_HANDLE_CRC => set_handle_crc v
              | NP_EASY_FRAMING => set_easy_framing v
              | NP_INFINITE_SELECT => fun w => w
              end) ;;;
      ret 0
  | Nak => issued (NfcSetProperty p v) false ;;; ret (-1)
  end.

(** Returns the number of bytes received together with these bytes, or a
    negative number; more bytes than the receive buffer holds is an error. *)
Definition nfc_initiator_transceive_bytes (pbtTx : list Z) (szRxMax : nat)
  : M (Z * list Z) :=
  r <- take_reply ;;
  match r with
  | Ack rx =>
      if (length rx <=? szRxMax)%nat
      then issued (NfcTransceiveBytes pbtTx) true ;;;
           ret (Z.of_nat (length rx), rx)
      else issued (NfcTransceiveBytes pbtTx) false ;;; ret (-1, [])
  | Nak => issued (NfcTransceiveBytes pbtTx) false ;;; ret (-1, [])
  end.

(** Returns a number of bits; the tool only ever tests it for being
    negative. *)
Definition nfc_initiator_transceive_bits (pbtTx : list Z) (szTxBits : Z)
    (szRxMax : nat) : M (Z * list Z) :=
  r <- take_reply ;;
  match r with
  | Ack rx =>
      if (length rx <=? szRxMax)%nat
      then issued (NfcTransceiveBits pbtTx szTxBits) true ;;;
           ret (8 * Z.of_nat (length rx), rx)
      else issued (NfcTransceiveBits pbtTx szTxBits) false ;;; ret (-1, [])
  | Nak => issued (NfcTransceiveBits pbtTx szTxBits) false ;;; ret (-1, [])
  end.

(** Returns the number of targets selected (0 or 1 here) and fills [nt]. *)
Definition nfc_initiator_select_passive_target : M Z :=
  r <- take_reply ;;
  match r with
  | Ack rx => issued NfcSelectPassiveTarget true ;;; modify (set_nt rx) ;;; ret 1
  | Nak => issued NfcSelectPassiveTarget false ;;; ret 0
  end.

(** Modelled from the spec: nfc_initiator_mifare_cmd is defined in mifare.c,
    which is missing.  The spec (section 1) gives its two uses: a block-read
    returns 16 bytes (4 pages) into the parameter block, and a page-write
    sends the 16-byte compatibility frame held in the parameter block.  The
    block number is a uint8_t. *)
Definition nfc_initiator_mifare_cmd (mc : mifare_cmd) (ui8Block : Z) : M bool :=
  data <- gets mp ;;
  r <- take_reply ;;
  match mc, r with
  | MC_READ, Ack rx =>
      if (length rx =? 16)%nat
      then issued (NfcMifareCmd MC_READ (wrap8 ui8Block) []) true ;;;
           modify (set_mp rx) ;;; ret true
      else issued (NfcMifareCmd MC_READ (wrap8 ui8Block) []) false ;;; ret false
  | MC_READ, Nak =>
      issued (NfcMifareCmd MC_READ (wrap8 ui8Block) []) false ;;; ret false
  | MC_WRITE, Ack _ =>
      issued (NfcMifareCmd MC_WRITE (wrap8 ui8Block) data) true ;;; ret true
  | MC_WRITE, Nak =>
      issued (NfcMifareCmd MC_WRITE (wrap8 ui8Block) data) false ;;; ret false
  end.

(** ** nfc-ctc.c *)

Section Tool.
Context {D : Declarations}.

(** [page] is not an argument of the C function: it labels the mark in the
    journal.  The two counters are passed by pointer in C and returned
    here. *)
Definition print_success_or_failure (page : Z) (bFailure : bool)
    (uiOkCounter uiFailedCounter : Z) : M (Z * Z) :=
  LOG (LogMark page (if bFailure then MkFail else MkOk)) ;;;
  ret (wrap32 (uiOkCounter + (if bFailure then 0 else 1)),
       wrap32 (uiFailedCounter + (if bFailure then 1 else 0))).

(** The inner loop of read_card: one call of print_success_or_failure per
    page of the stride. *)
Fixpoint read_card_count (n : nat) (page : Z) (bFailure : bool)
    (uiFailedPages : Z) : M Z :=
  match n with
  | O => ret uiFailedPages
  | S n' =>
      ok <- gets uiReadPages ;;
      c <- print_success_or_failure page bFailure ok uiFailedPages ;;
      modify (set_uiReadPages c.1) ;;;
      read_card_count n' (page + 1) bFailure c.2
  end.

(** The body of the outer loop of read_card,
    [for (page = 0; page < uiBlocks; page += 4)]: one stride.  It returns
    the locals bFailure and uiFailedPages. *)
Definition read_card_stride (page : Z) (bFailure : bool) (uiFailedPages : Z)
  : M (bool * Z) :=
  n <- gets uiBlocks ;;
  ok <- nfc_initiator_mifare_cmd MC_READ page ;;
  (if ok then
     modify (fun w =>
       set_mtDump
         (memcpy (mtDump w) (ul (Z.to_nat (page / 4))) (mp w)
            (Z.to_nat (if wrap32 (n - page) <? 4
                       then wrap32 (wrap32 (n - page) * 4) else 16)))
         w)
   else ret tt) ;;;
  let bFailure := if ok then bFailure else true in
  failed <- read_card_count
              (Z.to_nat (if wrap32 (n - page) <? 4 then wrap32 (n - page) else 4))
              page bFailure uiFailedPages ;;
  ret (bFailure, failed).

(** The outer loop from the test of [page] on. *)
Fixpoint read_card_loop (fuel : nat) (page : Z) (bFailure : bool)
    (uiFailedPages : Z) : M (bool * Z) :=
  match fuel with
  | O => ret (bFailure, uiFailedPages)
  | S fuel' =>
      n <- gets uiBlocks ;;
      if page <? n then
        r <- read_card_stride page bFailure uiFailedPages ;;
        read_card_loop fuel' (wrap32 (page + 4)) r.1 r.2
      else ret (bFailure, uiFailedPages)
  end.

Definition memcpy_mtDump (off : nat) (src : world -> list Z) (n : nat) : M unit :=
  modify (fun w => set_mtDump (memcpy (mtDump w) off (src w) n) w).

(** The two switch statements that close read_card. *)
Definition copy_secrets : M unit :=
  ev1 <- gets iEV1Type ;;
  (if ev1 =? EV1_UL11 then
     memcpy_mtDump (ul 4 + mbc11_pwd) iPWD 4 ;;;
     memcpy_mtDump (ul 4 + mbc11_pack) iPACK 2
   else if ev1 =? EV1_UL21 then
     memcpy_mtDump (ul 9 + mbc21a_pwd) iPWD 4 ;;;
     memcpy_mtDump (ul 9 + mbc21b_pack) iPACK 2
   else ret tt) ;;;
  ntag <- gets iNTAGType ;;
  if ntag =? NTAG_213 then
    memcpy_mtDump (nt_ 43 + mbc21356d_pwd) iPWD 4 ;;;
    memcpy_mtDump (nt_ 44 + mbc21356e_pack) iPACK 2
  else if ntag =? NTAG_215 then
    memcpy_mtDump (nt_ 133 + mbc21356d_pwd) iPWD 4 ;;;
    memcpy_mtDump (nt_ 134 + mbc21356e_pack) iPACK 2
  else if ntag =? NTAG_216 then
    memcpy_mtDump (nt_ 229 + mbc21356d_pwd) iPWD 4 ;;;
    memcpy_mtDump (nt_ 230 + mbc21356e_pack) iPACK 2
  else ret tt.

(** The C loop has no bound of its own; the fuel given here is more than
    the number of strides (see [read_card_loop_fuel]). *)
Definition read_card : M bool :=
  n <- gets uiBlocks ;;
  r <- read_card_loop (S (Z.to_nat n)) 0 false 0 ;;
  read <- gets uiReadPages ;;
  LOG (LogReadDone read n r.2) ;;;
  copy_secrets ;;;
  ret (negb r.1).

Definition transmit_bits (pbtTx : list Z) (szTxBits : Z) : M bool :=
  r <- nfc_initiator_transceive_bits (take (Z.to_nat ((szTxBits + 7) / 8)) pbtTx)
         szTxBits MAX_FRAME_LEN ;;
  modify (fun w => set_szRxBits r.1 (set_abtRx (list_inserts 0 r.2 (abtRx w)) w)) ;;;
  ret (negb (r.1 <? 0)).

Definition transmit_bytes (pbtTx : list Z) (szTx : nat) : M bool :=
  r <- nfc_initiator_transceive_bytes (take szTx pbtTx) MAX_FRAME_LEN ;;
  modify (fun w => set_szRx r.1 (set_abtRx (list_inserts 0 r.2 (abtRx w)) w)) ;;;
  ret (negb (r.1 <? 0)).

Definition raw_mode_start : M bool :=
  r <- nfc_device_set_property_bool NP_HANDLE_CRC false ;;
  if r <? 0 then ret false else
  r <- nfc_device_set_property_bool NP_EASY_FRAMING false ;;
  if r <? 0 then ret false else
  ret true.

Definition raw_mode_end : M bool :=
  r <- nfc_device_set_property_bool NP_HANDLE_CRC true ;;
  if r <? 0 then ret false else
  r <- nfc_device_set_property_bool NP_EASY_FRAMING true ;;
  if r <? 0 then ret false else
  ret true.

Definition get_ev1_version : M bool :=
  ok <- raw_mode_start ;;
  if negb ok then ret false else
  modify (fun w => set_abtEV1 (iso14443a_crc_append (abtEV1 w) 1) w) ;;;
  tx <- gets abtEV1 ;;
  ok <- transmit_bytes tx 3 ;;
  if negb ok then raw_mode_end ;;; ret false else
  ok <- raw_mode_end ;;
  if negb ok then ret false else
  sz <- gets szRx ;;
  if sz =? 0 then ret false else
  ret true.

Definition ev1_pwd_auth (pwd : list Z) : M bool :=
  ok <- raw_mode_start ;;
  if negb ok then ret false else
  modify (fun w => set_abtPWAuth (memcpy (abtPWAuth w) 1 pwd 4) w) ;;;
  modify (fun w => set_abtPWAuth (iso14443a_crc_append (abtPWAuth w) 5) w) ;;;
  tx <- gets abtPWAuth ;;
  ok <- transmit_bytes tx 7 ;;
  if negb ok then ret false else
  ok <- raw_mode_end ;;
  if negb ok then ret false else
  ret true.

Definition unlock_card : M bool :=
  ok <- raw_mode_start ;;
  if negb ok then ret false else
  modify (fun w => set_abtHalt (iso14443a_crc_append (abtHalt w) 2) w) ;;;
  tx <- gets abtHalt ;;
  _ <- transmit_bytes tx 4 ;;
  ok <- transmit_bits abtUnlock1 7 ;;
  if negb ok then ret false else
  ok <- transmit_bytes abtUnlock2 1 ;;
  if negb ok then ret false else
  ok <- raw_mode_end ;;
  if negb ok then ret false else
  ret true.

(** The loop [for (page = 0; page <= 2; page++)] of check_magic; it returns
    directWrite.  Four rounds of fuel cover its three iterations (see
    [check_magic_write_fuel]). *)
Fixpoint check_magic_write (fuel : nat) (page : Z) (original_b0 : list Z)
    (directWrite : bool) : M bool :=
  match fuel with
  | O => ret directWrite
  | S fuel' =>
      if page <=? 2 then
        modify (fun w =>
          set_mp (memcpy (mp w) 0 (drop (Z.to_nat (page * 4)) original_b0) 4) w) ;;;
        ok <- nfc_initiator_mifare_cmd MC_WRITE page ;;
        if negb ok then ret false else
        check_magic_write fuel' (wrap32 (page + 1)) original_b0 directWrite
      else ret directWrite
  end.

(** [original_b0] is a local array that only a successful read fills; after
    a failed read it holds whatever the stack held ([junk_original_b0]). *)
Definition check_magic : M bool :=
  junk <- gets junk_original_b0 ;;
  ok <- nfc_initiator_mifare_cmd MC_READ 0 ;;
  data <- gets mp ;;
  let original_b0 := if ok then take 12 data else junk in
  let directWrite := ok in
  directWrite <- check_magic_write 4 0 original_b0 directWrite ;;
  if directWrite then ret true else unlock_card.

(** fgets(buffer, BUFSIZ, stdin) as far as write_card looks at it: whether
    a line was read, and buffer[0] afterwards.  When nothing is read the
    buffer keeps what it held. *)
Definition fgets_stdin (buffer0 : Z) : M (bool * Z) :=
  fun w =>
    match stdin w with
    | Some c :: rest => ((true, c), set_stdin rest w)
    | None :: rest => ((false, buffer0), set_stdin rest w)
    | [] => ((false, buffer0), w)
    end.

(** One prompt of write_card: the answer ('y' or 'Y' in buffer[0]) and
    buffer[0] afterwards. *)
Definition ask (buffer0 : Z) : M (bool * Z) :=
  r <- fgets_stdin buffer0 ;;
  ret ((r.2 =? 0x79) || (r.2 =? 0x59), r.2).

(** The first half of write_card: the four flags after the prompts. *)
Definition write_card_prompts (write_otp write_lock write_dyn_lock write_uid : bool)
  : M (bool * bool * bool * bool) :=
  buffer0 <- gets junk_buffer ;;
  a <- (if negb write_otp then ask buffer0 else ret (write_otp, buffer0)) ;;
  let write_otp := a.1 in
  a <- (if negb write_lock then ask a.2 else ret (write_lock, a.2)) ;;
  let write_lock := a.1 in
  ntag <- gets iNTAGType ;;
  ev1 <- gets iEV1Type ;;
  a <- (if negb write_dyn_lock && (negb (ntag =? NTAG_NONE) || (ev1 =? EV1_UL21))
        then ask a.2 else ret (write_dyn_lock, a.2)) ;;
  let write_dyn_lock := a.1 in
  a <- (if negb write_uid then ask a.2 else ret (write_uid, a.2)) ;;
  let write_uid := a.1 in
  ret (write_otp, write_lock, write_dyn_lock, write_uid).

(** The condition under which the write loop skips a page. *)
Definition is_dyn_lock_page (ev1 ntag page : Z) : bool :=
  ((ev1 =? EV1_UL21) && (page =? 0x24))
  || ((ntag =? NTAG_213) && (page =? 0x28))
  || ((ntag =? NTAG_215) && (page =? 0x82))
  || ((ntag =? NTAG_216) && (page =? 0xe2)).

(** The locals uiWrittenPages, uiSkippedPages and uiFailedPages. *)
Record counters := mkCounters {
  uiWrittenPages : Z;
  uiSkippedPages : Z;
  uiFailedPages : Z
}.

Definition skip_page (c : counters) : counters :=
  mkCounters (uiWrittenPages c) (wrap32 (uiSkippedPages c + 1)) (uiFailedPages c).

(** The body of the loop [for (page = uiSkippedPages; page < uiBlocks;
    page++)] of write_card: one page.  [None] is the [return false] after a
    failed re-selection; otherwise bFailure and the counters afterwards. *)
Definition write_card_page (write_otp write_lock write_dyn_lock : bool)
    (page : Z) (bFailure : bool) (c : counters) : M (option (bool * counters)) :=
  ev1 <- gets iEV1Type ;;
  ntag <- gets iNTAGType ;;
  if negb write_lock && (page =? 0x2) then
    LOG (LogMark page MkSkip) ;;; ret (Some (bFailure, skip_page c))
  else if (page =? 0x3) && negb write_otp then
    LOG (LogMark page MkSkip) ;;; ret (Some (bFailure, skip_page c))
  else if is_dyn_lock_page ev1 ntag page && negb write_dyn_lock then
    LOG (LogMark page MkSkip) ;;; ret (Some (bFailure, skip_page c))
  else
    selected <- (if bFailure
                 then r <- nfc_initiator_select_passive_target ;;
                      ret (negb (r <=? 0))
                 else ret true) ;;
    if negb selected then ret None else
    modify (fun w =>
      set_mp (memcpy (mp w) 0
                (drop (ul (Z.to_nat (page / 4)) + Z.to_nat (page mod 4 * 4))
                   (mtDump w)) 4) w) ;;;
    modify (fun w => set_mp (memset (mp w) 4 0 12) w) ;;;
    ok <- nfc_initiator_mifare_cmd MC_WRITE page ;;
    let bFailure := negb ok in
    p <- print_success_or_failure page bFailure (uiWrittenPages c)
           (uiFailedPages c) ;;
    ret (Some (bFailure, mkCounters p.1 (uiSkippedPages c) p.2)).

(** The loop from the test of [page] on; the counters at loop exit, or
    [None] for [return false]. *)
Fixpoint write_card_loop (write_otp write_lock write_dyn_lock : bool)
    (fuel : nat) (page : Z) (bFailure : bool) (c : counters) : M (option counters) :=
  match fuel with
  | O => ret (Some c)
  | S fuel' =>
      n <- gets uiBlocks ;;
      if page <? n then
        r <- write_card_page write_otp write_lock write_dyn_lock page bFailure c ;;
        match r with
        | None => ret None
        | Some (bFailure, c) =>
            write_card_loop write_otp write_lock write_dyn_lock fuel'
              (wrap32 (page + 1)) bFailure c
        end
      else ret (Some c)
  end.

(** The second half of write_card, from "We may need to skip 2 first
    pages" on, with the flags as the prompts left them.  The fuel given to
    the loop is more than the number of pages (see [write_card_loop_fuel]). *)
Definition write_card_pages (write_otp write_lock write_dyn_lock write_uid : bool)
  : M bool :=
  n <- gets uiBlocks ;;
  unlocked <- (if negb write_uid
               then LOG (LogMark 0 MkSkip) ;;; LOG (LogMark 1 MkSkip) ;;; ret true
               else check_magic) ;;
  if negb unlocked then ret false else
  let c := mkCounters 0 (if negb write_uid then 2 else 0) 0 in
  r <- write_card_loop write_otp write_lock write_dyn_lock (S (Z.to_nat n))
         (uiSkippedPages c) false c ;;
  match r with
  | None => ret false
  | Some c =>
      LOG (LogWriteDone (uiWrittenPages c) n (uiSkippedPages c) (uiFailedPages c)) ;;;
      ret true
  end.

Definition write_card (write_otp write_lock write_dyn_lock write_uid : bool)
  : M bool :=
  f <- write_card_prompts write_otp write_lock write_dyn_lock write_uid ;;
  write_card_pages f.1.1.1 f.1.1.2 f.1.2 f.2.

(** *** Reading numbers from text (C library)

    sscanf and atoi belong to the C library.  [scan_2x] is one "%2x"
    directive as ISO C defines it (7.21.6.2): white space is skipped; the
    input item is the longest run of at most two characters that is, or
    starts, an optionally signed hexadecimal number with an optional 0x
    prefix; the directive fails when the item is empty or is only a sign
    or only the prefix.  It returns the unsigned int stored and the rest of
    the input.  C libraries differ on an item that is only the prefix:
    glibc before 2.38 stores 0 and reads on after the x.  The statements
    about ev1_load_pwd that depend on this case leave texts with 0x or 0X
    aside. *)

Definition isspace (c : ascii) : bool :=
  let n := Z.of_N (N_of_ascii c) in (n =? 32) || ((9 <=? n) && (n <=? 13)).

Definition hex_value (c : ascii) : option Z :=
  let n := Z.of_N (N_of_ascii c) in
  if (0x30 <=? n) && (n <=? 0x39) then Some (n - 0x30)
  else if (0x61 <=? n) && (n <=? 0x66) then Some (n - 0x61 + 10)
  else if (0x41 <=? n) && (n <=? 0x46) then Some (n - 0x41 + 10)
  else None.

Fixpoint skip_space (s : string) : string :=
  match s with
  | String c s' => if isspace c then skip_space s' else s
  | EmptyString => s
  end.

Definition scan_2x (s : string) : option (Z * string) :=
  match skip_space s with
  | EmptyString => None
  | String c1 s1 =>
      let n1 := Z.of_N (N_of_ascii c1) in
      if (n1 =? 0x2b) || (n1 =? 0x2d) then
        match s1 with
        | String c2 s2 =>
            match hex_value c2 with
            | Some d => Some (wrap32 (if n1 =? 0x2d then - d else d), s2)
            | None => None
            end
        | EmptyString => None
        end
      else
        match hex_value c1 with
        | None => None
        | Some d1 =>
            match s1 with
            | String c2 s2 =>
                let n2 := Z.of_N (N_of_ascii c2) in
                if (n1 =? 0x30) && ((n2 =? 0x78) || (n2 =? 0x58)) then None
                else
                  match hex_value c2 with
                  | Some d2 => Some (16 * d1 + d2, s2)
                  | None => Some (d1, s1)
                  end
            | EmptyString => Some (d1, s1)
            end
        end
  end.

(** sscanf(s, "%2x%2x...") with [n] directives: the values stored, in
    order; their number is what sscanf returns when at least one was
    stored. *)
Fixpoint sscanf_2x (n : nat) (s : string) : list Z :=
  match n with
  | O => []
  | S n' =>
      match scan_2x s with
      | Some (v, rest) => v :: sscanf_2x n' rest
      | None => []
      end
  end.

(** ev1_load_pwd(target, pwd): the value returned and [target] afterwards. *)
Definition ev1_load_pwd (target : list Z) (pwd : string) : bool * list Z :=
  let tmp := sscanf_2x 4 pwd in
  if negb (length tmp =? 4)%nat then (false, target)
  else (true, list_inserts 0 (wrap8 <$> tmp) target).

(** atoi(nptr).  ISO C defines its result only when the number fits an
    int.  This is atoi as glibc has it, (int) strtol (nptr, NULL, 10), with
    a 64-bit long: white space, an optional sign, then decimal digits; a
    number outside long is LONG_MAX or LONG_MIN; the conversion to int
    keeps the low 32 bits. *)
Fixpoint atoi_digits (s : string) (acc : Z) : Z :=
  match s with
  | String c s' =>
      let n := Z.of_N (N_of_ascii c) in
      if (0x30 <=? n) && (n <=? 0x39) then atoi_digits s' (10 * acc + (n - 0x30))
      else acc
  | EmptyString => acc
  end.

Definition LONG_MAX : Z := 2 ^ 63 - 1.
Definition LONG_MIN : Z := - 2 ^ 63.

Definition strtol_10 (s : string) : Z :=
  match skip_space s with
  | String c s' =>
      let n := Z.of_N (N_of_ascii c) in
      if n =? 0x2d then Z.max LONG_MIN (- atoi_digits s' 0)
      else if n =? 0x2b then Z.min LONG_MAX (atoi_digits s' 0)
      else Z.min LONG_MAX (atoi_digits (String c s') 0)
  | EmptyString => 0
  end.

(** The conversion of a long to int. *)
Definition to_int (x : Z) : Z := (x + 2 ^ 31) mod 2 ^ 32 - 2 ^ 31.

Definition atoi (s : string) : Z := to_int (strtol_10 s).

(** *** str_to_uid

    isxdigit, isupper, tolower and strtol belong to the C library; they are
    given here for the "C" locale.  A [string] stands for the characters of
    a C string before its terminating NUL, and [uid] for a buffer with room
    for MAX_UID_LEN bytes (a write past the end of a list does nothing
    here; in C it is undefined). *)

Definition MAX_UID_LEN : nat := 10.

Definition isxdigit (c : ascii) : bool :=
  let n := Z.of_N (N_of_ascii c) in
  ((0x30 <=? n) && (n <=? 0x39)) || ((0x61 <=? n) && (n <=? 0x66))
  || ((0x41 <=? n) && (n <=? 0x46)).

Definition isupper (c : ascii) : bool :=
  let n := Z.of_N (N_of_ascii c) in (0x41 <=? n) && (n <=? 0x5a).

Definition tolower (c : ascii) : ascii :=
  if isupper c then ascii_of_N (N_of_ascii c + 32) else c.

Fixpoint strtol_16_digits (s : string) (acc : Z) : Z :=
  match s with
  | String c s' =>
      match hex_value c with
      | Some d => strtol_16_digits s' (16 * acc + d)
      | None => acc
      end
  | EmptyString => acc
  end.

(** strtol(s, NULL, 16) for numbers that fit a long: white space, an
    optional sign, an optional 0x, then hexadecimal digits. *)
Definition strtol_16 (s : string) : Z :=
  let unsigned (t : string) :=
    match t with
    | String c1 (String c2 t') =>
        let n2 := Z.of_N (N_of_ascii c2) in
        if (Z.of_N (N_of_ascii c1) =? 0x30) && ((n2 =? 0x78) || (n2 =? 0x58))
        then strtol_16_digits t' 0
        else strtol_16_digits t 0
    | _ => strtol_16_digits t 0
    end in
  match skip_space s with
  | String c s' =>
      let n := Z.of_N (N_of_ascii c) in
      if n =? 0x2d then - unsigned s'
      else if n =? 0x2b then unsigned s'
      else unsigned (String c s')
  | EmptyString => 0
  end.

(** The while loop of str_to_uid, which runs to the end of the text or
    until [i >> 1] reaches MAX_UID_LEN: the uint8_t [i] and the buffer at
    loop exit.  [nibble] is the two-character array the C code hands to
    strtol: the character read and a newline. *)
Fixpoint str_to_uid_loop (str : string) (i : Z) (uid : list Z) : Z * list Z :=
  match str with
  | EmptyString => (i, uid)
  | String c str' =>
      if Z.shiftr i 1 <? Z.of_nat MAX_UID_LEN then
        if isxdigit c then
          let c := if isupper c then tolower c else c in
          let nibble := String c (String "010"%char EmptyString) in
          let k := Z.to_nat (Z.shiftr i 1) in
          let v :=
            Z.land (Z.shiftl (strtol_16 nibble) (if negb (i mod 2 =? 0) then 0 else 4))
              (if negb (i mod 2 =? 0) then 0x0f else 0xf0) in
          str_to_uid_loop str' (wrap8 (i + 1))
            (<[k := wrap8 (Z.lor (uid !!! k) v)]> uid)
        else str_to_uid_loop str' i uid
      else (i, uid)
  end.

(** str_to_uid(str, uid): the value returned and the buffer afterwards. *)
Definition str_to_uid (str : string) (uid : list Z) : Z * list Z :=
  let r := str_to_uid_loop str 0 (memset uid 0 0 MAX_UID_LEN) in
  (Z.shiftr r.1 1, r.2).

(** *** Hexadecimal text handed to LOG

    printf belongs to the C library: with the directive %02x a byte is
    printed as two lower-case hexadecimal digits. *)

Definition hex_char (d : Z) : ascii :=
  ascii_of_N (Z.to_N (if d <? 10 then 0x30 + d else 0x61 + (d - 10))).

Definition printf_02x (b : Z) : string :=
  String (hex_char (b / 16)) (String (hex_char (b mod 16)) EmptyString).

(** The loop over [szPos] of main (lines 627-630) and of
    list_passive_targets (lines 471-473), which logs each byte of abtUid
    with %02x: the text logged for a UID. *)
Fixpoint print_uid (abtUid : list Z) : string :=
  match abtUid with
  | [] => EmptyString
  | b :: rest => String.append (printf_02x b) (print_uid rest)
  end.

(** The hexadecimal text of the password in the line main logs before it
    authenticates (line 678): the four bytes, each with %02x. *)
Definition print_pwd (iPWD : list Z) : string :=
  String.append (printf_02x (iPWD !!! 0%nat))
    (String.append (printf_02x (iPWD !!! 1%nat))
       (String.append (printf_02x (iPWD !!! 2%nat)) (printf_02x (iPWD !!! 3%nat)))).

(** *** main *)

Inductive exit_status := EXIT_SUCCESS | EXIT_FAILURE.

(** A libnfc call of main of which only success or failure matters. *)
Definition nfc_call (c : call) : M bool :=
  r <- take_reply ;;
  match r with
  | Ack _ => issued c true ;;; ret true
  | Nak => issued c false ;;; ret false
  end.

(** nfc_close and nfc_exit return nothing: no reply is consumed. *)
Definition nfc_close : M unit := issued NfcClose true.
Definition nfc_exit : M unit := issued NfcExit true.

(** argv[i][j], a NUL past the end of the string. *)
Definition char_at (s : string) (j : nat) : Z :=
  match String.get j s with
  | Some c => Z.of_N (N_of_ascii c)
  | None => 0
  end.

(** printf of a text without conversions: its bytes go to stdout. *)
Definition bytes_of (s : string) : list Z :=
  (fun c => Z.of_N (N_of_ascii c)) <$> String.list_ascii_of_string s.

Definition printf (s : string) : M unit :=
  modify (fun w => set_stdout (stdout w ++ bytes_of s) w).

Definition TAB : string := String "009"%char EmptyString.
Definition LF : string := String "010"%char EmptyString.

(** print_usage(argv): the four format strings, with argv[0] in the place
    of the conversion. *)
Definition print_usage (argv : list string) : M unit :=
  let argv0 := hd EmptyString argv in
  printf ("usage:" +:+ LF) ;;;
  printf (TAB +:+ argv0 +:+ " -d    => log some debug information" +:+ LF) ;;;
  printf (TAB +:+ argv0 +:+ " 28 45 => print bytes 28 to 45 from nfc chip" +:+ LF) ;;;
  printf (TAB +:+ argv0 +:+ " 30    => print bytes 30 to 45 from nfc chip" +:+ LF).

(** The argument loop of main over [args], the arguments from argv[i] on;
    [None] is [print_usage(argv); exit(EXIT_FAILURE)], otherwise start_byte
    and stop_byte at loop exit. *)
Fixpoint main_args (argv args : list string) (start_byte stop_byte : Z)
  : M (option (Z * Z)) :=
  match args with
  | [] => ret (Some (start_byte, stop_byte))
  | arg :: args' =>
      if char_at arg 0 =? 0x2d then
        if char_at arg 1 =? 0x64 then
          modify (set_logging 1) ;;; main_args argv args' start_byte stop_byte
        else if char_at arg 1 =? 0x77 then
          modify (set_wait_for_tag 1) ;;; main_args argv args' start_byte stop_byte
        else print_usage argv ;;; ret None
      else
        let val := atoi arg in
        if 0 <? val then
          if start_byte =? -1 then main_args argv args' val stop_byte
          else if stop_byte =? -1 then main_args argv args' start_byte val
          else print_usage argv ;;; ret None
        else main_args argv args' start_byte stop_byte
  end.

Definition list_passive_targets : M Z :=
  ok <- nfc_call NfcInitiatorInit ;;
  if negb ok then ret (-1) else
  _ <- nfc_call NfcListPassiveTargets ;;
  ret 0.

(** The loop [do ... while (wait_for_tag)]: [Some true] when a tag was
    selected, [Some false] for [exit(EXIT_FAILURE)], [None] when the fuel
    ran out with the tool still polling. *)
Fixpoint main_select (fuel : nat) : M (option bool) :=
  match fuel with
  | O => ret None
  | S fuel' =>
      r <- nfc_initiator_select_passive_target ;;
      if r <=? 0 then
        waiting <- gets wait_for_tag ;;
        if waiting =? 0 then nfc_close ;;; nfc_exit ;;; ret (Some false)
        else main_select fuel'
      else modify (set_wait_for_tag 0) ;;; ret (Some true)
  end.

(** Lines 633-674: "test if tag is EV1 or NTAG".  [false] is
    [exit(EXIT_FAILURE)]. *)
Definition main_tag_type : M bool :=
  ev1 <- get_ev1_version ;;
  if ev1 then
    b <- gets (fun w => abtRx w !!! 6%nat) ;;
    if (b =? 0x0b) || (b =? 0x00) then
      modify (set_uiBlocks 20) ;;; modify (set_iEV1Type EV1_UL11) ;;; ret true
    else if b =? 0x0e then
      modify (set_uiBlocks 41) ;;; modify (set_iEV1Type EV1_UL21) ;;; ret true
    else if b =? 0x0f then
      modify (set_uiBlocks 45) ;;; modify (set_iNTAGType NTAG_213) ;;; ret true
    else if b =? 0x11 then
      modify (set_uiBlocks 135) ;;; modify (set_iNTAGType NTAG_215) ;;; ret true
    else if b =? 0x13 then
      modify (set_uiBlocks 231) ;;; modify (set_iNTAGType NTAG_216) ;;; ret true
    else ret false
  else
    r <- nfc_initiator_select_passive_target ;;
    if r <=? 0 then nfc_close ;;; nfc_exit ;;; ret false
    else ret true.

(** Lines 676-687: "EV1 login required".  [false] is [exit(EXIT_FAILURE)]. *)
Definition main_login (bPWD : bool) : M bool :=
  if bPWD then
    pwd <- gets iPWD ;;
    ok <- ev1_pwd_auth pwd ;;
    if negb ok then ret false
    else modify (fun w => set_iPACK (memcpy (iPACK w) 0 (abtRx w) 2) w) ;;; ret true
  else ret true.

(** The bytes of mtDump with index in [start_byte, stop_byte), then a
    newline. *)
Definition main_print (start_byte stop_byte : Z) : M unit :=
  modify (fun w =>
    set_stdout
      (stdout w
       ++ omap (fun i => if (start_byte <=? Z.of_nat i) && (Z.of_nat i <? stop_byte)
                         then mtDump w !! i else None)
            (seq 0 sizeof_maxtag)
       ++ [10]) w).

(** main: [None] when the fuel of the polling loop ran out, otherwise the
    status the process exits with. *)
Definition main (fuel : nat) (argv : list string) : M (option exit_status) :=
  let bPWD := false in
  a <- main_args argv argv (-1) (-1) ;;
  match a with
  | None => ret (Some EXIT_FAILURE)
  | Some (start_byte, stop_byte) =>
      let start_byte := if start_byte <? 0 then 28 else start_byte in
      let stop_byte := if stop_byte <? 0 then 45 else stop_byte in
      ok <- nfc_call NfcInit ;;
      if negb ok then ret (Some EXIT_FAILURE) else
      ok <- nfc_call NfcOpen ;;
      if negb ok then nfc_exit ;;; ret (Some EXIT_FAILURE) else
      r <- list_passive_targets ;;
      if negb (r =? 0) then nfc_close ;;; nfc_exit ;;; ret (Some EXIT_FAILURE) else
      ok <- nfc_call NfcInitiatorInit ;;
      if negb ok then nfc_close ;;; nfc_exit ;;; ret (Some EXIT_FAILURE) else
      r <- nfc_device_set_property_bool NP_INFINITE_SELECT false ;;
      if r <? 0 then nfc_close ;;; nfc_exit ;;; ret (Some EXIT_FAILURE) else
      sel <- main_select fuel ;;
      match sel with
      | None => ret None
      | Some false => ret (Some EXIT_FAILURE)
      | Some true =>
          atqa1 <- gets (fun w => nt w !!! 1%nat) ;;
          if negb (atqa1 =? 0x44)
          then nfc_close ;;; nfc_exit ;;; ret (Some EXIT_FAILURE) else
          ok <- main_tag_type ;;
          if negb ok then ret (Some EXIT_FAILURE) else
          ok <- main_login bPWD ;;
          if negb ok then ret (Some EXIT_FAILURE) else
          modify (set_mtDump (replicate sizeof_maxtag 0)) ;;;
          _ <- read_card ;;
          main_print start_byte stop_byte ;;;
          nfc_close ;;; nfc_exit ;;; ret (Some EXIT_SUCCESS)
      end
  end.

End Tool.

(** ** The process at start

    The file-scope variables with their initialisers (static storage is
    zeroed), a reader that is configured for ordinary frames, and what the
    environment supplies: the reader's replies, the lines on standard input
    and the contents of uninitialised locals. *)
Definition initial_world `{Declarations} (replies : list reply)
    (lines : list (option Z)) (junk_b0 : list Z) (junk_buf : Z) : world :=
  {| script := replies;
     trace := [];
     handle_crc := true;
     easy_framing := true;
     logging := 0;
     wait_for_tag := 0;
     nt := [];
     mp := replicate 16 0;
     mtDump := replicate sizeof_maxtag 0;
     uiBlocks := 0x10;
     uiReadPages := 0;
     iPWD := [0; 0; 0; 0];
     iPACK := [0; 0];
     iEV1Type := EV1_NONE;
     iNTAGType := NTAG_NONE;
     abtEV1 := [0x60; 0x00; 0x00];
     abtPWAuth := [0x1B; 0x00; 0x00; 0x00; 0x00; 0x00; 0x00];
     abtHalt := [0x50; 0x00; 0x00; 0x00];
     abtRx := replicate MAX_FRAME_LEN 0;
     szRxBits := 0;
     szRx := 0;
     stdin := lines;
     stdout := [];
     journal := [];
     junk_original_b0 := junk_b0;
     junk_buffer := junk_buf |}.

(** ** libnfc's declarations

    Modelled from the spec: mifare.h and iso14443a_crc are missing.  The
    spec fixes pages of 4 bytes, block reads of 16 bytes and an image buffer
    allocated for the largest variant; libnfc declares it as 58 blocks of 16
    bytes.  The field offsets follow the order of the tag's configuration
    pages (MF0UL11: pages 16 to 19 hold MOD..AUTH0, ACCESS.., PWD, PACK;
    MF0UL21: block 9 holds the lock bytes, two configuration pages and
    PWD, and the struct read for PACK starts with it; NTAG21x: one page per
    block).  The CRC is CRC_A of ISO/IEC 14443-3.  This instance serves to
    run the model on concrete inputs. *)
Definition crc_a_step (wCrc : Z) (b : Z) : Z :=
  let bt := Z.lxor b (Z.land wCrc 0xFF) in
  let bt := Z.land (Z.lxor bt (Z.shiftl bt 4)) 0xFF in
  Z.lxor (Z.lxor (Z.lxor (Z.shiftr wCrc 8) (Z.shiftl bt 8)) (Z.shiftl bt 3))
    (Z.shiftr bt 4).

Definition crc_a (data : list Z) : Z * Z :=
  let wCrc := fold_left crc_a_step data 0x6363 in
  (Z.land wCrc 0xFF, Z.land (Z.shiftr wCrc 8) 0xFF).

Definition libnfc : Declarations :=
  {| sizeof_maxtag := 928;
     mbc11_pwd := 8;
     mbc11_pack := 12;
     mbc21a_pwd := 12;
     mbc21b_pack := 0;
     mbc21356d_pwd := 0;
     mbc21356e_pack := 0;
     iso14443a_crc := crc_a |}.

(** ** Properties stated against the specification *)

Inductive variant := NONE | UL11 | UL21 | NTAG213 | NTAG215 | NTAG216.

(** The table of section 4.1 of the specification: version-response byte
    to variant and page count; [None] is UnknownVariant. *)
Definition classify (version_byte : Z) : option (variant * Z) :=
  if (version_byte =? 0x0b) || (version_byte =? 0x00) then Some (UL11, 20)
  else if version_byte =? 0x0e then Some (UL21, 41)
  else if version_byte =? 0x0f then Some (NTAG213, 45)
  else if version_byte =? 0x11 then Some (NTAG215, 135)
  else if version_byte =? 0x13 then Some (NTAG216, 231)
  else None.

(** The variant that a pair (iEV1Type, iNTAGType) stands for. *)
Definition variant_of (w : world) : option variant :=
  if (iEV1Type w =? EV1_NONE) && (iNTAGType w =? NTAG_NONE) then Some NONE
  else if (iEV1Type w =? EV1_UL11) && (iNTAGType w =? NTAG_NONE) then Some UL11
  else if (iEV1Type w =? EV1_UL21) && (iNTAGType w =? NTAG_NONE) then Some UL21
  else if (iEV1Type w =? EV1_NONE) && (iNTAGType w =? NTAG_213) then Some NTAG213
  else if (iEV1Type w =? EV1_NONE) && (iNTAGType w =? NTAG_215) then Some NTAG215
  else if (iEV1Type w =? EV1_NONE) && (iNTAGType w =? NTAG_216) then Some NTAG216
  else None.

(** The 16 bytes of a successful block read. *)
Definition block_of (r : reply) : option (list Z) :=
  match r with
  | Ack rx => if (length rx =? 16)%nat then Some rx else None
  | Nak => None
  end.

Definition is_mifare_cmd (e : call * bool) : bool :=
  match e.1 with NfcMifareCmd _ _ _ => true | _ => false end.

(** Text made of hexadecimal digits only. *)
Fixpoint all_hex (s : string) : bool :=
  match s with
  | EmptyString => true
  | String c s' => if hex_value c is Some _ then all_hex s' else false
  end.

(** The format the specification gives for a password (section 4.4): four
    groups of two hexadecimal digits, XXXXXXXX. *)
Definition four_hex_groups (s : string) : bool :=
  (String.length s =? 8)%nat && all_hex s.

(** A text in which a 0 is followed by x or X. *)
Fixpoint has_0x (s : string) : bool :=
  match s with
  | String c1 s' =>
      match s' with
      | String c2 _ =>
          ((Z.of_N (N_of_ascii c1) =? 0x30)
           && ((Z.of_N (N_of_ascii c2) =? 0x78) || (Z.of_N (N_of_ascii c2) =? 0x58)))
          || has_0x s'
      | EmptyString => false
      end
  | EmptyString => false
  end.

(** One field of a password text: white space, and then two hexadecimal
    digits, or one hexadecimal digit that no hexadecimal digit follows (a 0
    followed by x or X aside), or a sign and one hexadecimal digit.
    [hex_field s v rest]: [s] starts with a field of value [v], and [rest]
    follows it. *)
Inductive hex_field : string -> Z -> string -> Prop :=
| hex_field_space c s v rest :
    isspace c = true -> hex_field s v rest -> hex_field (String c s) v rest
| hex_field_two c1 c2 d1 d2 rest :
    hex_value c1 = Some d1 -> hex_value c2 = Some d2 ->
    hex_field (String c1 (String c2 rest)) (16 * d1 + d2) rest
| hex_field_one c1 d1 rest :
    hex_value c1 = Some d1 ->
    (forall c2 rest', rest = String c2 rest' ->
       hex_value c2 = None
       /\ (c1 = "0"%char -> c2 <> "x"%char /\ c2 <> "X"%char)) ->
    hex_field (String c1 rest) d1 rest
| hex_field_plus c d rest :
    hex_value c = Some d -> hex_field (String "+" (String c rest)) d rest
| hex_field_minus c d rest :
    hex_value c = Some d ->
    hex_field (String "-" (String c rest)) (wrap32 (- d)) rest.

(** [hex_fields s vs rest]: [s] starts with as many fields as [vs] has
    values, with these values, and [rest] follows them. *)
Inductive hex_fields : string -> list Z -> string -> Prop :=
| hex_fields_nil s : hex_fields s [] s
| hex_fields_cons s v s1 vs rest :
    hex_field s v s1 -> hex_fields s1 vs rest -> hex_fields s (v :: vs) rest.

(** No field starts [s]: after white space the text ends, or it goes on
    with a character that is neither a hexadecimal digit nor a sign, or
    with a sign that no hexadecimal digit follows. *)
Inductive no_hex_field : string -> Prop :=
| no_hex_field_space c s :
    isspace c = true -> no_hex_field s -> no_hex_field (String c s)
| no_hex_field_end : no_hex_field EmptyString
| no_hex_field_char c s :
    isspace c = false -> hex_value c = None -> c <> "+"%char -> c <> "-"%char ->
    no_hex_field (String c s)
| no_hex_field_sign c :
    c = "+"%char \/ c = "-"%char -> no_hex_field (String c EmptyString)
| no_hex_field_sign_char c c2 s :
    c = "+"%char \/ c = "-"%char -> hex_value c2 = None ->
    no_hex_field (String c (String c2 s)).

(** One run of unlock_card as the reader sees it: the calls made, each with
    its outcome, and the value returned.  [halt] is the halt frame with its
    CRC; [h] is the outcome of sending it, which is ignored. *)
Inductive backdoor (halt : list Z) : list (call * bool) -> bool -> Prop :=
| backdoor_crc_off_fails :
    backdoor halt [(NfcSetProperty NP_HANDLE_CRC false, false)] false
| backdoor_framing_off_fails :
    backdoor halt
      [(NfcSetProperty NP_HANDLE_CRC false, true);
       (NfcSetProperty NP_EASY_FRAMING false, false)] false
| backdoor_bits_fail h :
    backdoor halt
      [(NfcSetProperty NP_HANDLE_CRC false, true);
       (NfcSetProperty NP_EASY_FRAMING false, true);
       (NfcTransceiveBytes halt, h);
       (NfcTransceiveBits [0x40] 7, false)] false
| backdoor_bytes_fail h :
    backdoor halt
      [(NfcSetProperty NP_HANDLE_CRC false, true);
       (NfcSetProperty NP_EASY_FRAMING false, true);
       (NfcTransceiveBytes halt, h);
       (NfcTransceiveBits [0x40] 7, true);
       (NfcTransceiveBytes [0x43], false)] false
| backdoor_crc_on_fails h :
    backdoor halt
      [(NfcSetProperty NP_HANDLE_CRC false, true);
       (NfcSetProperty NP_EASY_FRAMING false, true);
       (NfcTransceiveBytes halt, h);
       (NfcTransceiveBits [0x40] 7, true);
       (NfcTransceiveBytes [0x43], true);
       (NfcSetProperty NP_HANDLE_CRC true, false)] false
| backdoor_framing_on_fails h :
    backdoor halt
      [(NfcSetProperty NP_HANDLE_CRC false, true);
       (NfcSetProperty NP_EASY_FRAMING false, true);
       (NfcTransceiveBytes halt, h);
       (NfcTransceiveBits [0x40] 7, true);
       (NfcTransceiveBytes [0x43], true);
       (NfcSetProperty NP_HANDLE_CRC true, true);
       (NfcSetProperty NP_EASY_FRAMING true, false)] false
| backdoor_unlocked h :
    backdoor halt
      [(NfcSetProperty NP_HANDLE_CRC false, true);
       (NfcSetProperty NP_EASY_FRAMING false, true);
       (NfcTransceiveBytes halt, h);
       (NfcTransceiveBits [0x40] 7, true);
       (NfcTransceiveBytes [0x43], true);
       (NfcSetProperty NP_HANDLE_CRC true, true);
       (NfcSetProperty NP_EASY_FRAMING true, true)] true.

(** The calls the write loop of write_card may make. *)
Definition is_write_or_select (e : call * bool) : bool :=
  match e.1 with
  | NfcSelectPassiveTarget => true
  | NfcMifareCmd MC_WRITE _ _ => true
  | _ => false
  end.

(** The page write plan of section 3 of the specification: the pages a
    write session skips, from the four flags and the variant. *)
Definition plan_skips (write_otp write_lock write_dyn_lock : bool)
    (ev1 ntag page : Z) : bool :=
  (negb write_lock && (page =? 2))
  || ((page =? 3) && negb write_otp)
  || (is_dyn_lock_page ev1 ntag page && negb write_dyn_lock).

(** ... with pages 0 and 1, which are skipped unless write-UID is set. *)
Definition page_plan (write_otp write_lock write_dyn_lock write_uid : bool)
    (ev1 ntag page : Z) : bool :=
  (negb write_uid && (page <? 2))
  || plan_skips write_otp write_lock write_dyn_lock ev1 ntag page.

Definition mark_page (l : logline) : option Z :=
  match l with LogMark p _ => Some p | _ => None end.

(** A page write addressed to page [p]. *)
Definition is_write_to (p : Z) (e : call * bool) : bool :=
  match e.1 with
  | NfcMifareCmd MC_WRITE q _ => q =? p
  | _ => false
  end.

(** A call that is not a page write, or a page write to one of the pages
    0 to 2. *)
Definition probe_call (e : call * bool) : Prop :=
  match e.1 with
  | NfcMifareCmd MC_WRITE q _ => 0 <= q <= 2
  | _ => True
  end.

(** A call of the write loop over the pages from [lo] to [hi - 1]: a
    re-selection, or a page write to a page of the range that the plan
    does not skip. *)
Definition loop_call (write_otp write_lock write_dyn_lock : bool)
    (ev1 ntag lo hi : Z) (e : call * bool) : Prop :=
  match e.1 with
  | NfcSelectPassiveTarget => True
  | NfcMifareCmd MC_WRITE q _ =>
      lo <= q < hi /\ plan_skips write_otp write_lock write_dyn_lock ev1 ntag q = false
  | _ => False
  end.

(** The sum of the three counters. *)
Definition tally (c : counters) : Z :=
  uiWrittenPages c + uiSkippedPages c + uiFailedPages c.

(** A call that is not the transmission of a byte frame, or the
    transmission of a frame that starts with 0x60, the version query.  The
    password-authentication frame starts with 0x1B. *)
Definition version_query_only (e : call * bool) : Prop :=
  match e.1 with
  | NfcTransceiveBytes tx => hd 0 tx = 0x60
  | _ => True
  end.

(** The byte ranges (offset, length) of the image that copy_secrets writes
    for the tag type in [w]. *)
Definition secret_fields `{Declarations} (w : world) : list (nat * nat) :=
  (if iEV1Type w =? EV1_UL11
   then [((ul 4 + mbc11_pwd)%nat, 4%nat); ((ul 4 + mbc11_pack)%nat, 2%nat)]
   else if iEV1Type w =? EV1_UL21
   then [((ul 9 + mbc21a_pwd)%nat, 4%nat); ((ul 9 + mbc21b_pack)%nat, 2%nat)]
   else [])
  ++ (if iNTAGType w =? NTAG_213
      then [((nt_ 43 + mbc21356d_pwd)%nat, 4%nat);
            ((nt_ 44 + mbc21356e_pack)%nat, 2%nat)]
      else if iNTAGType w =? NTAG_215
      then [((nt_ 133 + mbc21356d_pwd)%nat, 4%nat);
            ((nt_ 134 + mbc21356e_pack)%nat, 2%nat)]
      else if iNTAGType w =? NTAG_216
      then [((nt_ 229 + mbc21356d_pwd)%nat, 4%nat);
            ((nt_ 230 + mbc21356e_pack)%nat, 2%nat)]
      else []).

(** Every byte of the image inside a secret field is zero. *)
Definition secrets_zero `{Declarations} (w : world) : Prop :=
  forall f i, In f (secret_fields w) ->
    (f.1 <= i < f.1 + f.2)%nat -> (i < length (mtDump w))%nat ->
    mtDump w !! i = Some 0.

(** ** Notions for the properties read off the code *)

(** The values of the hexadecimal digits of a text, in order; the other
    characters are left out. *)
Fixpoint hex_digits (s : string) : list Z :=
  match s with
  | EmptyString => []
  | String c s' =>
      match hex_value c with
      | Some d => d :: hex_digits s'
      | None => hex_digits s'
      end
  end.

(** The bytes that a sequence of nibbles denotes, high nibble first; a last
    nibble without a partner is the high nibble of a byte. *)
Fixpoint pack_nibbles (ds : list Z) : list Z :=
  match ds with
  | d1 :: d2 :: ds' => (16 * d1 + d2) :: pack_nibbles ds'
  | [d1] => [16 * d1]
  | [] => []
  end.

(** The frame the write loop of write_card sends for page [p] of the
    image: the four bytes of the page, then twelve zero bytes. *)
Definition page_frame (img : list Z) (p : Z) : list Z :=
  take 4 (drop (Z.to_nat (4 * p)) img) ++ replicate 12 0.

(** A call that is not a page write, or a page write that carries the
    page of the image [img] it is addressed to. *)
Definition carries_page (img : list Z) (e : call * bool) : Prop :=
  match e.1 with
  | NfcMifareCmd MC_WRITE p data => data = page_frame img p
  | _ => True
  end.

(** The calls of the write loop of write_card as the reader sees them,
    from a state in which the last page write has failed ([true]) or not,
    with the value write_card returns: a page write follows a successful
    write directly and a failed one after a re-selection; a failed
    re-selection ends the session with false, the end of the pages with
    true. *)
Inductive session : bool -> list (call * bool) -> bool -> Prop :=
| session_done bFailure : session bFailure [] true
| session_write p data ok evs res :
    session (negb ok) evs res ->
    session false ((NfcMifareCmd MC_WRITE p data, ok) :: evs) res
| session_reselect p data ok evs res :
    session (negb ok) evs res ->
    session true ((NfcSelectPassiveTarget, true)
                  :: (NfcMifareCmd MC_WRITE p data, ok) :: evs) res
| session_lost : session true [(NfcSelectPassiveTarget, false)] false.

(** The number of replies at the head of a script that are successful
    block reads. *)
Fixpoint leading_blocks (rs : list reply) : nat :=
  match rs with
  | r :: rs' => if block_of r is Some _ then S (leading_blocks rs') else 0%nat
  | [] => 0%nat
  end.

(** The mark [m] for each of the [n] pages from [p] on. *)
Definition marks (m : mark) (p n : Z) : list logline :=
  (fun q => LogMark q m) <$> seqZ p n.

(** An argument that starts with '-'. *)
Definition is_option (arg : string) : bool := char_at arg 0 =? 0x2d.

(** The options -d and -w; only the character after the '-' is looked
    at. *)
Definition is_option_d (arg : string) : bool :=
  is_option arg && (char_at arg 1 =? 0x64).
Definition is_option_w (arg : string) : bool :=
  is_option arg && negb (char_at arg 1 =? 0x64) && (char_at arg 1 =? 0x77).

(** Any other option. *)
Definition unknown_option (arg : string) : bool :=
  is_option arg && negb (char_at arg 1 =? 0x64) && negb (char_at arg 1 =? 0x77).

(** The text that print_usage writes for a program called [argv0]. *)
Definition usage_text (argv0 : string) : string :=
  "usage:" +:+ LF
  +:+ TAB +:+ argv0 +:+ " -d    => log some debug information" +:+ LF
  +:+ TAB +:+ argv0 +:+ " 28 45 => print bytes 28 to 45 from nfc chip" +:+ LF
  +:+ TAB +:+ argv0 +:+ " 30    => print bytes 30 to 45 from nfc chip" +:+ LF.

(** The positive numbers among the arguments that are not options, in
    order, as atoi reads them. *)
Definition positive_numbers (argv : list string) : list Z :=
  List.filter (fun v => 0 <? v)
    (atoi <$> List.filter (fun a => negb (is_option a)) argv).

(** A call that does not change the tag: not a page write and not a bit
    frame (the unlock frame 0x40 is the only bit frame of the tool). *)
Definition reads_only (e : call * bool) : Prop :=
  match e.1 with
  | NfcMifareCmd MC_WRITE _ _ => False
  | NfcTransceiveBits _ _ => False
  | _ => True
  end.

(** The summary line of read_card. *)
Definition is_read_done (l : logline) : Prop :=
  match l with LogReadDone _ _ _ => True | _ => False end.

(** The range of bytes main prints: the first two positive numbers among
    the arguments, as atoi reads them, 28 and 45 where they are missing. *)
Definition byte_range (argv : list string) : Z * Z :=
  match positive_numbers argv with
  | [] => (28, 45)
  | [a] => (a, 45)
  | a :: b :: _ => (a, b)
  end.

(** The reader was closed and libnfc released as the last two calls. *)
Definition closed_last (evs : list (call * bool)) : Prop :=
  exists pre, evs = pre ++ [(NfcClose, true); (NfcExit, true)].

(** The version bytes that the type test of main knows (lines 642-670). *)
Definition known_version_bytes : list Z := [0x0b; 0x00; 0x0e; 0x0f; 0x11; 0x13].

(** ** Concrete runs *)

(** An NTAG213 answering the version query: byte 6 of the response is 0x0f. *)
Definition ntag213_probe : world :=
  @initial_world libnfc
    [Ack []; Ack []; Ack [0x00; 0x04; 0x04; 0x02; 0x01; 0x00; 0x0f; 0x03];
     Ack []; Ack []] [] [] 0.

(** A plain Ultralight in front of a reader that works: the tool is started
    without arguments, the tag is selected, it does not answer the version
    query and is selected again; of the four block reads the first fails. *)
Definition first_stride_fails : world :=
  @initial_world libnfc
    [Ack []; Ack []; Ack []; Ack []; Ack []; Ack [];
     Ack [0x00; 0x44; 0x04; 0x01; 0x02; 0x03; 0x04; 0x05; 0x06];
     Ack []; Ack []; Nak; Ack []; Ack [];
     Ack [0x00; 0x44; 0x04; 0x01; 0x02; 0x03; 0x04; 0x05; 0x06];
     Nak; Ack (replicate 16 0x41); Ack (replicate 16 0x42);
     Ack (replicate 16 0x43)] [] [] 0.

(** An MF0UL21 (41 pages) whose k-th block read returns sixteen bytes k. *)
Definition ul21_last_stride : world :=
  set_uiBlocks 41 (set_iEV1Type EV1_UL21
    (@initial_world libnfc ((fun k => Ack (replicate 16 k)) <$> seqZ 1 11) [] [] 0)).

(** An MF0UL11 (20 pages) read with the password AA BB CC DD and the PACK
    EE FF known; the k-th block read returns sixteen bytes k. *)
Definition ul11_with_secrets : world :=
  set_uiBlocks 20 (set_iEV1Type EV1_UL11
    (set_iPWD [0xAA; 0xBB; 0xCC; 0xDD] (set_iPACK [0xEE; 0xFF]
      (@initial_world libnfc ((fun k => Ack (replicate 16 k)) <$> seqZ 1 5) [] [] 0)))).

(** A tag that does not answer the block read of the direct-write probe
    and acknowledges every page write, on a reader that works; the halt
    frame is not answered.  The local [original_b0] of check_magic holds
    DE AD BE EF 01 02 03 04 05 06 07 08. *)
Definition unreadable_tag : world :=
  @initial_world libnfc
    [Nak; Ack []; Ack []; Ack []; Ack []; Ack []; Nak; Ack [0x0A]; Ack [0x0A];
     Ack []; Ack []] []
    [0xDE; 0xAD; 0xBE; 0xEF; 0x01; 0x02; 0x03; 0x04; 0x05; 0x06; 0x07; 0x08] 0.

(** A direct-write tag (16 pages) written with write-UID set: the prompts
    for OTP and for the lock bytes are answered 'n', the block read of the
    probe returns the bytes 0 to 15, and every page write is
    acknowledged. *)
Definition uid_write_session : world :=
  @initial_world libnfc (Ack (seqZ 0 16) :: replicate 17 (Ack []))
    [Some 0x6e; Some 0x6e] [] 0.

(** The scenario of section 8 of the specification: an NTAG213 (45 pages)
    written with write-lock and write-dynamic-lock set; the prompts for
    OTP and UID are answered 'n'; every page write succeeds. *)
Definition ntag213_write : world :=
  set_uiBlocks 45 (set_iNTAGType NTAG_213
    (@initial_world libnfc (replicate 42 (Ack [])) [Some 0x6e; Some 0x6e] [] 0)).

(** An NTAG213 in front of a reader that works: the tool is started with
    -d, the tag is selected and answers the version query with byte 6 =
    0x0f, and each of the twelve block reads returns sixteen bytes FF. *)
Definition ntag213_dump : world :=
  @initial_world libnfc
    ([Ack []; Ack []; Ack []; Ack []; Ack []; Ack [];
      Ack [0x00; 0x44; 0x04; 0x01; 0x02; 0x03; 0x04; 0x05; 0x06];
      Ack []; Ack []; Ack [0x00; 0x04; 0x04; 0x02; 0x01; 0x00; 0x0f; 0x03];
      Ack []; Ack []]
     ++ replicate 12 (Ack (replicate 16 0xFF))) [] [] 0.

(** A direct-write tag: the block read returns sixteen bytes 0 to 15 and
    the three page writes are acknowledged. *)
Definition direct_write_tag : world :=
  @initial_world libnfc [Ack (seqZ 0 16); Ack []; Ack []; Ack []] [] [] 0.

(** A tag that accepts the write of page 0 and refuses the write of page
    1, on a reader with no further replies. *)
Definition write_protected_tag : world :=
  @initial_world libnfc [Ack (seqZ 0 16); Ack []; Nak] [] [] 0.

(** A plain Ultralight (16 pages) that is taken away during a write
    session: the three prompts are answered 'n', the write of page 4
    succeeds, the write of page 5 fails, and the tag cannot be selected
    again. *)
Definition tag_removed_while_writing : world :=
  @initial_world libnfc [Ack []; Nak; Nak] [Some 0x6e; Some 0x6e; Some 0x6e] [] 0.

(** An NTAG213 written by a user who answers the first prompt with 'y';
    standard input ends there. *)
Definition one_answer_yes : world :=
  set_uiBlocks 45 (set_iNTAGType NTAG_213
    (@initial_world libnfc [] [Some 0x79] [] 0)).

(** A plain Ultralight (16 pages) whose second block read fails; the
    other three return sixteen bytes 0x41. *)
Definition second_stride_fails : world :=
  @initial_world libnfc
    [Ack (replicate 16 0x41); Nak; Ack (replicate 16 0x41); Ack (replicate 16 0x41)]
    [] [] 0.

(** An NTAG213 (45 pages) read with the password AA BB CC DD and the PACK
    EE FF known; every block read returns sixteen zero bytes. *)
Definition ntag213_with_secrets : world :=
  set_uiBlocks 45 (set_iNTAGType NTAG_213
    (set_iPWD [0xAA; 0xBB; 0xCC; 0xDD] (set_iPACK [0xEE; 0xFF]
      (@initial_world libnfc (replicate 12 (Ack (replicate 16 0))) [] [] 0)))).

(** The image holds the bytes 0, 1, 2, ... (mod 256). *)
Definition counting_image : world :=
  set_mtDump ((fun i => i mod 256) <$> seqZ 0 928) (@initial_world libnfc [] [] [] 0).

(** The tool was started with -w and the tag arrives at the third
    selection. *)
Definition tag_arrives_late : world :=
  set_wait_for_tag 1
    (@initial_world libnfc
       [Nak; Nak; Ack [0x00; 0x44; 0x04; 0x01; 0x02; 0x03; 0x04; 0x05; 0x06]] [] [] 0).

(** A tag whose version response carries the storage-size byte 0x12, which
    the tool does not know: the tool is started without arguments, the tag
    is selected and answers the version query. *)
Definition unknown_version_replies : list reply :=
  [Ack []; Ack []; Ack []; Ack []; Ack []; Ack [];
   Ack [0x00; 0x44; 0x04; 0x01; 0x02; 0x03; 0x04; 0x05; 0x06];
   Ack []; Ack []; Ack [0x00; 0x04; 0x04; 0x02; 0x01; 0x00; 0x12; 0x03];
   Ack []; Ack []].

(** A computation preserves [I] when [I] holds after it whenever it held
    before. *)
Definition preserves {A} (I : world -> Prop) (m : M A) : Prop :=
  forall w, I w -> I (m w).2.

(** ** Reasoning in the monad *)

Lemma bind_eq {A B} (m : M A) (k : A -> M B) w a w1 :
  m w = (a, w1) -> bind m k w = k a w1.
Proof. unfold bind. intros ->. reflexivity. Qed.

Lemma bind_run {A B} (m : M A) (k : A -> M B) w :
  bind m k w = k (m w).1 (m w).2.
Proof. unfold bind. destruct (m w). reflexivity. Qed.

Lemma preserves_ret {A} I (a : A) : preserves I (ret a).
Proof. intros w H. exact H. Qed.

Lemma preserves_gets {A} I (f : world -> A) : preserves I (gets f).
Proof. intros w H. exact H. Qed.

Lemma preserves_modify I f :
  (forall w, I w -> I (f w)) -> preserves I (modify f).
Proof. intros Hf w H. apply Hf, H. Qed.

Lemma preserves_bind {A B} I (m : M A) (k : A -> M B) :
  preserves I m -> (forall a, preserves I (k a)) -> preserves I (bind m k).
Proof.
  intros Hm Hk w H. rewrite bind_run. apply Hk, Hm, H.
Qed.

Create HintDb pres.

(** One structural step of a preservation proof. *)
Ltac pres_step :=
  lazymatch goal with
  | |- preserves _ (bind _ _) => apply preserves_bind; [| intros ?]
  | |- preserves _ (ret _) => apply preserves_ret
  | |- preserves _ (gets _) => apply preserves_gets
  | |- preserves _ (modify _) => apply preserves_modify; intros ? ?; cbv beta
  | |- preserves _ take_reply => intros ? ?; unfold take_reply; cbv beta
  | |- preserves _ (if ?b then _ else _) => destruct b
  | |- preserves _ (match ?x with _ => _ end) => destruct x
  | |- preserves _ (let _ := _ in _) => cbv zeta
  end.

Ltac unfold_reader :=
  unfold nfc_device_set_property_bool, nfc_initiator_transceive_bytes,
    nfc_initiator_transceive_bits, nfc_initiator_select_passive_target,
    nfc_initiator_mifare_cmd, issued, LOG.

Ltac unfold_tool :=
  unfold transmit_bytes, transmit_bits, raw_mode_start, raw_mode_end,
    get_ev1_version, ev1_pwd_auth, unlock_card, print_success_or_failure,
    memcpy_mtDump, copy_secrets, read_card_stride, write_card_page,
    print_usage, printf.

(** Preservation by structure: [leaf] closes the goals left at [modify]
    and at [take_reply]; loops are taken from the hint database. *)
Ltac pres_with leaf :=
  repeat first
    [ solve [eauto with pres]
    | pres_step
    | progress unfold_reader
    | progress unfold_tool ];
  try solve [leaf].

(** ** Buffers *)

Lemma lookup_memcpy (dst : list Z) off src n (i : nat) :
  memcpy dst off src n !! i =
  if decide ((off <= i < off + n)%nat /\ (i < length dst)%nat
             /\ (i - off < length src)%nat)
  then src !! (i - off)%nat else dst !! i.
Proof.
  unfold memcpy. case_decide as H.
  - destruct H as (H1 & H2 & H3).
    rewrite list_lookup_inserts; [|rewrite length_take; lia|lia].
    rewrite lookup_take. case_decide; [done|lia].
  - destruct (decide (i < off)%nat); [by rewrite list_lookup_inserts_lt|].
    destruct (decide (off + length (take n src) <= i)%nat);
      [by rewrite list_lookup_inserts_ge|].
    rewrite length_take in *.
    assert (length dst <= i)%nat by lia.
    rewrite !lookup_ge_None_2; [done|lia|rewrite length_inserts; lia].
Qed.

Lemma length_memcpy (dst : list Z) off src n :
  length (memcpy dst off src n) = length dst.
Proof. apply length_inserts. Qed.

Section Verification.
Context {D : Declarations}.

(** ** The tag type (main, lines 633-674) *)

(** The three variables that describe the tag type are as in [w0]. *)
Definition same_type (w0 w : world) : Prop :=
  uiBlocks w = uiBlocks w0 /\ iEV1Type w = iEV1Type w0
  /\ iNTAGType w = iNTAGType w0.

Ltac same_type_leaf := unfold same_type in *; cbn; tauto.

Lemma get_ev1_version_same_type w0 : preserves (same_type w0) get_ev1_version.
Proof. pres_with same_type_leaf. Qed.

Lemma select_same_type w0 :
  preserves (same_type w0) nfc_initiator_select_passive_target.
Proof. pres_with same_type_leaf. Qed.

(** C1. With the type variables still at their initialisers, the code after
    a successful version probe sets variant and page count as the table of
    section 4.1 says for byte 6 of the response, sending nothing more; for a
    byte outside the table it returns the exit(EXIT_FAILURE), again having
    sent nothing more; without a version response the tag stays a plain
    Ultralight (NONE) with the default 16 pages. *)
Theorem main_tag_type_classify (w : world) :
  uiBlocks w = 0x10 -> iEV1Type w = EV1_NONE -> iNTAGType w = NTAG_NONE ->
  let probe := get_ev1_version w in
  let r := main_tag_type w in
  if probe.1 then
    match classify (abtRx probe.2 !!! 6%nat) with
    | Some (v, n) =>
        r.1 = true /\ variant_of r.2 = Some v /\ uiBlocks r.2 = n
        /\ trace r.2 = trace probe.2
    | None => r.1 = false /\ trace r.2 = trace probe.2
    end
  else variant_of r.2 = Some NONE /\ uiBlocks r.2 = 0x10.
Proof.
  intros Hn Hev Hnt. cbv zeta.
  pose proof (get_ev1_version_same_type w w) as Hp.
  unfold main_tag_type. rewrite bind_run.
  destruct (get_ev1_version w) as [ok w1]. cbn [fst snd] in *.
  destruct Hp as (Hn1 & Hev1 & Hnt1); [done|].
  destruct ok.
  - rewrite Hev in Hev1. rewrite Hnt in Hnt1.
    unfold classify, bind, gets, modify, ret. cbn.
    set (b := abtRx w1 !!! 6%nat).
    destruct ((b =? 11) || (b =? 0)) eqn:E1;
      [|destruct (b =? 14) eqn:E2;
        [|destruct (b =? 15) eqn:E3;
          [|destruct (b =? 17) eqn:E4; [|destruct (b =? 19) eqn:E5]]]];
      cbn; unfold variant_of; cbn; rewrite ?Hev1, ?Hnt1; done.
  - pose proof (select_same_type w w1) as Hs.
    rewrite bind_run.
    destruct (nfc_initiator_select_passive_target w1) as [r w2].
    cbn [fst snd] in *.
    destruct Hs as (Hn2 & Hev2 & Hnt2); [unfold same_type; repeat split; congruence|].
    assert (variant_of w2 = Some NONE /\ uiBlocks w2 = 16) as Hgoal.
    { unfold variant_of. rewrite Hev2, Hnt2, Hn2, Hev, Hnt, Hn. done. }
    case_match; [|exact Hgoal].
    unfold nfc_close, nfc_exit, issued, bind, modify, ret; cbn.
    unfold variant_of in *. cbn. exact Hgoal.
Qed.

(** ** The read loop *)

Lemma read_card_count_pres I n : forall page bF f,
  (forall w v, I w -> I (set_journal v w)) ->
  (forall w v, I w -> I (set_uiReadPages v w)) ->
  preserves I (read_card_count n page bF f).
Proof.
  induction n as [|n IH]; intros page bF f Hj Hr; cbn [read_card_count];
    pres_with ltac:(eauto).
Qed.

(** One stride: it consumes one reply, and copies the block read into the
    image when the read succeeded. *)
Lemma read_card_stride_spec page bF f w :
  let r := read_card_stride page bF f w in
  script r.2 = tl (script w) /\ uiBlocks r.2 = uiBlocks w
  /\ mtDump r.2 =
       match block_of (hd Nak (script w)) with
       | Some rx =>
           memcpy (mtDump w) (ul (Z.to_nat (page / 4))) rx
             (Z.to_nat (if wrap32 (uiBlocks w - page) <? 4
                        then wrap32 (wrap32 (uiBlocks w - page) * 4) else 16))
       | None => mtDump w
       end
  /\ r.1.1 = (if block_of (hd Nak (script w)) is Some _ then bF else true).
Proof.
  cbv zeta. unfold read_card_stride.
  rewrite bind_run. cbn [gets fst snd].
  rewrite bind_run.
  assert (Hcmd : let c := nfc_initiator_mifare_cmd MC_READ page w in
            script c.2 = tl (script w) /\ uiBlocks c.2 = uiBlocks w
            /\ mtDump c.2 = mtDump w
            /\ c.1 = (if block_of (hd Nak (script w)) is Some _ then true else false)
            /\ (forall rx, block_of (hd Nak (script w)) = Some rx -> mp c.2 = rx)).
  { unfold nfc_initiator_mifare_cmd, take_reply, issued, bind, gets, modify, ret.
    cbn. destruct (hd Nak (script w)) as [|rx]; cbn; [by repeat split|].
    destruct (length rx =? 16)%nat; cbn; repeat split; congruence. }
  cbv zeta in Hcmd.
  destruct (nfc_initiator_mifare_cmd MC_READ page w) as [ok w1].
  cbn [fst snd] in *. destruct Hcmd as (Hs & Hn & Hd & Hok & Hmp).
  rewrite bind_run.
  set (w2 := ((if ok then modify _ else ret tt) w1).2).
  rewrite bind_run. cbn [ret fst snd].
  set (k := Z.to_nat _). set (bF' := if ok then bF else true).
  pose proof (read_card_count_pres
    (fun w' => script w' = script w2 /\ uiBlocks w' = uiBlocks w2
               /\ mtDump w' = mtDump w2) k page bF' f) as Hc.
  destruct (Hc ltac:(done) ltac:(done) w2 ltac:(done)) as (-> & -> & ->).
  subst w2 bF'. rewrite Hok.
  destruct (block_of (hd Nak (script w))) as [rx|] eqn:Hb; cbn.
  - rewrite Hs, Hn, Hd, (Hmp rx eq_refl). done.
  - done.
Qed.

(** The image after the read loop, byte by byte: inside the pages of a
    stride whose block read succeeded, the byte read; elsewhere, the byte
    the image held before. *)
Lemma read_card_loop_image fuel : forall page bF f w (i : nat),
  0 <= page -> page mod 4 = 0 -> uiBlocks w <= 2 ^ 32 - 4 ->
  4 * uiBlocks w <= Z.of_nat (length (mtDump w)) ->
  uiBlocks w - page < 4 * Z.of_nat fuel ->
  mtDump (read_card_loop fuel page bF f w).2 !! i =
    if decide (4 * page <= Z.of_nat i < 4 * uiBlocks w) then
      match block_of (nth (Z.to_nat ((Z.of_nat i - 4 * page) / 16)) (script w) Nak) with
      | Some rx => rx !! Z.to_nat (Z.of_nat i mod 16)
      | None => mtDump w !! i
      end
    else mtDump w !! i.
Proof.
  induction fuel as [|fuel IH]; intros page bF f w i Hp Hm Hn Hlen Hfuel.
  - cbn. case_decide; [lia|done].
  - cbn [read_card_loop]. rewrite bind_run. cbn [gets fst snd].
    destruct (page <? uiBlocks w) eqn:Hlt; [|cbn; case_decide; [lia|done]].
    apply Z.ltb_lt in Hlt.
    rewrite bind_run.
    pose proof (read_card_stride_spec page bF f w) as Hs. cbv zeta in Hs.
    destruct (read_card_stride page bF f w) as [[bF1 f1] w1]. cbn [fst snd] in *.
    destruct Hs as (Hscr & Hblk & Himg & _).
    assert (Hw : wrap32 (page + 4) = page + 4).
    { unfold wrap32. apply Z.mod_small. lia. }
    assert (Hd : wrap32 (uiBlocks w - page) = uiBlocks w - page).
    { unfold wrap32. apply Z.mod_small. lia. }
    assert (Hlen1 : length (mtDump w1) = length (mtDump w)).
    { rewrite Himg. destruct (block_of _); [apply length_memcpy|done]. }
    rewrite Hw, IH; [|lia|Z.to_euclidean_division_equations; lia|lia|lia|lia].
    rewrite Hblk, Hscr, Himg.
    assert (Hnth : forall k, nth k (tl (script w)) Nak = nth (S k) (script w) Nak).
    { intros k. destruct (script w); [by destruct k|done]. }
    rewrite Hnth.
    destruct (decide (4 * (page + 4) <= Z.of_nat i < 4 * uiBlocks w)) as [Hi|Hi].
    + rewrite decide_True by lia.
      replace (S (Z.to_nat ((Z.of_nat i - 4 * (page + 4)) / 16)))
        with (Z.to_nat ((Z.of_nat i - 4 * page) / 16))
        by (Z.to_euclidean_division_equations; lia).
      destruct (block_of (nth _ (script w) Nak)); [done|].
      destruct (block_of (hd Nak (script w))) as [rx|]; [|done].
      rewrite lookup_memcpy, decide_False; [done|].
      unfold ul. rewrite Hd.
      destruct (uiBlocks w - page <? 4) eqn:E; Z.to_euclidean_division_equations; lia.
    + destruct (decide (4 * page <= Z.of_nat i < 4 * uiBlocks w)) as [Hj|Hj].
      * replace (Z.to_nat ((Z.of_nat i - 4 * page) / 16)) with 0%nat
          by (Z.to_euclidean_division_equations; lia).
        replace (nth 0 (script w) Nak) with (hd Nak (script w))
          by (by destruct (script w)).
        destruct (block_of (hd Nak (script w))) as [rx|] eqn:Hb; [|done].
        assert (length rx = 16%nat) as Hrx.
        { destruct (hd Nak (script w)) as [|rx']; [done|]. cbn in Hb.
          destruct (length rx' =? 16)%nat eqn:E; [|done].
          apply Nat.eqb_eq in E. congruence. }
        rewrite lookup_memcpy, decide_True.
        -- f_equal. unfold ul. Z.to_euclidean_division_equations; lia.
        -- unfold ul. rewrite Hd, Hrx.
           destruct (uiBlocks w - page <? 4) eqn:E.
           ++ apply Z.ltb_lt in E. unfold wrap32. rewrite Z.mod_small by lia.
              Z.to_euclidean_division_equations; lia.
           ++ apply Z.ltb_ge in E. Z.to_euclidean_division_equations; lia.
      * destruct (block_of (hd Nak (script w))) as [rx|]; [|done].
        rewrite lookup_memcpy, decide_False; [done|].
        unfold ul. rewrite Hd.
        destruct (uiBlocks w - page <? 4) eqn:E.
        -- apply Z.ltb_lt in E. unfold wrap32. rewrite Z.mod_small by lia.
           Z.to_euclidean_division_equations; lia.
        -- apply Z.ltb_ge in E. Z.to_euclidean_division_equations; lia.
Qed.

(** C6. For every stride start [p] (a multiple of 4 below the page count)
    whose block read succeeds with the 16 bytes [rx], the read loop leaves
    the first min(4, uiBlocks - p) * 4 bytes of [rx] in the image at byte
    offset p * 4, and the rest of that 16-byte slot as it was: exactly that
    many bytes are copied. *)
Theorem read_card_stride_size (w : world) (p : Z) (rx : list Z) :
  0 <= p < uiBlocks w -> p mod 4 = 0 -> uiBlocks w <= 2 ^ 32 - 4 ->
  4 * uiBlocks w <= Z.of_nat (length (mtDump w)) ->
  block_of (nth (Z.to_nat (p / 4)) (script w) Nak) = Some rx ->
  let w' := (read_card_loop (S (Z.to_nat (uiBlocks w))) 0 false 0 w).2 in
  let off := Z.to_nat (p * 4) in
  let len := Z.to_nat (Z.min 4 (uiBlocks w - p) * 4) in
  take len (drop off (mtDump w')) = take len rx
  /\ take (16 - len) (drop (off + len) (mtDump w'))
     = take (16 - len) (drop (off + len) (mtDump w)).
Proof.
  intros Hp Hm Hn Hlen Hrx. cbv zeta.
  assert (Himg := fun i =>
    read_card_loop_image (S (Z.to_nat (uiBlocks w))) 0 false 0 w i
      ltac:(lia) ltac:(done) Hn Hlen ltac:(lia)).
  split; apply list_eq; intros j; rewrite !lookup_take, !lookup_drop, Himg.
  - case_decide as Hj; [|done].
    rewrite decide_True by lia.
    replace (Z.to_nat ((Z.of_nat (Z.to_nat (p * 4) + j) - 4 * 0) / 16))
      with (Z.to_nat (p / 4)) by (Z.to_euclidean_division_equations; lia).
    rewrite Hrx. f_equal. Z.to_euclidean_division_equations; lia.
  - case_decide as Hj; [|done].
    rewrite decide_False; [done|]. lia.
Qed.

(** ** The secrets in the image *)

(** What the read loop writes: the reader's script and trace, the parameter
    block, the image, the journal and the page counter. *)
Definition read_stable (I : world -> Prop) : Prop :=
  (forall w v, I w -> I (set_script v w))
  /\ (forall w page ok,
       I w -> I (set_trace (trace w ++ [(NfcMifareCmd MC_READ page [], ok)]) w))
  /\ (forall w v, I w -> I (set_mp v w)) /\ (forall w v, I w -> I (set_journal v w))
  /\ (forall w v, I w -> I (set_uiReadPages v w))
  /\ (forall w off src n, I w -> I (set_mtDump (memcpy (mtDump w) off src n) w)).

Lemma read_card_loop_pres I fuel : forall page bF f,
  read_stable I -> preserves I (read_card_loop fuel page bF f).
Proof.
  induction fuel as [|fuel IH];
    intros page bF f (Hs & Ht & Hm & Hj & Hr & Hd); cbn [read_card_loop].
  - pres_with idtac.
  - assert (read_stable I) as HI by (by repeat split).
    pres_with ltac:(eauto); by apply read_card_count_pres.
Qed.

Lemma copy_secrets_ul11 w (i : nat) :
  iEV1Type w = EV1_UL11 -> (i < 172)%nat ->
  mtDump (copy_secrets w).2 !! i =
    memcpy (memcpy (mtDump w) (ul 4 + mbc11_pwd) (iPWD w) 4)
      (ul 4 + mbc11_pack) (iPACK w) 2 !! i.
Proof.
  intros Hev Hi. unfold copy_secrets, memcpy_mtDump, bind, gets, modify, ret.
  cbn. rewrite Hev. cbn.
  repeat case_match; cbn; try done;
    rewrite lookup_memcpy, decide_False by (unfold nt_; lia);
    rewrite (lookup_memcpy _ (nt_ _ + _)), decide_False by (unfold nt_; lia);
    done.
Qed.

(** The state in which read_card runs copy_secrets. *)
Lemma read_card_run w :
  exists w1,
    (read_card w).2 = (copy_secrets w1).2
    /\ mtDump w1 = mtDump (read_card_loop (S (Z.to_nat (uiBlocks w))) 0 false 0 w).2
    /\ iPWD w1 = iPWD w /\ iPACK w1 = iPACK w /\ iEV1Type w1 = iEV1Type w
    /\ iNTAGType w1 = iNTAGType w
    /\ length (mtDump w1) = length (mtDump w).
Proof.
  unfold read_card. rewrite bind_run. cbn [gets fst snd].
  rewrite bind_run.
  pose proof (read_card_loop_pres
    (fun w' => iPWD w' = iPWD w /\ iPACK w' = iPACK w /\ iEV1Type w' = iEV1Type w
               /\ iNTAGType w' = iNTAGType w
               /\ length (mtDump w') = length (mtDump w))
    (S (Z.to_nat (uiBlocks w))) 0 false 0) as Hp.
  destruct (read_card_loop _ 0 false 0 w) as [r w0] eqn:E.
  specialize (Hp ltac:(repeat split; intros; cbn; rewrite ?length_memcpy; tauto) w
                 ltac:(done)).
  rewrite E in Hp. cbn [fst snd] in *.
  unfold bind, gets, LOG, modify, ret. cbn beta iota.
  match goal with |- context [copy_secrets ?x] => exists x end.
  destruct (copy_secrets _). cbn. split; [reflexivity|]. tauto.
Qed.

(** C8, as amended.  For an MF0UL11, whose configuration block has the
    password at offset 8 and the PACK at offset 12, read_card leaves the
    password in the four bytes of page 18 of the image and the PACK in the
    first two bytes of page 19, whatever the reads returned; the four bytes
    of page 4 and the first two of page 5 are those the tag returned for
    them when the block read of pages 4-7 succeeded. *)
Theorem read_card_ul11_secrets (w : world) :
  mbc11_pwd = 8%nat -> mbc11_pack = 12%nat ->
  iEV1Type w = EV1_UL11 -> uiBlocks w = 20 ->
  length (iPWD w) = 4%nat -> length (iPACK w) = 2%nat ->
  (80 <= length (mtDump w))%nat ->
  let w' := (read_card w).2 in
  take 4 (drop (4 * 18) (mtDump w')) = iPWD w
  /\ take 2 (drop (4 * 19) (mtDump w')) = iPACK w
  /\ forall rx, block_of (nth 1 (script w) Nak) = Some rx ->
       take 4 (drop (4 * 4) (mtDump w')) = take 4 rx
       /\ take 2 (drop (4 * 5) (mtDump w')) = take 2 (drop 4 rx).
Proof.
  intros Hpwd Hpack Hev Hn Hl1 Hl2 Hlen. cbv zeta.
  destruct (read_card_run w) as (w1 & -> & Himg & Hp1 & Hp2 & Hev1 & _ & Hlen1).
  assert (Hlk : forall i, (i < 172)%nat ->
            mtDump (copy_secrets w1).2 !! i =
            memcpy (memcpy (mtDump w1) 72 (iPWD w) 4) 76 (iPACK w) 2 !! i).
  { intros i Hi. rewrite copy_secrets_ul11 by congruence.
    rewrite Hpwd, Hpack, Hp1, Hp2. done. }
  split; [|split].
  - apply list_eq. intros j. rewrite lookup_take, lookup_drop.
    case_decide as Hj.
    + rewrite Hlk by lia. rewrite lookup_memcpy, decide_False by lia.
      rewrite lookup_memcpy, decide_True by lia. f_equal. lia.
    + symmetry. apply lookup_ge_None_2. lia.
  - apply list_eq. intros j. rewrite lookup_take, lookup_drop.
    case_decide as Hj.
    + rewrite Hlk by lia.
      rewrite lookup_memcpy, decide_True by (rewrite length_memcpy; lia).
      f_equal. lia.
    + symmetry. apply lookup_ge_None_2. lia.
  - intros rx Hrx.
    assert (Hrd : forall i, (16 <= i < 32)%nat ->
              mtDump (copy_secrets w1).2 !! i = rx !! (i - 16)%nat).
    { intros i Hi. rewrite Hlk by lia.
      rewrite lookup_memcpy, decide_False by lia.
      rewrite lookup_memcpy, decide_False by lia.
      rewrite Himg, read_card_loop_image by (rewrite ?Hn; first [done | lia]).
      rewrite decide_True by lia.
      replace (Z.to_nat ((Z.of_nat i - 4 * 0) / 16)) with 1%nat
        by (Z.to_euclidean_division_equations; lia).
      rewrite Hrx. f_equal. Z.to_euclidean_division_equations; lia. }
    split; apply list_eq; intros j; rewrite !lookup_take, !lookup_drop;
      (case_decide; [|done]); rewrite Hrd by lia; f_equal; lia.
Qed.

(** ** The password text *)

Lemma wrap32_small x : 0 <= x < 2 ^ 32 -> wrap32 x = x.
Proof. intros. unfold wrap32. by apply Z.mod_small. Qed.

Lemma hex_value_code c d :
  hex_value c = Some d ->
  let n := Z.of_N (N_of_ascii c) in
  (0x30 <= n <= 0x39 \/ 0x61 <= n <= 0x66 \/ 0x41 <= n <= 0x46) /\ 0 <= d <= 15.
Proof.
  unfold hex_value. cbv zeta. intros H.
  repeat case_match; simplify_eq; lia.
Qed.

Lemma scan_2x_two c1 c2 d1 d2 rest :
  hex_value c1 = Some d1 -> hex_value c2 = Some d2 ->
  scan_2x (String c1 (String c2 rest)) = Some (16 * d1 + d2, rest).
Proof.
  intros H1 H2.
  pose proof (hex_value_code _ _ H1) as [C1 _].
  pose proof (hex_value_code _ _ H2) as [C2 _]. cbv zeta in C1, C2.
  unfold scan_2x. cbn [skip_space]. unfold isspace.
  repeat (case_match; try lia; simplify_eq); done.
Qed.

Lemma scan_2x_one c1 d1 :
  hex_value c1 = Some d1 -> scan_2x (String c1 EmptyString) = Some (d1, EmptyString).
Proof.
  intros H1. pose proof (hex_value_code _ _ H1) as [C1 _]. cbv zeta in C1.
  unfold scan_2x. cbn [skip_space]. unfold isspace.
  repeat (case_match; try lia; simplify_eq); done.
Qed.

Lemma wrap8_byte d1 d2 :
  0 <= d1 <= 15 -> 0 <= d2 <= 15 -> wrap8 (16 * d1 + d2) = 16 * d1 + d2.
Proof. intros. unfold wrap8. apply Z.mod_small. lia. Qed.

Lemma scan_2x_space c s : isspace c = true -> scan_2x (String c s) = scan_2x s.
Proof. intros H. unfold scan_2x. cbn [skip_space]. by rewrite H. Qed.

Lemma ascii_code_inj (c1 c2 : ascii) :
  Z.of_N (N_of_ascii c1) = Z.of_N (N_of_ascii c2) -> c1 = c2.
Proof.
  intros H. apply N2Z.inj in H.
  by rewrite <- (ascii_N_embedding c1), <- (ascii_N_embedding c2), H.
Qed.

Lemma hex_not_space c d : hex_value c = Some d -> isspace c = false.
Proof.
  intros H. pose proof (hex_value_code _ _ H) as [C _]. cbv zeta in C.
  unfold isspace.
  destruct (Z.eqb_spec (Z.of_N (N_of_ascii c)) 32),
    (Z.leb_spec 9 (Z.of_N (N_of_ascii c))),
    (Z.leb_spec (Z.of_N (N_of_ascii c)) 13); cbn; first [done | lia].
Qed.

Lemma hex_not_sign c d :
  hex_value c = Some d ->
  (Z.of_N (N_of_ascii c) =? 0x2b) || (Z.of_N (N_of_ascii c) =? 0x2d) = false.
Proof.
  intros H. pose proof (hex_value_code _ _ H) as [C _]. cbv zeta in C.
  destruct (Z.eqb_spec (Z.of_N (N_of_ascii c)) 0x2b),
    (Z.eqb_spec (Z.of_N (N_of_ascii c)) 0x2d); cbn; first [done | lia].
Qed.

Lemma hex_field_scan s v rest : hex_field s v rest -> scan_2x s = Some (v, rest).
Proof.
  induction 1 as [c s v rest Hsp _ IH|c1 c2 d1 d2 rest H1 H2|c1 d1 rest H1 Hnext
                 |c d rest H1|c d rest H1].
  - by rewrite scan_2x_space.
  - by apply scan_2x_two.
  - unfold scan_2x. cbn [skip_space].
    rewrite (hex_not_space _ _ H1), (hex_not_sign _ _ H1), H1.
    destruct rest as [|c2 rest']; [done|].
    destruct (Hnext c2 rest' eq_refl) as (-> & Hx).
    destruct (Z.eqb_spec (Z.of_N (N_of_ascii c1)) 0x30) as [E|E]; [|done].
    destruct Hx as [Hx HX]; [by apply ascii_code_inj|].
    destruct (Z.eqb_spec (Z.of_N (N_of_ascii c2)) 0x78) as [E1|E1];
      [destruct Hx; by apply ascii_code_inj|].
    destruct (Z.eqb_spec (Z.of_N (N_of_ascii c2)) 0x58) as [E2|E2];
      [destruct HX; by apply ascii_code_inj|].
    done.
  - pose proof (hex_value_code _ _ H1) as [_ Hd].
    assert (Hc : Z.of_N (N_of_ascii "+") = 0x2b) by reflexivity.
    unfold scan_2x. cbn [skip_space].
    replace (isspace "+") with false by reflexivity. cbv zeta.
    rewrite !Hc. cbn [Z.eqb Pos.eqb orb]. rewrite H1, wrap32_small by lia. done.
  - assert (Hc : Z.of_N (N_of_ascii "-") = 0x2d) by reflexivity.
    unfold scan_2x. cbn [skip_space].
    replace (isspace "-") with false by reflexivity. cbv zeta.
    rewrite !Hc. cbn [Z.eqb Pos.eqb orb]. rewrite H1. done.
Qed.

Lemma no_hex_field_scan s : no_hex_field s -> scan_2x s = None.
Proof.
  induction 1 as [c s Hsp _ IH| |c s Hsp Hh Hp Hm|c Hc|c c2 s Hc Hh].
  - by rewrite scan_2x_space.
  - done.
  - unfold scan_2x. cbn [skip_space]. rewrite Hsp, Hh.
    destruct (Z.eqb_spec (Z.of_N (N_of_ascii c)) 0x2b) as [E|E];
      [destruct Hp; by apply ascii_code_inj|].
    destruct (Z.eqb_spec (Z.of_N (N_of_ascii c)) 0x2d) as [E'|E'];
      [destruct Hm; by apply ascii_code_inj|].
    done.
  - by destruct Hc as [-> | ->].
  - assert (Hp : Z.of_N (N_of_ascii "+") = 0x2b) by reflexivity.
    assert (Hm : Z.of_N (N_of_ascii "-") = 0x2d) by reflexivity.
    destruct Hc as [-> | ->]; unfold scan_2x; cbn [skip_space].
    + replace (isspace "+") with false by reflexivity. cbv zeta.
      rewrite !Hp. cbn [Z.eqb Pos.eqb orb]. by rewrite Hh.
    + replace (isspace "-") with false by reflexivity. cbv zeta.
      rewrite !Hm. cbn [Z.eqb Pos.eqb orb]. by rewrite Hh.
Qed.

Lemma has_0x_tail c s : has_0x (String c s) = false -> has_0x s = false.
Proof.
  cbn [has_0x]. destruct s as [|c2 s]; [done|].
  intros H. by apply orb_false_iff in H as [_ H].
Qed.

Lemma hex_field_has_0x s v rest :
  hex_field s v rest -> has_0x s = false -> has_0x rest = false.
Proof.
  induction 1; intros Hs; eauto using has_0x_tail.
Qed.

(** At the start of a text without 0x there is a field or there is
    none. *)
Lemma hex_field_or_none s :
  has_0x s = false -> (exists v rest, hex_field s v rest) \/ no_hex_field s.
Proof.
  induction s as [|c s IH]; intros H0; [right; constructor|].
  destruct (isspace c) eqn:Hsp.
  { destruct (IH (has_0x_tail _ _ H0)) as [(v & rest & Hf)|Hn].
    - left. exists v, rest. by constructor.
    - right. by constructor. }
  destruct (decide (c = "+"%char)) as [->|Hp].
  { destruct s as [|c2 s]; [right; apply no_hex_field_sign; by left|].
    destruct (hex_value c2) as [d|] eqn:H2.
    - left. eexists _, _. by apply hex_field_plus.
    - right. apply no_hex_field_sign_char; [by left|done]. }
  destruct (decide (c = "-"%char)) as [->|Hm].
  { destruct s as [|c2 s]; [right; apply no_hex_field_sign; by right|].
    destruct (hex_value c2) as [d|] eqn:H2.
    - left. eexists _, _. by apply hex_field_minus.
    - right. apply no_hex_field_sign_char; [by right|done]. }
  destruct (hex_value c) as [d1|] eqn:H1; [|right; by constructor].
  left. destruct s as [|c2 s].
  { eexists _, _. apply hex_field_one; [done|]. by intros. }
  destruct (hex_value c2) as [d2|] eqn:H2.
  { eexists _, _. by apply hex_field_two. }
  eexists _, _. apply hex_field_one; [done|]. intros c2' rest' [= <- <-].
  split; [done|]. intros ->.
  cbn [has_0x] in H0. apply orb_false_iff in H0 as [H0 _].
  change (Z.of_N (N_of_ascii "0")) with 0x30 in H0. cbn [Z.eqb Pos.eqb andb] in H0.
  apply orb_false_iff in H0 as [Hx HX]. apply Z.eqb_neq in Hx, HX.
  split; intros ->; [by apply Hx|by apply HX].
Qed.

Lemma hex_fields_sscanf s vs rest :
  hex_fields s vs rest ->
  forall n, sscanf_2x (length vs + n) s = vs ++ sscanf_2x n rest.
Proof.
  induction 1 as [s|s v s1 vs rest Hf _ IH]; intros n; [done|].
  cbn [length Nat.add sscanf_2x]. rewrite (hex_field_scan _ _ _ Hf).
  cbn [app]. f_equal. apply IH.
Qed.

(** A text without 0x starts with [n] fields, or with fewer fields after
    which no field starts. *)
Lemma hex_fields_or_none (n : nat) : forall s,
  has_0x s = false ->
  (exists vs rest, length vs = n /\ hex_fields s vs rest)
  \/ (exists vs rest,
        (length vs < n)%nat /\ hex_fields s vs rest /\ no_hex_field rest).
Proof.
  induction n as [|n IH]; intros s Hs.
  { left. exists [], s. split; [done|constructor]. }
  destruct (hex_field_or_none s Hs) as [(v & s1 & Hf)|Hno].
  - destruct (IH s1 (hex_field_has_0x _ _ _ Hf Hs))
      as [(vs & rest & Hl & Hfs)|(vs & rest & Hl & Hfs & Hno)].
    + left. exists (v :: vs), rest. split; [cbn; lia|by econstructor].
    + right. exists (v :: vs), rest.
      split; [cbn; lia|]. split; [by econstructor|done].
  - right. exists [], s. split; [cbn; lia|]. split; [constructor|done].
Qed.

(** C7, as amended.  ev1_load_pwd reads four fields one after the other.
    It succeeds on every text that starts with four fields and stores the
    low byte of the value of each, whatever follows them (in particular
    on every text that starts with four groups of two hexadecimal digits);
    it fails, and leaves the target untouched, on every text in which,
    after fewer than four fields, no field starts.  A text without 0x and
    0X is of one kind or of the other. *)
Theorem ev1_load_pwd_hex (target : list Z) :
  (forall c1 c2 c3 c4 c5 c6 c7 c8 d1 d2 d3 d4 d5 d6 d7 d8 tail,
     hex_value c1 = Some d1 -> hex_value c2 = Some d2 ->
     hex_value c3 = Some d3 -> hex_value c4 = Some d4 ->
     hex_value c5 = Some d5 -> hex_value c6 = Some d6 ->
     hex_value c7 = Some d7 -> hex_value c8 = Some d8 ->
     ev1_load_pwd target
       (String c1 (String c2 (String c3 (String c4
          (String c5 (String c6 (String c7 (String c8 tail))))))))
     = (true, list_inserts 0
                [16 * d1 + d2; 16 * d3 + d4; 16 * d5 + d6; 16 * d7 + d8] target))
  /\ (forall s vs rest,
        length vs = 4%nat -> hex_fields s vs rest ->
        ev1_load_pwd target s = (true, list_inserts 0 (wrap8 <$> vs) target))
  /\ (forall s vs rest,
        (length vs < 4)%nat -> hex_fields s vs rest -> no_hex_field rest ->
        ev1_load_pwd target s = (false, target))
  /\ (forall s,
        has_0x s = false ->
        (exists vs rest, length vs = 4%nat /\ hex_fields s vs rest)
        \/ (exists vs rest,
              (length vs < 4)%nat /\ hex_fields s vs rest /\ no_hex_field rest)).
Proof.
  split; [|split; [|split]].
  - intros c1 c2 c3 c4 c5 c6 c7 c8 d1 d2 d3 d4 d5 d6 d7 d8 tail
      H1 H2 H3 H4 H5 H6 H7 H8.
    unfold ev1_load_pwd. cbn [sscanf_2x].
    rewrite (scan_2x_two _ _ _ _ _ H1 H2), (scan_2x_two _ _ _ _ _ H3 H4),
      (scan_2x_two _ _ _ _ _ H5 H6), (scan_2x_two _ _ _ _ _ H7 H8).
    cbn [length Nat.eqb negb fmap list_fmap].
    rewrite !wrap8_byte by (eapply hex_value_code; eassumption). done.
  - intros s vs rest Hl Hf. unfold ev1_load_pwd.
    pose proof (hex_fields_sscanf _ _ _ Hf 0) as Hs.
    rewrite Hl in Hs. change (sscanf_2x 0 rest) with (@nil Z) in Hs.
    rewrite app_nil_r in Hs. change (4 + 0)%nat with 4%nat in Hs.
    rewrite Hs, Hl. done.
  - intros s vs rest Hl Hf Hno. unfold ev1_load_pwd.
    pose proof (hex_fields_sscanf _ _ _ Hf (4 - length vs)) as Hs.
    replace (length vs + (4 - length vs))%nat with 4%nat in Hs by lia.
    destruct (4 - length vs)%nat as [|k] eqn:Hk; [lia|].
    assert (Hnone : sscanf_2x (S k) rest = [])
      by (cbn [sscanf_2x]; by rewrite (no_hex_field_scan _ Hno)).
    rewrite Hnone, app_nil_r in Hs.
    rewrite Hs. destruct (Nat.eqb_spec (length vs) 4); [lia|done].
  - intros s. apply hex_fields_or_none.
Qed.

(** ** The magic-tag unlocker *)

(** Each call of the reader adds one entry to the trace; its outcome is
    what the caller tests. *)
Lemma set_property_call p v w :
  let r := nfc_device_set_property_bool p v w in
  exists ok,
    trace r.2 = trace w ++ [(NfcSetProperty p v, ok)]
    /\ (r.1 <? 0) = negb ok /\ abtHalt r.2 = abtHalt w.
Proof.
  unfold nfc_device_set_property_bool, take_reply, issued, bind, gets, modify, ret.
  cbn. destruct (hd Nak (script w)); cbn; [by exists false|exists true].
  by destruct p.
Qed.

Lemma transmit_bytes_call tx n w :
  let r := transmit_bytes tx n w in
  exists ok,
    trace r.2 = trace w ++ [(NfcTransceiveBytes (take n tx), ok)]
    /\ r.1 = ok /\ abtHalt r.2 = abtHalt w.
Proof.
  unfold transmit_bytes, nfc_initiator_transceive_bytes, take_reply, issued,
    bind, gets, modify, ret.
  cbn. destruct (hd Nak (script w)) as [|rx]; cbn; [by exists false|].
  destruct (length rx <=? MAX_FRAME_LEN)%nat; cbn; [exists true|by exists false].
  repeat split. destruct (length rx); done.
Qed.

Lemma transmit_bits_call tx n w :
  let r := transmit_bits tx n w in
  exists ok,
    trace r.2 = trace w ++ [(NfcTransceiveBits (take (Z.to_nat ((n + 7) / 8)) tx) n, ok)]
    /\ r.1 = ok /\ abtHalt r.2 = abtHalt w.
Proof.
  unfold transmit_bits, nfc_initiator_transceive_bits, take_reply, issued,
    bind, gets, modify, ret.
  cbn. destruct (hd Nak (script w)) as [|rx]; cbn; [by exists false|].
  destruct (length rx <=? MAX_FRAME_LEN)%nat; cbn; [exists true|by exists false].
  repeat split. destruct (length rx); done.
Qed.

(** Run [m] at the head of a bind and name its result, final state and
    the facts [lem] states about them. *)
Ltac run_call lem r w' H :=
  rewrite bind_run;
  pose proof lem as H; cbv zeta in H;
  match type of H with
  | context [(?m ?w).2] => destruct (m w) as [r w']
  end; cbn [fst snd] in H |- *; cbv beta.

Lemma raw_mode_run (v : bool) (m : M bool) w :
  m = (r <- nfc_device_set_property_bool NP_HANDLE_CRC v ;;
       if r <? 0 then ret false else
       r <- nfc_device_set_property_bool NP_EASY_FRAMING v ;;
       if r <? 0 then ret false else ret true) ->
  abtHalt (m w).2 = abtHalt w
  /\ ((m w).1 = false
        /\ trace (m w).2 = trace w ++ [(NfcSetProperty NP_HANDLE_CRC v, false)]
      \/ (m w).1 = false
        /\ trace (m w).2 = trace w ++ [(NfcSetProperty NP_HANDLE_CRC v, true);
                                       (NfcSetProperty NP_EASY_FRAMING v, false)]
      \/ (m w).1 = true
        /\ trace (m w).2 = trace w ++ [(NfcSetProperty NP_HANDLE_CRC v, true);
                                       (NfcSetProperty NP_EASY_FRAMING v, true)]).
Proof.
  intros ->.
  run_call (set_property_call NP_HANDLE_CRC v w) r1 w1 H1.
  destruct H1 as (ok1 & Ht1 & -> & Hh1).
  destruct ok1; cbn [negb ret fst snd]; [|by auto].
  run_call (set_property_call NP_EASY_FRAMING v w1) r2 w2 H2.
  destruct H2 as (ok2 & Ht2 & -> & Hh2).
  destruct ok2; cbn [negb ret fst snd]; rewrite Ht2, Ht1, <- app_assoc;
    cbn [app]; (split; [congruence|auto]).
Qed.

Lemma unlock_card_run w :
  let r := unlock_card w in
  exists run,
    trace r.2 = trace w ++ run
    /\ backdoor (take 4 (iso14443a_crc_append (abtHalt w) 2)) run r.1.
Proof.
  cbv zeta. unfold unlock_card.
  rewrite bind_run.
  destruct (raw_mode_run false raw_mode_start w eq_refl) as (Hh0 & Hs).
  destruct (raw_mode_start w) as [r0 w0]. cbn [fst snd] in *.
  destruct Hs as [(-> & Ht0)|[(-> & Ht0)|(-> & Ht0)]]; cbn [negb ret fst snd];
    [eexists; split; [exact Ht0|constructor]..|].
  rewrite bind_run. cbn [modify fst snd]. rewrite bind_run. cbn [gets fst snd].
  set (w1 := set_abtHalt _ w0).
  run_call (transmit_bytes_call (abtHalt w1) 4 w1) r2 w2 H2.
  destruct H2 as (h & Ht2 & _ & Hh2).
  run_call (transmit_bits_call abtUnlock1 7 w2) r3 w3 H3.
  destruct H3 as (ok3 & Ht3 & -> & Hh3).
  assert (Hhalt : abtHalt w1 = iso14443a_crc_append (abtHalt w) 2).
  { subst w1. cbn. by rewrite Hh0. }
  assert (Ht1 : trace w1 = trace w0) by done.
  rewrite Hhalt in Ht2.
  destruct ok3; cbn [negb ret fst snd];
    [|eexists; split;
       [rewrite Ht3, Ht2, Ht1, Ht0, <- !app_assoc; reflexivity|constructor]].
  run_call (transmit_bytes_call abtUnlock2 1 w3) r4 w4 H4.
  destruct H4 as (ok4 & Ht4 & -> & Hh4).
  destruct ok4; cbn [negb ret fst snd];
    [|eexists; split;
       [rewrite Ht4, Ht3, Ht2, Ht1, Ht0, <- !app_assoc; reflexivity|constructor]].
  rewrite bind_run.
  destruct (raw_mode_run true raw_mode_end w4 eq_refl) as (_ & Hs).
  destruct (raw_mode_end w4) as [r5 w5]. cbn [fst snd] in *.
  destruct Hs as [(-> & Ht5)|[(-> & Ht5)|(-> & Ht5)]]; cbn [negb ret fst snd];
    (eexists; split;
       [rewrite Ht5, Ht4, Ht3, Ht2, Ht1, Ht0, <- !app_assoc; reflexivity
       |constructor]).
Qed.

(** ** The write loop *)

(** What one page of the write loop leaves alone. *)
Definition write_frame (w0 w : world) : Prop :=
  same_type w0 w /\ mtDump w = mtDump w0.

Lemma select_call w :
  let r := nfc_initiator_select_passive_target w in
  exists ok,
    trace r.2 = trace w ++ [(NfcSelectPassiveTarget, ok)]
    /\ (r.1 <=? 0) = negb ok /\ journal r.2 = journal w /\ write_frame w r.2.
Proof.
  unfold nfc_initiator_select_passive_target, take_reply, issued, bind,
    gets, modify, ret.
  cbn. destruct (hd Nak (script w)); cbn; [by exists false|by exists true].
Qed.

Lemma mifare_write_call page w :
  let r := nfc_initiator_mifare_cmd MC_WRITE page w in
  exists ok,
    trace r.2 = trace w ++ [(NfcMifareCmd MC_WRITE (wrap8 page) (mp w), ok)]
    /\ r.1 = ok /\ journal r.2 = journal w /\ write_frame w r.2.
Proof.
  unfold nfc_initiator_mifare_cmd, take_reply, issued, bind, gets, modify, ret.
  cbn. destruct (hd Nak (script w)); cbn; [by exists false|by exists true].
Qed.

(** The counters after a page with mark [m]. *)
Definition count_mark (m : mark) (c : counters) : counters :=
  match m with
  | MkSkip => skip_page c
  | MkOk => mkCounters (wrap32 (uiWrittenPages c + 1)) (uiSkippedPages c)
              (wrap32 (uiFailedPages c + 0))
  | MkFail => mkCounters (wrap32 (uiWrittenPages c + 0)) (uiSkippedPages c)
                (wrap32 (uiFailedPages c + 1))
  end.

Lemma write_card_page_skips page (bF : bool) c w :
  let r := (LOG (LogMark page MkSkip) ;;; ret (Some (bF, skip_page c))) w in
  write_frame w r.2
  /\ exists evs,
       trace r.2 = trace w ++ evs
       /\ Forall (fun e => is_write_or_select e = true) evs
       /\ (true = true -> evs = [])
       /\ match r.1 with
          | None => journal r.2 = journal w
          | Some (_, c') =>
              exists m, journal r.2 = journal w ++ [LogMark page m]
                        /\ (m = MkSkip <-> true = true) /\ c' = count_mark m c
          end.
Proof.
  unfold LOG, bind, modify, ret. cbn. split; [done|].
  exists []. rewrite app_nil_r. repeat split; [done|].
  exists MkSkip. by repeat split.
Qed.

Lemma write_card_reselect (bF : bool) w :
  let s := (if bF
            then r <- nfc_initiator_select_passive_target ;;
                 ret (negb (r <=? 0))
            else ret true) w in
  write_frame w s.2 /\ journal s.2 = journal w
  /\ exists evs, trace s.2 = trace w ++ evs
       /\ Forall (fun e => is_write_or_select e = true) evs.
Proof.
  destruct bF.
  - rewrite bind_run. pose proof (select_call w) as Hc. cbv zeta in Hc.
    destruct (nfc_initiator_select_passive_target w) as [r1 w1].
    cbn [fst snd ret] in *. destruct Hc as (ok & Ht & _ & Hj & Hf).
    repeat split; try apply Hf; try done.
    exists [(NfcSelectPassiveTarget, ok)]. split; [done|]. by constructor.
  - cbn. repeat split. exists []. by rewrite app_nil_r.
Qed.

(** One page of the write loop: it makes only re-selections and page
    writes, none for a page the plan skips; unless the session is aborted,
    it logs one mark for the page, 's' exactly when the plan skips it, and
    counts it once. *)
Lemma write_card_page_spec otp lock dyn page bF c w :
  let r := write_card_page otp lock dyn page bF c w in
  let skip := plan_skips otp lock dyn (iEV1Type w) (iNTAGType w) page in
  write_frame w r.2
  /\ exists evs,
       trace r.2 = trace w ++ evs
       /\ Forall (fun e => is_write_or_select e = true) evs
       /\ (skip = true -> evs = [])
       /\ match r.1 with
          | None => journal r.2 = journal w
          | Some (_, c') =>
              exists m, journal r.2 = journal w ++ [LogMark page m]
                        /\ (m = MkSkip <-> skip = true) /\ c' = count_mark m c
          end.
Proof.
  cbv zeta. unfold write_card_page, plan_skips.
  rewrite bind_run. cbn [gets fst snd]. rewrite bind_run. cbn [gets fst snd].
  destruct (negb lock && (page =? 2)); [apply write_card_page_skips|].
  destruct ((page =? 3) && negb otp); [apply write_card_page_skips|].
  destruct (is_dyn_lock_page _ _ page && negb dyn);
    [apply write_card_page_skips|].
  cbn [orb].
  (* the page is written *)
  run_call (write_card_reselect bF w) sel w1 Hsel.
  destruct Hsel as (Hf1 & Hj1 & evs1 & Ht1 & He1).
  destruct sel; cbn [negb ret fst snd].
  2:{ split; [done|]. exists evs1. by repeat split. }
  rewrite bind_run. cbn [modify fst snd]. rewrite bind_run. cbn [modify fst snd].
  rewrite bind_run.
  set (w2 := set_mp _ (set_mp _ w1)).
  pose proof (mifare_write_call page w2) as Hc. cbv zeta in Hc.
  destruct (nfc_initiator_mifare_cmd MC_WRITE page w2) as [ok w3].
  cbn [fst snd] in *. destruct Hc as (ok' & Ht3 & -> & Hj3 & Hf3).
  unfold print_success_or_failure, LOG, bind, modify, ret. cbn.
  split.
  { destruct Hf1 as ((? & ? & ?) & ?), Hf3 as ((? & ? & ?) & ?).
    unfold write_frame, same_type. subst w2. cbn in *. repeat split; congruence. }
  exists (evs1 ++ [(NfcMifareCmd MC_WRITE (wrap8 page) (mp w2), ok')]).
  rewrite Ht3. subst w2. cbn [trace set_mp]. rewrite Ht1, <- app_assoc.
  repeat split; [|done|].
  { apply Forall_app. split; [done|]. by constructor. }
  exists (if negb ok' then MkFail else MkOk).
  rewrite Hj3. cbn. rewrite Hj1. destruct ok'; cbn; repeat split; done.
Qed.

Lemma tally_count_mark m c :
  0 <= uiWrittenPages c -> 0 <= uiSkippedPages c -> 0 <= uiFailedPages c ->
  tally c + 1 < 2 ^ 32 ->
  let c' := count_mark m c in
  tally c' = tally c + 1
  /\ 0 <= uiWrittenPages c' /\ 0 <= uiSkippedPages c' /\ 0 <= uiFailedPages c'.
Proof.
  unfold tally. intros HW HS HF Ht.
  destruct m; cbn; rewrite ?Z.add_0_r, ?wrap32_small by lia; lia.
Qed.

(** The write loop from [page] on: it makes only re-selections and page
    writes; every mark it logs is for a page of the range, 's' exactly when
    the plan skips the page; and when it is not aborted it logs one mark
    for each page from [page] to uiBlocks - 1, in order, and the counters
    grow by the number of these pages. *)
Lemma write_card_loop_spec otp lock dyn fuel : forall page bF c w,
  0 <= page -> uiBlocks w < 2 ^ 32 -> uiBlocks w - page <= Z.of_nat fuel ->
  let n := uiBlocks w in
  let r := write_card_loop otp lock dyn fuel page bF c w in
  exists marks evs,
    journal r.2 = journal w ++ marks /\ trace r.2 = trace w ++ evs
    /\ Forall (fun e => is_write_or_select e = true) evs
    /\ Forall (fun l => exists p m,
                 l = LogMark p m /\ page <= p < n
                 /\ (m = MkSkip <->
                     plan_skips otp lock dyn (iEV1Type w) (iNTAGType w) p = true))
         marks
    /\ forall c', r.1 = Some c' ->
         omap mark_page marks = seqZ page (n - page)
         /\ (0 <= uiWrittenPages c -> 0 <= uiSkippedPages c ->
             0 <= uiFailedPages c -> tally c + Z.max 0 (n - page) < 2 ^ 32 ->
             tally c' = tally c + Z.max 0 (n - page)).
Proof.
  induction fuel as [|fuel IH]; intros page bF c w Hp Hn Hfuel; cbv zeta.
  - cbn. exists [], []. rewrite !app_nil_r. repeat split; try done.
    + rewrite seqZ_nil; [done|lia].
    + injection H as <-. lia.
  - cbn [write_card_loop]. rewrite bind_run. cbn [gets fst snd].
    destruct (page <? uiBlocks w) eqn:Hlt.
    2:{ apply Z.ltb_ge in Hlt. cbn. exists [], []. rewrite !app_nil_r.
        repeat split; try done.
        + rewrite seqZ_nil; [done|lia].
        + injection H as <-. lia. }
    apply Z.ltb_lt in Hlt.
    run_call (write_card_page_spec otp lock dyn page bF c w) r1 w1 Hpg.
    destruct Hpg as (((Hn1 & Hev1 & Hnt1) & _) & evs1 & Ht1 & He1 & _ & Hr1).
    destruct r1 as [[bF1 c1]|]; cbn [ret fst snd].
    2:{ exists [], evs1. rewrite app_nil_r. repeat split; done. }
    destruct Hr1 as (m & Hj1 & Hm & ->).
    rewrite (wrap32_small (page + 1)) by lia.
    specialize (IH (page + 1) bF1 (count_mark m c) w1). cbv zeta in IH.
    destruct IH as (marks & evs & Hj & Ht & He & Hmk & Hc); [lia..|].
    rewrite Hn1, Hev1, Hnt1 in *.
    exists (LogMark page m :: marks), (evs1 ++ evs).
    rewrite Hj, Hj1, Ht, Ht1, <- !app_assoc. repeat split; try done.
    + by apply Forall_app.
    + constructor; [exists page, m; repeat split; (lia || apply Hm)|].
      eapply Forall_impl; [exact Hmk|]. cbv beta.
      intros l (p & m' & -> & Hp' & Hm'). exists p, m'. repeat split; (lia || apply Hm').
    + cbn [omap list_omap mark_page]. rewrite (proj1 (Hc _ H)).
      rewrite (seqZ_cons page) by lia. do 2 f_equal; lia.
    + intros HW HS HF Hty.
      destruct (tally_count_mark m c HW HS HF ltac:(lia)) as (Ht' & ? & ? & ?).
      rewrite (proj2 (Hc _ H)) by (try done; lia). lia.
Qed.

(** The prompts only consume standard input. *)
Lemma ask_pres I b :
  (forall w v, I w -> I (set_stdin v w)) -> preserves I (ask b).
Proof.
  intros Hs w Hw. unfold ask, fgets_stdin, bind, ret.
  destruct (stdin w) as [|[c|] rest]; cbn; auto.
Qed.

Lemma write_card_prompts_pres I o l d u :
  (forall w v, I w -> I (set_stdin v w)) ->
  preserves I (write_card_prompts o l d u).
Proof.
  intros Hs. unfold write_card_prompts.
  pres_with idtac; by apply ask_pres.
Qed.

(** What the magic-tag unlocker leaves alone. *)
Definition plan_frame (w0 w : world) : Prop :=
  journal w = journal w0 /\ same_type w0 w /\ trace w0 `prefix_of` trace w.

Ltac plan_frame_leaf :=
  unfold plan_frame, same_type in *; cbn;
  repeat split; try tauto; apply prefix_app_r; tauto.

Lemma check_magic_write_pres w0 fuel : forall page b0 dw,
  preserves (plan_frame w0) (check_magic_write fuel page b0 dw).
Proof.
  induction fuel as [|fuel IH]; intros page b0 dw; cbn [check_magic_write];
    pres_with plan_frame_leaf.
Qed.

Lemma check_magic_pres w0 : preserves (plan_frame w0) check_magic.
Proof.
  unfold check_magic.
  pres_with plan_frame_leaf; apply check_magic_write_pres.
Qed.

(** A write session after the prompts. *)
Lemma write_card_pages_spec otp lock dyn uid w :
  uiBlocks w < 2 ^ 32 ->
  let n := uiBlocks w in
  let r := write_card_pages otp lock dyn uid w in
  exists marks evs,
    trace r.2 = trace w ++ evs
    /\ (uid = false -> Forall (fun e => is_write_or_select e = true) evs)
    /\ Forall (fun l => exists p m,
                 l = LogMark p m
                 /\ (m = MkSkip <->
                     page_plan otp lock dyn uid (iEV1Type w) (iNTAGType w) p = true))
         marks
    /\ if r.1 then
         exists c,
           journal r.2 =
             journal w ++ marks
             ++ [LogWriteDone (uiWrittenPages c) n (uiSkippedPages c)
                   (uiFailedPages c)]
           /\ (forall p, 0 <= p < n -> p ∈ omap mark_page marks)
           /\ (2 <= n -> omap mark_page marks = seqZ 0 n /\ tally c = n)
       else journal r.2 = journal w ++ marks.
Proof.
  intros Hn. cbv zeta. unfold write_card_pages.
  rewrite bind_run. cbn [gets fst snd]. rewrite bind_run.
  destruct uid; cbn [negb].
  - (* write-UID: the unlocker runs first *)
    pose proof (check_magic_pres w w ltac:(by repeat split)) as Hf.
    destruct (check_magic w) as [ok w1]. cbn [fst snd] in *.
    destruct Hf as (Hj1 & (Hn1 & Hev1 & Hnt1) & evs1 & Ht1).
    destruct ok; cbn [negb ret fst snd].
    2:{ exists [], evs1. rewrite app_nil_r. by repeat split. }
    rewrite bind_run. cbn [uiSkippedPages].
    pose proof (write_card_loop_spec otp lock dyn (S (Z.to_nat (uiBlocks w))) 0
                  false (mkCounters 0 0 0) w1 ltac:(lia) ltac:(lia) ltac:(lia))
      as Hl. cbv zeta in Hl.
    destruct (write_card_loop _ _ _ _ 0 false _ w1) as [r1 w2].
    cbn [fst snd] in *.
    destruct Hl as (marks & evs & Hj & Ht & He & Hmk & Hc).
    rewrite Hn1, Hev1, Hnt1 in *.
    assert (Hmk' : Forall (fun l => exists p m,
                     l = LogMark p m
                     /\ (m = MkSkip <->
                         page_plan otp lock dyn true (iEV1Type w) (iNTAGType w) p
                         = true)) marks).
    { eapply Forall_impl; [exact Hmk|]. cbv beta.
      intros l (p & m & -> & _ & Hm). exists p, m. by split. }
    exists marks, (evs1 ++ evs).
    destruct r1 as [c'|]; unfold LOG, bind, modify, ret; cbn;
      rewrite Ht, Ht1, Hj, Hj1, <- !app_assoc;
      (split; [done|]); (split; [done|]); (split; [done|]); [|done].
    exists c'. split; [done|].
    destruct (Hc c' eq_refl) as (Hs & Hty). rewrite Z.sub_0_r in *.
    split; [intros p Hp; rewrite Hs; apply elem_of_seqZ; lia|].
    intros H2. split; [done|]. rewrite Hty; unfold tally; cbn; lia.
  - (* pages 0 and 1 are skipped *)
    set (w1 := set_journal
                 ((journal w ++ [LogMark 0 MkSkip]) ++ [LogMark 1 MkSkip]) w).
    change ((LOG (LogMark 0 MkSkip);;; LOG (LogMark 1 MkSkip);;; ret true) w)
      with (true, w1).
    cbn [fst snd negb uiSkippedPages]. rewrite bind_run.
    pose proof (write_card_loop_spec otp lock dyn (S (Z.to_nat (uiBlocks w))) 2
                  false (mkCounters 0 2 0) w1 ltac:(lia) ltac:(done)
                  ltac:(subst w1; cbn; lia)) as Hl.
    cbv zeta in Hl.
    destruct (write_card_loop _ _ _ _ 2 false _ w1) as [r1 w2].
    cbn [fst snd] in *.
    destruct Hl as (marks & evs & Hj & Ht & He & Hmk & Hc).
    subst w1. cbn [journal trace uiBlocks iEV1Type iNTAGType set_journal] in *.
    assert (Hmk' : Forall (fun l => exists p m,
                     l = LogMark p m
                     /\ (m = MkSkip <->
                         page_plan otp lock dyn false (iEV1Type w) (iNTAGType w) p
                         = true))
                     (LogMark 0 MkSkip :: LogMark 1 MkSkip :: marks)).
    { repeat constructor; try (by eexists _, _).
      eapply Forall_impl; [exact Hmk|]. cbv beta.
      intros l (p & m & -> & Hp & Hm). exists p, m. split; [done|].
      unfold page_plan. replace (p <? 2) with false by lia. by cbn. }
    exists (LogMark 0 MkSkip :: LogMark 1 MkSkip :: marks), evs.
    destruct r1 as [c'|]; unfold LOG, bind, modify, ret; cbn;
      rewrite Ht, Hj, <- !app_assoc;
      (split; [done|]); (split; [done|]); (split; [done|]); [|done].
    exists c'. split; [done|].
    destruct (Hc c' eq_refl) as (Hs & Hty).
    split.
    { intros p Hp. cbn [omap list_omap mark_page]. rewrite Hs.
      destruct (decide (p = 0)) as [->|]; [apply list_elem_of_here|].
      apply list_elem_of_further.
      destruct (decide (p = 1)) as [->|]; [apply list_elem_of_here|].
      apply list_elem_of_further, elem_of_seqZ. lia. }
    intros H2. split.
    + cbn [omap list_omap mark_page]. rewrite Hs.
      rewrite (seqZ_cons 0), (seqZ_cons (Z.succ 0)) by lia.
      do 3 f_equal; lia.
    + rewrite Hty; unfold tally; cbn; lia.
Qed.

Lemma write_card_run o l d u w :
  exists w1,
    write_card o l d u w =
      write_card_pages (write_card_prompts o l d u w).1.1.1.1
        (write_card_prompts o l d u w).1.1.1.2
        (write_card_prompts o l d u w).1.1.2
        (write_card_prompts o l d u w).1.2 w1
    /\ journal w1 = journal w /\ trace w1 = trace w /\ same_type w w1.
Proof.
  unfold write_card. rewrite bind_run.
  pose proof (write_card_prompts_pres
    (fun w' => journal w' = journal w /\ trace w' = trace w /\ same_type w w')
    o l d u ltac:(done) w ltac:(by repeat split)) as Hf.
  destruct (write_card_prompts o l d u w) as [f w1]. cbn [fst snd] in *.
  by exists w1.
Qed.

(** C10.  Whenever write_card returns true, it has logged exactly one mark
    for each page index from 0 to uiBlocks - 1, in order, and the counters
    of written, skipped and failed pages it reports sum to the page
    count. *)
Theorem write_card_accounts_every_page (o l d u : bool) (w : world) :
  2 <= uiBlocks w < 2 ^ 32 ->
  let r := write_card o l d u w in
  r.1 = true ->
  exists marks c,
    journal r.2 =
      journal w ++ marks
      ++ [LogWriteDone (uiWrittenPages c) (uiBlocks w) (uiSkippedPages c)
            (uiFailedPages c)]
    /\ omap mark_page marks = seqZ 0 (uiBlocks w)
    /\ uiWrittenPages c + uiSkippedPages c + uiFailedPages c = uiBlocks w.
Proof.
  intros Hn. cbv zeta.
  destruct (write_card_run o l d u w) as (w1 & -> & Hj & Ht & Hn1 & Hev & Hnt).
  pose proof (write_card_pages_spec
                (write_card_prompts o l d u w).1.1.1.1
                (write_card_prompts o l d u w).1.1.1.2
                (write_card_prompts o l d u w).1.1.2
                (write_card_prompts o l d u w).1.2 w1 ltac:(lia)) as Hs.
  cbv zeta in Hs. destruct Hs as (marks & evs & _ & _ & _ & Hr).
  intros Hret. rewrite Hret in Hr. destruct Hr as (c & Hjr & _ & Hc).
  rewrite Hn1, Hj in *. exists marks, c. split; [done|].
  destruct (Hc ltac:(lia)) as (? & ?). done.
Qed.

(** ** No login in main *)

(** The secrets and the authentication frame are as in [w0], the version
    query still starts with its command byte, and no byte frame other than
    the version query was sent. *)
Definition no_login (w0 w : world) : Prop :=
  iPWD w = iPWD w0 /\ iPACK w = iPACK w0 /\ abtPWAuth w = abtPWAuth w0
  /\ hd 0 (abtEV1 w) = 0x60 /\ Forall version_query_only (trace w).

Ltac no_login_leaf :=
  unfold no_login in *; cbn;
  repeat match goal with H : _ /\ _ |- _ => destruct H end;
  repeat split; try assumption;
  try (apply Forall_app; split; [assumption|]; repeat constructor; done).

Lemma hd_crc_append (l : list Z) : hd 0 (iso14443a_crc_append l 1) = hd 0 l.
Proof.
  unfold iso14443a_crc_append. destruct l as [|a [|b [|c l]]]; done.
Qed.

Lemma transmit_bytes_no_login w0 tx n :
  hd 0 (take n tx) = 0x60 -> preserves (no_login w0) (transmit_bytes tx n).
Proof. intros Htx. pres_with no_login_leaf. Qed.

Lemma get_ev1_version_no_login w0 : preserves (no_login w0) get_ev1_version.
Proof.
  intros w Hw. unfold get_ev1_version. rewrite bind_run.
  assert (Hs : preserves (no_login w0) raw_mode_start)
    by pres_with no_login_leaf.
  assert (He : preserves (no_login w0) raw_mode_end)
    by pres_with no_login_leaf.
  specialize (Hs w Hw). destruct (raw_mode_start w) as [ok w1].
  cbn [fst snd] in *. destruct ok; cbn [negb ret fst snd]; [|done].
  rewrite bind_run. cbn [modify fst snd]. rewrite bind_run. cbn [gets fst snd].
  set (w2 := set_abtEV1 _ w1).
  assert (Hw2 : no_login w0 w2).
  { subst w2. unfold no_login in *. cbn -[iso14443a_crc_append].
    rewrite hd_crc_append. tauto. }
  assert (Htx : hd 0 (take 3 (abtEV1 w2)) = 0x60).
  { destruct Hw2 as (_ & _ & _ & H & _).
    destruct (abtEV1 w2); done. }
  rewrite bind_run.
  pose proof (transmit_bytes_no_login w0 _ _ Htx w2 Hw2) as Hw3.
  destruct (transmit_bytes (abtEV1 w2) 3 w2) as [ok w3]. cbn [fst snd] in *.
  destruct ok; cbn [negb].
  - rewrite bind_run. specialize (He w3 Hw3).
    destruct (raw_mode_end w3) as [ok w4]. cbn [fst snd] in *.
    destruct ok; cbn [negb ret fst snd]; [|done].
    rewrite bind_run. cbn [gets fst snd]. by destruct (szRx w4 =? 0).
  - rewrite bind_run. specialize (He w3 Hw3).
    by destruct (raw_mode_end w3).
Qed.

Lemma main_args_no_login w0 argv args : forall a b,
  preserves (no_login w0) (main_args argv args a b).
Proof.
  induction args as [|arg args IH]; intros a b; cbn [main_args];
    pres_with no_login_leaf.
Qed.

Lemma main_select_no_login w0 fuel : preserves (no_login w0) (main_select fuel).
Proof.
  induction fuel as [|fuel IH]; cbn [main_select];
    unfold nfc_close, nfc_exit; pres_with no_login_leaf.
Qed.

Lemma read_card_no_login w0 : preserves (no_login w0) read_card.
Proof.
  unfold read_card.
  assert (forall fuel page bF f,
            preserves (no_login w0) (read_card_loop fuel page bF f)) as Hl.
  { intros. apply read_card_loop_pres.
    repeat split; intros; no_login_leaf. }
  pres_with no_login_leaf.
Qed.

Lemma main_no_login w0 fuel argv : preserves (no_login w0) (main fuel argv).
Proof.
  pose proof (get_ev1_version_no_login w0).
  pose proof (main_args_no_login w0).
  pose proof (main_select_no_login w0).
  pose proof (read_card_no_login w0).
  unfold main, main_tag_type, main_login, main_print, list_passive_targets,
    nfc_call, nfc_close, nfc_exit.
  pres_with no_login_leaf.
Qed.

(** [Q] holds of the result and final state of [m] run from a state in
    [P]. *)
Definition ensures {A} (P : world -> Prop) (m : M A)
    (Q : A -> world -> Prop) : Prop :=
  forall w, P w -> Q (m w).1 (m w).2.

Lemma ensures_bind_pres {A B} P (m : M A) (k : A -> M B) Q :
  preserves P m -> (forall a, ensures P (k a) Q) -> ensures P (bind m k) Q.
Proof. intros Hm Hk w Hw. rewrite bind_run. apply Hk, Hm, Hw. Qed.

Lemma memcpy_zero_keeps (dst : list Z) off n k (i : nat) :
  dst !! i = Some 0 -> memcpy dst off (replicate k 0) n !! i = Some 0.
Proof.
  intros Hi. rewrite lookup_memcpy. case_decide as Hc; [|done].
  rewrite length_replicate in Hc. apply lookup_replicate_2. lia.
Qed.

Lemma memcpy_zero_sets (dst : list Z) off n k (i : nat) :
  (off <= i < off + n)%nat -> (n <= k)%nat -> (i < length dst)%nat ->
  memcpy dst off (replicate k 0) n !! i = Some 0.
Proof.
  intros Hi Hk Hl. rewrite lookup_memcpy, decide_True.
  - apply lookup_replicate_2. lia.
  - rewrite length_replicate. lia.
Qed.

(** A byte of the image after some copies of zeros: it is zero when one of
    the copies covers it. *)
Ltac zero_byte :=
  first
    [ apply memcpy_zero_sets; [cbn [fst snd] in *; lia|lia|
                                rewrite ?length_memcpy; lia]
    | apply memcpy_zero_keeps; zero_byte ].

(** The image that copy_secrets leaves. *)
Definition secrets_image (w : world) : list Z :=
  let d := mtDump w in
  let d :=
    if iEV1Type w =? EV1_UL11 then
      memcpy (memcpy d (ul 4 + mbc11_pwd) (iPWD w) 4) (ul 4 + mbc11_pack) (iPACK w) 2
    else if iEV1Type w =? EV1_UL21 then
      memcpy (memcpy d (ul 9 + mbc21a_pwd) (iPWD w) 4) (ul 9 + mbc21b_pack) (iPACK w) 2
    else d in
  if iNTAGType w =? NTAG_213 then
    memcpy (memcpy d (nt_ 43 + mbc21356d_pwd) (iPWD w) 4)
      (nt_ 44 + mbc21356e_pack) (iPACK w) 2
  else if iNTAGType w =? NTAG_215 then
    memcpy (memcpy d (nt_ 133 + mbc21356d_pwd) (iPWD w) 4)
      (nt_ 134 + mbc21356e_pack) (iPACK w) 2
  else if iNTAGType w =? NTAG_216 then
    memcpy (memcpy d (nt_ 229 + mbc21356d_pwd) (iPWD w) 4)
      (nt_ 230 + mbc21356e_pack) (iPACK w) 2
  else d.

Lemma copy_secrets_run w :
  mtDump (copy_secrets w).2 = secrets_image w
  /\ iEV1Type (copy_secrets w).2 = iEV1Type w
  /\ iNTAGType (copy_secrets w).2 = iNTAGType w.
Proof.
  unfold copy_secrets, secrets_image, memcpy_mtDump, bind, gets, modify, ret.
  cbv zeta.
  destruct (iEV1Type w =? EV1_UL11);
    [|destruct (iEV1Type w =? EV1_UL21)];
    cbn [iNTAGType iEV1Type iPWD iPACK mtDump set_mtDump fst snd];
    (destruct (iNTAGType w =? NTAG_213);
     [|destruct (iNTAGType w =? NTAG_215);
       [|destruct (iNTAGType w =? NTAG_216)]]);
    repeat split; reflexivity.
Qed.

(** With an all-zero password and PACK, copy_secrets leaves zeros in the
    secret fields of the tag type. *)
Lemma copy_secrets_zero w :
  iPWD w = [0; 0; 0; 0] -> iPACK w = [0; 0] ->
  secrets_zero (copy_secrets w).2
  /\ length (mtDump (copy_secrets w).2) = length (mtDump w).
Proof.
  intros Hpwd Hpack.
  destruct (copy_secrets_run w) as (Hd & Hev & Hnt).
  unfold secrets_zero, secret_fields. rewrite Hd, Hev, Hnt.
  unfold secrets_image. cbv zeta. rewrite Hpwd, Hpack.
  change [0; 0; 0; 0] with (replicate 4 0). change [0; 0] with (replicate 2 0).
  destruct (iEV1Type w =? EV1_UL11);
    [|destruct (iEV1Type w =? EV1_UL21)];
    (destruct (iNTAGType w =? NTAG_213);
     [|destruct (iNTAGType w =? NTAG_215);
       [|destruct (iNTAGType w =? NTAG_216)]]);
    (split; [|by rewrite ?length_memcpy]);
    intros f i Hin Hr Hlen; rewrite ?length_memcpy in Hlen;
    cbn [app In] in Hin;
    repeat (destruct Hin as [<-|Hin]; [zero_byte|]); done.
Qed.

(** C9.  From the initial state, whatever the arguments, the reader's
    replies and the input: at the end of main the password and the PACK are
    still all zero, the password-authentication frame was neither built nor
    sent (the only byte frame main sends is the version query), and when
    main has run to the end (the only path through read_card) every byte of
    the image inside the secret fields of the detected tag type is zero. *)
Theorem main_never_logs_in (fuel : nat) (argv : list string)
    (replies : list reply) (lines : list (option Z)) (junk_b0 : list Z)
    (junk_buf : Z) :
  let r := main fuel argv (initial_world replies lines junk_b0 junk_buf) in
  iPWD r.2 = [0; 0; 0; 0] /\ iPACK r.2 = [0; 0]
  /\ abtPWAuth r.2 = [0x1B; 0; 0; 0; 0; 0; 0]
  /\ Forall version_query_only (trace r.2)
  /\ (r.1 = Some EXIT_SUCCESS ->
      length (mtDump r.2) = sizeof_maxtag /\ secrets_zero r.2).
Proof.
  cbv zeta.
  set (w0 := initial_world replies lines junk_b0 junk_buf).
  assert (H0 : no_login w0 w0) by (repeat split; constructor).
  destruct (main_no_login w0 fuel argv w0 H0) as (Hp & Hk & Ha & _ & Ht).
  split; [exact Hp|]. split; [exact Hk|]. split; [exact Ha|]. split; [exact Ht|].
  revert H0. generalize w0 at 2 3 4 5 as w. clear Hp Hk Ha Ht.
  change (ensures (no_login w0) (main fuel argv)
            (fun r w => r = Some EXIT_SUCCESS ->
                        length (mtDump w) = sizeof_maxtag /\ secrets_zero w)).
  pose proof (get_ev1_version_no_login w0).
  pose proof (main_args_no_login w0).
  pose proof (main_select_no_login w0).
  pose proof (read_card_no_login w0).
  unfold main, list_passive_targets, nfc_call, nfc_close, nfc_exit.
  cbv zeta.
  repeat lazymatch goal with
  | |- ensures _ (bind (modify (set_mtDump _)) _) _ => fail
  | |- ensures _ (bind _ _) _ =>
      apply ensures_bind_pres;
      [unfold main_tag_type, main_login, nfc_close, nfc_exit;
       pres_with no_login_leaf|intros ?]
  | |- ensures _ (ret _) _ => by intros ? ? ?
  | |- ensures _ (if ?b then _ else _) _ => destruct b
  | |- ensures _ (match ?x with _ => _ end) _ => destruct x
  end.
  (* the path through read_card *)
  intros w Hw _. rewrite bind_run. cbn [modify fst snd].
  set (w1 := set_mtDump _ w).
  rewrite bind_run.
  destruct (read_card_run w1) as (w2 & Hrc & _ & Hp2 & Hk2 & Hev2 & Hnt2 & Hl2).
  destruct (read_card w1) as [rf w3]. cbn [fst snd] in *. subst w3.
  destruct Hw as (Hp & Hk & _).
  destruct (copy_secrets_zero w2) as (Hz & Hl).
  { rewrite Hp2. subst w1. cbn. by rewrite Hp. }
  { rewrite Hk2. subst w1. cbn. by rewrite Hk. }
  destruct (copy_secrets w2) as [u w4]. cbn [fst snd] in *.
  unfold main_print, bind, modify, ret. cbn [fst snd].
  split.
  - change (length (mtDump w4) = sizeof_maxtag).
    rewrite Hl, Hl2. subst w1. cbn. apply length_replicate.
  - exact Hz.
Qed.

(** ** Fuel

    The loops of read_card and write_card are bounded by uiBlocks; fuel
    beyond the number of iterations left changes nothing, so the fuel that
    read_card and write_card_pages give them stands for "until the loop
    condition fails". *)

Lemma read_card_loop_fuel fuel : forall extra page bF f w,
  0 <= page -> uiBlocks w <= 2 ^ 32 - 4 ->
  uiBlocks w - page <= 4 * Z.of_nat fuel ->
  read_card_loop (fuel + extra) page bF f w = read_card_loop fuel page bF f w.
Proof.
  induction fuel as [|fuel IH]; intros extra page bF f w Hp Hn Hfuel.
  - destruct extra as [|extra]; [done|].
    cbn [Nat.add read_card_loop]. rewrite bind_run. cbn [gets fst snd].
    replace (page <? uiBlocks w) with false by lia. done.
  - cbn [Nat.add read_card_loop]. rewrite !bind_run. cbn [gets fst snd].
    destruct (page <? uiBlocks w) eqn:Hlt; [|done].
    apply Z.ltb_lt in Hlt. rewrite !bind_run.
    pose proof (read_card_stride_spec page bF f w) as Hs. cbv zeta in Hs.
    destruct (read_card_stride page bF f w) as [r w1]. cbn [fst snd] in *.
    destruct Hs as (_ & Hn1 & _).
    rewrite wrap32_small by lia. apply IH; rewrite ?Hn1; lia.
Qed.

Lemma write_card_loop_fuel otp lock dyn fuel : forall extra page bF c w,
  0 <= page -> uiBlocks w < 2 ^ 32 -> uiBlocks w - page <= Z.of_nat fuel ->
  write_card_loop otp lock dyn (fuel + extra) page bF c w
  = write_card_loop otp lock dyn fuel page bF c w.
Proof.
  induction fuel as [|fuel IH]; intros extra page bF c w Hp Hn Hfuel.
  - destruct extra as [|extra]; [done|].
    cbn [Nat.add write_card_loop]. rewrite bind_run. cbn [gets fst snd].
    replace (page <? uiBlocks w) with false by lia. done.
  - cbn [Nat.add write_card_loop]. rewrite !bind_run. cbn [gets fst snd].
    destruct (page <? uiBlocks w) eqn:Hlt; [|done].
    apply Z.ltb_lt in Hlt. rewrite !bind_run.
    pose proof (write_card_page_spec otp lock dyn page bF c w) as Hs.
    cbv zeta in Hs.
    destruct (write_card_page otp lock dyn page bF c w) as [r w1].
    cbn [fst snd] in *. destruct Hs as (((Hn1 & _) & _) & _).
    destruct r as [[bF1 c1]|]; [|done].
    rewrite wrap32_small by lia. apply IH; rewrite ?Hn1; lia.
Qed.

(** The write loop of check_magic ends within four rounds. *)
Lemma check_magic_write_fuel fuel : forall extra page b0 dw w,
  0 <= page -> 3 - page <= Z.of_nat fuel ->
  check_magic_write (fuel + extra) page b0 dw w
  = check_magic_write fuel page b0 dw w.
Proof.
  induction fuel as [|fuel IH]; intros extra page b0 dw w Hp Hfuel.
  - destruct extra as [|extra]; [done|].
    cbn [Nat.add check_magic_write].
    replace (page <=? 2) with false by lia. done.
  - cbn [Nat.add check_magic_write].
    destruct (page <=? 2) eqn:Hle; [|done]. apply Z.leb_le in Hle.
    rewrite !bind_run. cbn [modify fst snd]. rewrite ?bind_run.
    destruct (nfc_initiator_mifare_cmd MC_WRITE page _) as [[|] w1];
      cbn [negb fst snd]; [|done].
    rewrite wrap32_small by lia. apply IH; lia.
Qed.

(** ** Text to UID *)

(** What the C library functions give on one character of the text. *)
Lemma nibble_value (c : ascii) :
  match hex_value c with
  | Some d =>
      isxdigit c = true
      /\ strtol_16 (String (if isupper c then tolower c else c)
                      (String "010"%char EmptyString)) = d
      /\ 0 <= d <= 15
  | None => isxdigit c = false
  end.
Proof.
  destruct c as [[] [] [] [] [] [] [] []]; vm_compute; repeat split; congruence.
Qed.

Lemma nibble_bits (hi d : Z) :
  0 <= hi <= 15 -> 0 <= d <= 15 ->
  wrap8 (Z.lor 0 (Z.land (Z.shiftl d 4) 0xf0)) = 16 * d
  /\ wrap8 (Z.lor (16 * hi) (Z.land (Z.shiftl d 0) 0x0f)) = 16 * hi + d.
Proof.
  intros Hh Hd.
  assert (forallb (fun h => forallb (fun e =>
            (wrap8 (Z.lor 0 (Z.land (Z.shiftl e 4) 0xf0)) =? 16 * e)
            && (wrap8 (Z.lor (16 * h) (Z.land (Z.shiftl e 0) 0x0f)) =? 16 * h + e))
            (seqZ 0 16)) (seqZ 0 16) = true) as H by (by vm_compute).
  rewrite forallb_forall in H.
  specialize (H hi ltac:(apply list_elem_of_In, elem_of_seqZ; lia)).
  rewrite forallb_forall in H.
  specialize (H d ltac:(apply list_elem_of_In, elem_of_seqZ; lia)).
  apply andb_true_iff in H as [H1 H2]. split; lia.
Qed.

Lemma pack_nibbles_lookup : forall (n : nat) (ds : list Z) (k : nat),
  (length ds <= n)%nat ->
  pack_nibbles ds !! k =
    if decide (2 * k < length ds)%nat
    then Some (16 * nth (2 * k) ds 0 + nth (2 * k + 1) ds 0) else None.
Proof.
  induction n as [|n IH]; intros ds k Hn.
  - destruct ds; [|cbn in Hn; lia]. cbn. case_decide; [lia|done].
  - destruct ds as [|d1 [|d2 ds]].
    + cbn. case_decide; [lia|done].
    + destruct k as [|k]; cbn; [f_equal; lia|done].
    + destruct k as [|k]; [done|].
      cbn [pack_nibbles lookup list_lookup]. rewrite IH by (cbn in Hn; lia).
      cbn [length]. replace (2 * S k)%nat with (S (S (2 * k))) by lia.
      repeat case_decide; try lia; done.
Qed.

(** The buffer in which the nibbles [ds] have been stored: ten bytes, then
    what lay behind them. *)
Definition uid_image (ds tl : list Z) : list Z :=
  take MAX_UID_LEN (pack_nibbles ds ++ replicate MAX_UID_LEN 0) ++ tl.

Lemma uid_image_lookup ds tl (k : nat) :
  uid_image ds tl !! k =
    if decide (k < MAX_UID_LEN)%nat
    then Some (16 * nth (2 * k) ds 0 + nth (2 * k + 1) ds 0)
    else tl !! (k - MAX_UID_LEN)%nat.
Proof.
  unfold uid_image.
  assert (Hl : length (take MAX_UID_LEN (pack_nibbles ds ++ replicate MAX_UID_LEN 0))
               = MAX_UID_LEN).
  { rewrite length_take, length_app, length_replicate. lia. }
  case_decide as Hk.
  - rewrite lookup_app_l by lia. rewrite lookup_take, decide_True by done.
    destruct (decide (2 * k < length ds)%nat) as [Hd|Hd].
    + rewrite lookup_app_l.
      * rewrite (pack_nibbles_lookup (length ds)), decide_True by lia. done.
      * apply lookup_lt_is_Some.
        rewrite (pack_nibbles_lookup (length ds)), decide_True by lia. eauto.
    + assert (pack_nibbles ds !! k = None) as Hnone.
      { rewrite (pack_nibbles_lookup (length ds)), decide_False by lia. done. }
      apply lookup_ge_None in Hnone.
      rewrite lookup_app_r by lia.
      rewrite !nth_overflow by lia.
      rewrite lookup_replicate_2; [done|].
      assert (length (pack_nibbles ds) <= k)%nat by lia. unfold MAX_UID_LEN in *. lia.
  - rewrite lookup_app_r by lia. by rewrite Hl.
Qed.

Lemma uid_image_store ds tl d :
  (length ds < 2 * MAX_UID_LEN)%nat -> Forall (fun e => 0 <= e <= 15) ds ->
  0 <= d <= 15 ->
  let i := Z.of_nat (length ds) in
  let k := Z.to_nat (Z.shiftr i 1) in
  <[k := wrap8 (Z.lor (uid_image ds tl !!! k)
                  (Z.land (Z.shiftl d (if negb (i mod 2 =? 0) then 0 else 4))
                     (if negb (i mod 2 =? 0) then 0x0f else 0xf0)))]>
    (uid_image ds tl)
  = uid_image (ds ++ [d]) tl.
Proof.
  intros Hlen Hds Hd. cbv zeta.
  rewrite Z.shiftr_div_pow2 by lia. change (2 ^ 1) with 2.
  set (k := Z.to_nat (Z.of_nat (length ds) / 2)).
  assert (Hk : (k < MAX_UID_LEN)%nat).
  { subst k. unfold MAX_UID_LEN in *. Z.to_euclidean_division_equations; lia. }
  assert (Hnth : forall j, 0 <= nth j ds 0 <= 15).
  { intros j. destruct (decide (j < length ds)%nat) as [Hj|Hj].
    - rewrite Forall_forall in Hds. apply Hds, list_elem_of_In, nth_In, Hj.
    - rewrite nth_overflow by lia. lia. }
  apply list_eq. intros j.
  destruct (decide (j = k)) as [->|Hjk].
  - rewrite list_lookup_insert_eq.
    2:{ apply lookup_lt_is_Some. rewrite uid_image_lookup, decide_True by done. eauto. }
    rewrite (list_lookup_total_correct _ _ _
               (eq_trans (uid_image_lookup ds tl k) (decide_True _ _ Hk))).
    rewrite uid_image_lookup, decide_True by done. f_equal.
    destruct (Z.of_nat (length ds) mod 2 =? 0) eqn:Hpar; cbn [negb].
    + assert (2 * k = length ds)%nat as Hev
        by (subst k; Z.to_euclidean_division_equations; lia).
      rewrite !(nth_overflow ds) by lia.
      rewrite app_nth2 by lia. replace (2 * k - length ds)%nat with 0%nat by lia.
      rewrite (nth_overflow (ds ++ [d])) by (rewrite length_app; cbn; lia).
      cbn [nth]. rewrite Z.mul_0_r, !Z.add_0_r.
      apply (nibble_bits 0 d); lia.
    + assert (2 * k + 1 = length ds)%nat as Hodd
        by (subst k; Z.to_euclidean_division_equations; lia).
      rewrite (nth_overflow (n:=(2 * k + 1)%nat) ds) by lia.
      rewrite (app_nth1 ds [d]) by lia.
      rewrite app_nth2 by lia. replace (2 * k + 1 - length ds)%nat with 0%nat by lia.
      cbn [nth]. rewrite Z.add_0_r.
      apply (nibble_bits (nth (2 * k) ds 0) d); [apply Hnth|lia].
  - rewrite list_lookup_insert_ne by done.
    rewrite !uid_image_lookup. case_decide; [|done]. f_equal.
    assert (Hcase : (2 * j + 1 < length ds)%nat \/ (length ds < 2 * j)%nat)
      by (subst k; Z.to_euclidean_division_equations; lia).
    destruct Hcase.
    + by rewrite !app_nth1 by lia.
    + rewrite !(nth_overflow ds) by lia.
      rewrite !(nth_overflow (ds ++ [d])) by (rewrite length_app; cbn; lia). done.
Qed.

Lemma str_to_uid_loop_spec (tl : list Z) : forall (str : string) (ds : list Z),
  (length ds <= 2 * MAX_UID_LEN)%nat -> Forall (fun e => 0 <= e <= 15) ds ->
  let ds' := take (2 * MAX_UID_LEN) (ds ++ hex_digits str) in
  str_to_uid_loop str (Z.of_nat (length ds)) (uid_image ds tl)
  = (Z.of_nat (length ds'), uid_image ds' tl).
Proof.
  induction str as [|c str IH]; intros ds Hlen Hds; cbv zeta.
  - cbn [hex_digits str_to_uid_loop]. rewrite app_nil_r, take_ge by lia. done.
  - cbn [str_to_uid_loop hex_digits].
    rewrite Z.shiftr_div_pow2 by lia. change (2 ^ 1) with 2.
    destruct (Z.of_nat (length ds) / 2 <? Z.of_nat MAX_UID_LEN) eqn:Hlt.
    + assert (length ds < 2 * MAX_UID_LEN)%nat as Hlt'.
      { apply Z.ltb_lt in Hlt. unfold MAX_UID_LEN in *.
        Z.to_euclidean_division_equations; lia. }
      pose proof (nibble_value c) as Hc.
      destruct (hex_value c) as [d|].
      * destruct Hc as (-> & Hv & Hd). cbv zeta. rewrite Hv.
        pose proof (uid_image_store ds tl d Hlt' Hds Hd) as Hst. cbv zeta in Hst.
        rewrite Z.shiftr_div_pow2 in Hst by lia. change (2 ^ 1) with 2 in Hst.
        rewrite Hst.
        replace (wrap8 (Z.of_nat (length ds) + 1))
          with (Z.of_nat (length (ds ++ [d]))).
        2:{ rewrite length_app. cbn [length]. unfold wrap8.
            change (2 ^ 8) with 256. unfold MAX_UID_LEN in *.
            rewrite Z.mod_small; lia. }
        rewrite IH.
        -- by rewrite <- app_assoc.
        -- rewrite length_app. cbn [length]. unfold MAX_UID_LEN in *. lia.
        -- apply Forall_app. split; [done|]. by constructor.
      * rewrite Hc. by apply IH.
    + assert (length ds = 2 * MAX_UID_LEN)%nat as Heq.
      { apply Z.ltb_ge in Hlt. unfold MAX_UID_LEN in *.
        Z.to_euclidean_division_equations; lia. }
      rewrite take_app_le by lia. rewrite take_ge by lia. done.
Qed.

Lemma str_to_uid_run (str : string) (uid : list Z) :
  (MAX_UID_LEN <= length uid)%nat ->
  let ds := take (2 * MAX_UID_LEN) (hex_digits str) in
  str_to_uid str uid
  = (Z.of_nat (length ds / 2), uid_image ds (drop MAX_UID_LEN uid)).
Proof.
  intros Hlen. cbv zeta. unfold str_to_uid.
  assert (Hclr : memset uid 0 0 MAX_UID_LEN = uid_image [] (drop MAX_UID_LEN uid)).
  { unfold memset, uid_image. cbn [pack_nibbles app].
    rewrite take_ge by (by rewrite length_replicate).
    apply list_eq. intros j.
    destruct (decide (j < MAX_UID_LEN)%nat).
    - rewrite list_lookup_inserts by (rewrite ?length_replicate; lia).
      rewrite lookup_app_l by (rewrite length_replicate; lia).
      by rewrite Nat.sub_0_r.
    - rewrite list_lookup_inserts_ge by (rewrite length_replicate; lia).
      rewrite lookup_app_r by (rewrite length_replicate; lia).
      rewrite lookup_drop, length_replicate. f_equal. lia. }
  rewrite Hclr.
  pose proof (str_to_uid_loop_spec (drop MAX_UID_LEN uid) str [] ltac:(cbn; lia)
                ltac:(constructor)) as Hl.
  cbv zeta in Hl. cbn [length app] in Hl. change (Z.of_nat 0) with 0 in Hl.
  rewrite Hl. cbn [fst snd]. f_equal.
  rewrite Z.shiftr_div_pow2 by lia. change (2 ^ 1) with 2.
  rewrite Nat2Z.inj_div. done.
Qed.

(** X1.  str_to_uid reads the hexadecimal digits of the text, in either
    case, and passes over every other character; it stores at most twenty
    of them, two to a byte with the high nibble first, in a buffer of ten
    bytes that it has cleared, and returns the number of complete bytes.
    A last digit without a partner is stored as a high nibble and is not
    counted.  What lies behind the ten bytes is not touched. *)
Theorem str_to_uid_spec (str : string) (uid : list Z) :
  (MAX_UID_LEN <= length uid)%nat ->
  let ds := take (2 * MAX_UID_LEN) (hex_digits str) in
  str_to_uid str uid =
    (Z.of_nat (length ds / 2),
     take MAX_UID_LEN (pack_nibbles ds ++ replicate MAX_UID_LEN 0)
     ++ drop MAX_UID_LEN uid).
Proof. exact (str_to_uid_run str uid). Qed.

Lemma hex_char_value (d : Z) : 0 <= d <= 15 -> hex_value (hex_char d) = Some d.
Proof.
  intros Hd.
  assert (forallb (fun e => if hex_value (hex_char e) is Some v then v =? e else false)
            (seqZ 0 16) = true) as H by (by vm_compute).
  rewrite forallb_forall in H.
  specialize (H d ltac:(apply list_elem_of_In, elem_of_seqZ; lia)).
  destruct (hex_value (hex_char d)); [f_equal; lia|done].
Qed.

Lemma hex_digits_print_uid (abtUid : list Z) :
  Forall (fun b => 0 <= b < 256) abtUid ->
  pack_nibbles (hex_digits (print_uid abtUid)) = abtUid
  /\ length (hex_digits (print_uid abtUid)) = (2 * length abtUid)%nat.
Proof.
  induction 1 as [|b bs Hb _ [IH1 IH2]]; [done|].
  cbn [print_uid].
  change (String.append (printf_02x b) (print_uid bs))
    with (String (hex_char (b / 16)) (String (hex_char (b mod 16)) (print_uid bs))).
  cbn [hex_digits].
  rewrite !hex_char_value by (Z.to_euclidean_division_equations; lia).
  cbn [pack_nibbles length]. rewrite IH1, IH2. split; [f_equal|lia].
  Z.to_euclidean_division_equations; lia.
Qed.

(** X2.  Round trip: the text that main and list_passive_targets log for
    a UID of at most ten bytes is read back by str_to_uid as that UID,
    followed by zeros up to ten bytes, and its length is returned. *)
Theorem str_to_uid_print_uid (abtUid uid : list Z) :
  Forall (fun b => 0 <= b < 256) abtUid ->
  (length abtUid <= MAX_UID_LEN)%nat -> (MAX_UID_LEN <= length uid)%nat ->
  str_to_uid (print_uid abtUid) uid =
    (Z.of_nat (length abtUid),
     abtUid ++ replicate (MAX_UID_LEN - length abtUid) 0 ++ drop MAX_UID_LEN uid).
Proof.
  intros Hb Hlen Hbuf.
  destruct (hex_digits_print_uid abtUid Hb) as [Hpack Hl].
  rewrite str_to_uid_run by done. cbv zeta.
  rewrite take_ge by lia. rewrite Hl. unfold uid_image. rewrite Hpack.
  rewrite take_app_ge by lia. rewrite take_replicate, <- app_assoc.
  replace (2 * length abtUid / 2)%nat with (length abtUid)
    by (rewrite Nat.mul_comm, Nat.div_mul; lia).
  do 4 f_equal. lia.
Qed.

(** ** The reader, call by call

    What each libnfc call leaves behind when the reply it meets is known.
    [replied c ok w] is [w] after the call [c] with outcome [ok]: one reply
    consumed, one entry added to the trace. *)

Definition replied (c : call) (ok : bool) (w : world) : world :=
  set_trace (trace w ++ [(c, ok)]) (set_script (tl (script w)) w).

Definition set_property (p : property) (v : bool) : world -> world :=
  match p with
  | NP_HANDLE_CRC => set_handle_crc v
  | NP_EASY_FRAMING => set_easy_framing v
  | NP_INFINITE_SELECT => fun w => w
  end.

(** The receive buffer and the length variable [set_sz] after a
    transmission that returned [sz] and the bytes [rx]. *)
Definition received (set_sz : Z -> world -> world) (sz : Z) (rx : list Z)
    (w : world) : world :=
  set_sz sz (set_abtRx (list_inserts 0 rx (abtRx w)) w).

Lemma set_property_ack p v w a :
  hd Nak (script w) = Ack a ->
  nfc_device_set_property_bool p v w
  = (0, set_property p v (replied (NfcSetProperty p v) true w)).
Proof.
  intros H. unfold nfc_device_set_property_bool, take_reply, bind.
  rewrite H. by destruct p.
Qed.

Lemma set_property_nak p v w :
  hd Nak (script w) = Nak ->
  nfc_device_set_property_bool p v w = (-1, replied (NfcSetProperty p v) false w).
Proof.
  intros H. unfold nfc_device_set_property_bool, take_reply, bind.
  by rewrite H.
Qed.

Lemma transmit_bytes_ack tx n w rx :
  hd Nak (script w) = Ack rx -> (length rx <= MAX_FRAME_LEN)%nat ->
  transmit_bytes tx n w
  = (true, received set_szRx (Z.of_nat (length rx)) rx
             (replied (NfcTransceiveBytes (take n tx)) true w)).
Proof.
  intros H Hl. unfold transmit_bytes, nfc_initiator_transceive_bytes, take_reply, bind.
  rewrite H. apply Nat.leb_le in Hl. rewrite Hl.
  unfold issued, modify, ret, received, replied. cbn [fst snd].
  f_equal. destruct (length rx); done.
Qed.

Lemma transmit_bytes_fails tx n w :
  (if hd Nak (script w) is Ack rx then (MAX_FRAME_LEN < length rx)%nat else True) ->
  transmit_bytes tx n w
  = (false, received set_szRx (-1) []
              (replied (NfcTransceiveBytes (take n tx)) false w)).
Proof.
  intros H. unfold transmit_bytes, nfc_initiator_transceive_bytes, take_reply, bind.
  destruct (hd Nak (script w)) as [|rx]; [done|].
  apply Nat.leb_gt in H. by rewrite H.
Qed.

Lemma transmit_bits_ack tx n w rx :
  hd Nak (script w) = Ack rx -> (length rx <= MAX_FRAME_LEN)%nat ->
  transmit_bits tx n w
  = (true, received set_szRxBits (8 * Z.of_nat (length rx)) rx
             (replied (NfcTransceiveBits (take (Z.to_nat ((n + 7) / 8)) tx) n)
                true w)).
Proof.
  intros H Hl. unfold transmit_bits, nfc_initiator_transceive_bits, take_reply, bind.
  rewrite H. apply Nat.leb_le in Hl. rewrite Hl.
  unfold issued, modify, ret, received, replied. cbn [fst snd].
  f_equal. destruct (length rx); done.
Qed.

Lemma transmit_bits_fails tx n w :
  (if hd Nak (script w) is Ack rx then (MAX_FRAME_LEN < length rx)%nat else True) ->
  transmit_bits tx n w
  = (false, received set_szRxBits (-1) []
              (replied (NfcTransceiveBits (take (Z.to_nat ((n + 7) / 8)) tx) n)
                 false w)).
Proof.
  intros H. unfold transmit_bits, nfc_initiator_transceive_bits, take_reply, bind.
  destruct (hd Nak (script w)) as [|rx]; [done|].
  apply Nat.leb_gt in H. by rewrite H.
Qed.

Lemma select_ack w rx :
  hd Nak (script w) = Ack rx ->
  nfc_initiator_select_passive_target w
  = (1, set_nt rx (replied NfcSelectPassiveTarget true w)).
Proof.
  intros H. unfold nfc_initiator_select_passive_target, take_reply, bind.
  by rewrite H.
Qed.

Lemma select_nak w :
  hd Nak (script w) = Nak ->
  nfc_initiator_select_passive_target w
  = (0, replied NfcSelectPassiveTarget false w).
Proof.
  intros H. unfold nfc_initiator_select_passive_target, take_reply, bind.
  by rewrite H.
Qed.

Lemma mifare_read_ack page w rx :
  block_of (hd Nak (script w)) = Some rx ->
  nfc_initiator_mifare_cmd MC_READ page w
  = (true, set_mp rx (replied (NfcMifareCmd MC_READ (wrap8 page) []) true w)).
Proof.
  intros H. unfold nfc_initiator_mifare_cmd, take_reply, bind, gets.
  destruct (hd Nak (script w)) as [|rx']; [done|]. cbn in H.
  destruct (length rx' =? 16)%nat; [|done]. by injection H as ->.
Qed.

Lemma mifare_read_fails page w :
  block_of (hd Nak (script w)) = None ->
  nfc_initiator_mifare_cmd MC_READ page w
  = (false, replied (NfcMifareCmd MC_READ (wrap8 page) []) false w).
Proof.
  intros H. unfold nfc_initiator_mifare_cmd, take_reply, bind, gets.
  destruct (hd Nak (script w)) as [|rx']; [done|]. cbn in H.
  by destruct (length rx' =? 16)%nat.
Qed.

Lemma mifare_write_reply page w :
  nfc_initiator_mifare_cmd MC_WRITE page w
  = (let ok := if hd Nak (script w) is Ack _ then true else false in
     (ok, replied (NfcMifareCmd MC_WRITE (wrap8 page) (mp w)) ok w)).
Proof.
  unfold nfc_initiator_mifare_cmd, take_reply, bind, gets.
  by destruct (hd Nak (script w)).
Qed.

(** The state after raw_mode_start ([v] false) or raw_mode_end ([v]
    true) on a reader that accepts both property changes. *)
Definition raw_mode (v : bool) (w : world) : world :=
  set_property NP_EASY_FRAMING v
    (replied (NfcSetProperty NP_EASY_FRAMING v) true
       (set_property NP_HANDLE_CRC v
          (replied (NfcSetProperty NP_HANDLE_CRC v) true w))).

(** Read a field through the updates made so far. *)
Ltac fields :=
  cbn [script trace handle_crc easy_framing logging wait_for_tag nt mp mtDump
       uiBlocks uiReadPages iPWD iPACK iEV1Type iNTAGType abtEV1 abtPWAuth
       abtHalt abtRx szRxBits szRx stdin stdout journal junk_original_b0
       junk_buffer
       set_script set_trace set_handle_crc set_easy_framing set_logging
       set_wait_for_tag set_nt set_mp set_mtDump set_uiBlocks set_uiReadPages
       set_iPWD set_iPACK set_iEV1Type set_iNTAGType set_abtEV1 set_abtPWAuth
       set_abtHalt set_abtRx set_szRxBits set_szRx set_stdin set_stdout
       set_journal replied set_property received raw_mode hd tl fst snd].

Ltac fields_in H :=
  cbn [script trace handle_crc easy_framing logging wait_for_tag nt mp mtDump
       uiBlocks uiReadPages iPWD iPACK iEV1Type iNTAGType abtEV1 abtPWAuth
       abtHalt abtRx szRxBits szRx stdin stdout journal junk_original_b0
       junk_buffer
       set_script set_trace set_handle_crc set_easy_framing set_logging
       set_wait_for_tag set_nt set_mp set_mtDump set_uiBlocks set_uiReadPages
       set_iPWD set_iPACK set_iEV1Type set_iNTAGType set_abtEV1 set_abtPWAuth
       set_abtHalt set_abtRx set_szRxBits set_szRx set_stdin set_stdout
       set_journal replied set_property received raw_mode hd tl fst snd] in H.

(** Run the call at the head of the computation with the equation [lem],
    whose condition on the script follows from [Hs]. *)
Ltac step lem Hs :=
  rewrite ?bind_run;
  erewrite lem by (fields; rewrite ?Hs; fields; first [reflexivity | eassumption | lia]);
  cbn [fst snd].

Lemma raw_mode_start_ack w a b rest :
  script w = Ack a :: Ack b :: rest -> raw_mode_start w = (true, raw_mode false w).
Proof.
  intros Hs. unfold raw_mode_start.
  step (set_property_ack NP_HANDLE_CRC false w) Hs.
  change (0 <? 0) with false. cbv iota.
  step (set_property_ack NP_EASY_FRAMING false) Hs.
  reflexivity.
Qed.

Lemma raw_mode_end_ack w a b rest :
  script w = Ack a :: Ack b :: rest -> raw_mode_end w = (true, raw_mode true w).
Proof.
  intros Hs. unfold raw_mode_end.
  step (set_property_ack NP_HANDLE_CRC true w) Hs.
  change (0 <? 0) with false. cbv iota.
  step (set_property_ack NP_EASY_FRAMING true) Hs.
  reflexivity.
Qed.

(** ** The version probe *)

(** get_ev1_version on a reader that accepts the four property changes. *)
Lemma get_ev1_version_run (w : world) (a b c d : list Z) (r : reply)
    (rest : list reply) :
  script w = Ack a :: Ack b :: r :: Ack c :: Ack d :: rest ->
  let w1 := set_abtEV1 (iso14443a_crc_append (abtEV1 w) 1) (raw_mode false w) in
  let tx := NfcTransceiveBytes (take 3 (iso14443a_crc_append (abtEV1 w) 1)) in
  get_ev1_version w =
    match r with
    | Ack rx =>
        if (length rx <=? MAX_FRAME_LEN)%nat
        then (negb (Z.of_nat (length rx) =? 0),
              raw_mode true
                (received set_szRx (Z.of_nat (length rx)) rx (replied tx true w1)))
        else (false, raw_mode true (received set_szRx (-1) [] (replied tx false w1)))
    | Nak => (false, raw_mode true (received set_szRx (-1) [] (replied tx false w1)))
    end.
Proof.
  intros Hs. cbv zeta. unfold get_ev1_version.
  step (raw_mode_start_ack w) Hs. cbn [negb].
  rewrite bind_run. cbn [modify fst snd]. rewrite bind_run. cbn [gets fst snd].
  set (w1 := set_abtEV1 _ (raw_mode false w)).
  assert (Hs1 : script w1 = r :: Ack c :: Ack d :: rest)
    by (subst w1; fields; by rewrite Hs).
  change (abtEV1 w1) with (iso14443a_crc_append (abtEV1 w) 1).
  assert (Hfail :
    (if hd Nak (script w1) is Ack rx then (MAX_FRAME_LEN < length rx)%nat else True) ->
    (ok <- transmit_bytes (iso14443a_crc_append (abtEV1 w) 1) 3;;
     (if negb ok then raw_mode_end;;; ret false
      else ok0 <- raw_mode_end;;
           (if negb ok0 then ret false
            else sz <- gets szRx;; (if sz =? 0 then ret false else ret true)))) w1
    = (false,
       raw_mode true
         (received set_szRx (-1) []
            (replied (NfcTransceiveBytes (take 3 (iso14443a_crc_append (abtEV1 w) 1)))
               false w1)))).
  { intros Hf. rewrite bind_run, transmit_bytes_fails by done. cbn [negb fst snd].
    step raw_mode_end_ack Hs1. reflexivity. }
  destruct r as [|rx]; [apply Hfail; by rewrite Hs1|].
  destruct (length rx <=? MAX_FRAME_LEN)%nat eqn:Hlen.
  2:{ apply Hfail. rewrite Hs1. by apply Nat.leb_gt in Hlen. }
  apply Nat.leb_le in Hlen.
  step transmit_bytes_ack Hs1. cbn [negb].
  step raw_mode_end_ack Hs1. cbn [negb].
  rewrite bind_run. cbn [gets fst snd]. fields.
  by destruct (Z.of_nat (length rx) =? 0).
Qed.

(** X3.  On a reader that accepts the four property changes,
    get_ev1_version leaves raw mode on every path: whatever the reply to
    the version query [r], it has made five calls (raw mode on, the first
    byte of abtEV1 with its CRC, raw mode off), CRC handling and framing
    are on again, and it returns true exactly when a response of at least
    one byte (and at most MAX_FRAME_LEN) came back; the response then
    lies at the start of abtRx. *)
Theorem get_ev1_version_restores (w : world) (a b c d : list Z) (r : reply)
    (rest : list reply) :
  script w = Ack a :: Ack b :: r :: Ack c :: Ack d :: rest ->
  let res := get_ev1_version w in
  let frame := take 3 (iso14443a_crc_append (abtEV1 w) 1) in
  let sent := if r is Ack rx then (length rx <=? MAX_FRAME_LEN)%nat else false in
  handle_crc res.2 = true /\ easy_framing res.2 = true /\ script res.2 = rest
  /\ trace res.2 =
       trace w ++ [(NfcSetProperty NP_HANDLE_CRC false, true);
                   (NfcSetProperty NP_EASY_FRAMING false, true);
                   (NfcTransceiveBytes frame, sent);
                   (NfcSetProperty NP_HANDLE_CRC true, true);
                   (NfcSetProperty NP_EASY_FRAMING true, true)]
  /\ (res.1 = true <->
      exists rx, r = Ack rx /\ (0 < length rx <= MAX_FRAME_LEN)%nat)
  /\ (forall rx, r = Ack rx -> (length rx <= MAX_FRAME_LEN)%nat ->
        abtRx res.2 = list_inserts 0 rx (abtRx w)).
Proof.
  intros Hs. cbv zeta.
  rewrite (get_ev1_version_run w a b c d r rest Hs). cbv zeta.
  destruct r as [|rx]; [|destruct (length rx <=? MAX_FRAME_LEN)%nat eqn:Hlen];
    fields; rewrite Hs, <- !app_assoc; cbn [tl app];
    do 4 (split; [reflexivity|]); (split; [split|]).
  - intros [=].
  - intros (rx' & [=] & _).
  - intros rx' [=].
  - intros Hr. exists rx. apply Nat.leb_le in Hlen.
    destruct (Z.of_nat (length rx) =? 0) eqn:Hz; [done|].
    apply Z.eqb_neq in Hz. split; [reflexivity|lia].
  - intros (rx' & [= <-] & Hrx).
    destruct (Z.of_nat (length rx) =? 0) eqn:Hz; [|done].
    apply Z.eqb_eq in Hz. lia.
  - intros rx' [= <-] _. reflexivity.
  - intros [=].
  - intros (rx' & [= <-] & Hrx). apply Nat.leb_gt in Hlen. lia.
  - intros rx' [= <-] Hrx. apply Nat.leb_gt in Hlen. lia.
Qed.

(** X4.  The type test reads byte 6 of abtRx without looking at the length
    of the version response.  With that byte still zero, as at program
    start, a tag that answers the version query with fewer than seven
    bytes is taken for an MF0UL11 with 20 pages. *)
Theorem main_tag_type_short_response (w : world) (a b rx c d : list Z)
    (rest : list reply) :
  script w = Ack a :: Ack b :: Ack rx :: Ack c :: Ack d :: rest ->
  (0 < length rx <= 6)%nat -> abtRx w !! 6%nat = Some 0 ->
  let r := main_tag_type w in
  r.1 = true /\ iEV1Type r.2 = EV1_UL11 /\ uiBlocks r.2 = 20
  /\ script r.2 = rest.
Proof.
  intros Hs Hrx Hb. cbv zeta. unfold main_tag_type.
  rewrite bind_run, (get_ev1_version_run w a b c d (Ack rx) rest Hs). cbv zeta.
  replace (length rx <=? MAX_FRAME_LEN)%nat with true
    by (symmetry; apply Nat.leb_le; unfold MAX_FRAME_LEN; lia).
  replace (Z.of_nat (length rx) =? 0) with false by (symmetry; apply Z.eqb_neq; lia).
  cbn [negb fst snd]. rewrite bind_run. cbn [gets fst snd]. fields.
  assert (list_inserts 0 rx (abtRx w) !!! 6%nat = 0) as ->.
  { apply list_lookup_total_correct.
    rewrite list_lookup_inserts_ge by lia. done. }
  change ((0 =? 11) || (0 =? 0)) with true. cbv iota.
  unfold bind, modify, ret. fields. by rewrite Hs.
Qed.

(** ** Password authentication *)

(** ev1_pwd_auth on a reader that accepts the four property changes and
    transmits the frame. *)
Lemma ev1_pwd_auth_run (w : world) (pwd a b rx c d : list Z) (rest : list reply) :
  script w = Ack a :: Ack b :: Ack rx :: Ack c :: Ack d :: rest ->
  (length rx <= MAX_FRAME_LEN)%nat ->
  let frame := iso14443a_crc_append (memcpy (abtPWAuth w) 1 pwd 4) 5 in
  ev1_pwd_auth pwd w =
    (true,
     raw_mode true
       (received set_szRx (Z.of_nat (length rx)) rx
          (replied (NfcTransceiveBytes (take 7 frame)) true
             (set_abtPWAuth frame (raw_mode false w))))).
Proof.
  intros Hs Hlen. cbv zeta. unfold ev1_pwd_auth.
  step (raw_mode_start_ack w) Hs. cbn [negb].
  rewrite bind_run. cbn [modify fst snd]. rewrite bind_run. cbn [modify fst snd].
  rewrite bind_run. cbn [gets fst snd].
  set (w1 := set_abtPWAuth _ (set_abtPWAuth _ (raw_mode false w))).
  assert (Hs1 : script w1 = Ack rx :: Ack c :: Ack d :: rest)
    by (subst w1; fields; by rewrite Hs).
  step transmit_bytes_ack Hs1. cbn [negb].
  step raw_mode_end_ack Hs1. reflexivity.
Qed.

(** The first bytes of a buffer into whose start [src] was copied. *)
Lemma take_list_inserts (src dst : list Z) (n : nat) :
  (n <= length dst)%nat ->
  take n (list_inserts 0 src dst) = take n (src ++ drop (length src) dst).
Proof.
  intros Hn. apply list_eq. intros j. rewrite !lookup_take.
  case_decide as Hj; [|done].
  destruct (decide (j < length src)%nat) as [Hsrc|Hsrc].
  - rewrite list_lookup_inserts by lia. rewrite lookup_app_l by done.
    f_equal. lia.
  - rewrite list_lookup_inserts_ge by lia. rewrite lookup_app_r by lia.
    rewrite lookup_drop. f_equal. lia.
Qed.

(** X5.  The login of main (lines 676-687) on a reader that accepts the
    property changes: ev1_pwd_auth sends one frame, the first byte of
    abtPWAuth (0x1B) followed by the four password bytes and the CRC of
    these five bytes, and leaves raw mode.  It succeeds whenever the frame
    was transmitted, whatever came back: the PACK is then taken from the
    first two bytes of abtRx, which hold the response only as far as the
    response reaches. *)
Theorem main_login_pack (w : world) (a b rx c d : list Z) (rest : list reply) :
  script w = Ack a :: Ack b :: Ack rx :: Ack c :: Ack d :: rest ->
  (length rx <= MAX_FRAME_LEN)%nat ->
  length (iPWD w) = 4%nat -> length (abtPWAuth w) = 7%nat ->
  length (iPACK w) = 2%nat -> (2 <= length (abtRx w))%nat ->
  let res := main_login true w in
  let cmd := take 1 (abtPWAuth w) ++ iPWD w in
  let crc := iso14443a_crc cmd in
  res.1 = true
  /\ trace res.2 =
       trace w ++ [(NfcSetProperty NP_HANDLE_CRC false, true);
                   (NfcSetProperty NP_EASY_FRAMING false, true);
                   (NfcTransceiveBytes (cmd ++ [crc.1; crc.2]), true);
                   (NfcSetProperty NP_HANDLE_CRC true, true);
                   (NfcSetProperty NP_EASY_FRAMING true, true)]
  /\ iPACK res.2 = take 2 (rx ++ drop (length rx) (abtRx w))
  /\ handle_crc res.2 = true /\ easy_framing res.2 = true
  /\ script res.2 = rest.
Proof.
  intros Hs Hlen Hpwd Hauth Hpack Hrx. cbv zeta. unfold main_login.
  rewrite bind_run. cbn [gets fst snd]. rewrite bind_run.
  rewrite (ev1_pwd_auth_run w (iPWD w) a b rx c d rest Hs Hlen). cbv zeta.
  cbn [negb fst snd]. unfold bind, modify, ret. fields.
  rewrite Hs. cbn [tl].
  assert (Hframe :
    take 7 (iso14443a_crc_append (memcpy (abtPWAuth w) 1 (iPWD w) 4) 5)
    = (take 1 (abtPWAuth w) ++ iPWD w)
      ++ [(iso14443a_crc (take 1 (abtPWAuth w) ++ iPWD w)).1;
          (iso14443a_crc (take 1 (abtPWAuth w) ++ iPWD w)).2]).
  { unfold iso14443a_crc_append, memcpy.
    destruct (abtPWAuth w) as [|p0 [|p1 [|p2 [|p3 [|p4 [|p5 [|p6 [|]]]]]]]];
      try done.
    destruct (iPWD w) as [|q0 [|q1 [|q2 [|q3 [|]]]]]; done. }
  rewrite Hframe, <- !app_assoc. cbn [app].
  do 2 (split; [reflexivity|]). split; [|done].
  unfold memcpy. rewrite take_list_inserts by done.
  assert (Hl : length (take 2 (rx ++ drop (length rx) (abtRx w))) = 2%nat).
  { rewrite length_take, length_app, length_drop. lia. }
  destruct (take 2 (rx ++ drop (length rx) (abtRx w))) as [|p [|q [|]]];
    try done.
  by destruct (iPACK w) as [|k0 [|k1 [|]]].
Qed.

(** ** The direct-write probe *)

(** The frame check_magic writes for page [k] after reading the block
    [rx]: the four bytes of the page, then what the parameter block held
    behind its first page since the read. *)
Definition probe_frame (rx : list Z) (k : nat) : list Z :=
  take 4 (drop (4 * k) rx) ++ drop 4 rx.

Lemma check_magic_write_step (fuel : nat) (page : Z) (k : nat) (rx : list Z)
    (dw : bool) (w : world) :
  page = Z.of_nat k -> (k <= 2)%nat -> length rx = 16%nat ->
  drop 4 (mp w) = drop 4 rx -> length (mp w) = 16%nat ->
  check_magic_write (S fuel) page (take 12 rx) dw w =
    let ok := if hd Nak (script w) is Ack _ then true else false in
    let w1 := replied (NfcMifareCmd MC_WRITE page (probe_frame rx k)) ok
                (set_mp (probe_frame rx k) w) in
    if ok then check_magic_write fuel (page + 1) (take 12 rx) dw w1
    else (false, w1).
Proof.
  intros -> Hk Hrx Hmp Hlen. cbn [check_magic_write].
  replace (Z.of_nat k <=? 2) with true by lia.
  rewrite bind_run. cbn [modify fst snd]. rewrite bind_run, mifare_write_reply.
  cbv zeta. fields.
  assert (Hframe : memcpy (mp w) 0 (drop (Z.to_nat (Z.of_nat k * 4)) (take 12 rx)) 4
                   = probe_frame rx k).
  { unfold memcpy, probe_frame. rewrite <- Hmp.
    replace (Z.to_nat (Z.of_nat k * 4)) with (4 * k)%nat by lia.
    destruct (mp w) as [|m0 [|m1 [|m2 [|m3 ms]]]]; try (cbn in Hlen; lia).
    do 16 (destruct rx as [|? rx]; [cbn in Hrx; lia|]).
    destruct k as [|[|[|]]]; [done..|lia]. }
  rewrite Hframe.
  replace (wrap8 (Z.of_nat k)) with (Z.of_nat k)
    by (unfold wrap8; rewrite Z.mod_small; lia).
  replace (wrap32 (Z.of_nat k + 1)) with (Z.of_nat k + 1)
    by (unfold wrap32; rewrite Z.mod_small; lia).
  by destruct (hd Nak (script w)).
Qed.

(** check_magic from the probe's write loop on, after a block read that
    returned [rx]. *)
Lemma check_magic_read_ok (w : world) (rx : list Z) :
  block_of (hd Nak (script w)) = Some rx ->
  check_magic w =
    (directWrite <- check_magic_write 4 0 (take 12 rx) true ;;
     if directWrite then ret true else unlock_card)
      (set_mp rx (replied (NfcMifareCmd MC_READ 0 []) true w)).
Proof.
  intros Hrd. unfold check_magic.
  rewrite bind_run. cbn [gets fst snd].
  rewrite bind_run, (mifare_read_ack 0 w rx Hrd). cbn [fst snd].
  rewrite bind_run. cbn [gets fst snd]. reflexivity.
Qed.

Lemma probe_frame_tail (rx : list Z) (k : nat) :
  length rx = 16%nat -> (k <= 2)%nat ->
  drop 4 (probe_frame rx k) = drop 4 rx /\ length (probe_frame rx k) = 16%nat.
Proof.
  intros Hrx Hk. unfold probe_frame. split.
  - rewrite drop_app_length'; [done|]. rewrite length_take, length_drop. lia.
  - rewrite length_app, length_take, !length_drop. lia.
Qed.

(** X6.  A direct-write tag: when the block read of pages 0-3 and the
    three page writes succeed, check_magic returns true after exactly these
    four calls.  It has written back to pages 0, 1 and 2 the bytes it read
    from them, has not entered raw mode and has left the image alone. *)
Theorem check_magic_direct_write (w : world) (rx a b c : list Z)
    (rest : list reply) :
  script w = Ack rx :: Ack a :: Ack b :: Ack c :: rest -> length rx = 16%nat ->
  let res := check_magic w in
  res.1 = true /\ script res.2 = rest
  /\ trace res.2 =
       trace w ++ [(NfcMifareCmd MC_READ 0 [], true);
                   (NfcMifareCmd MC_WRITE 0 (probe_frame rx 0), true);
                   (NfcMifareCmd MC_WRITE 1 (probe_frame rx 1), true);
                   (NfcMifareCmd MC_WRITE 2 (probe_frame rx 2), true)]
  /\ (forall k, (k <= 2)%nat ->
        take 4 (probe_frame rx k) = take 4 (drop (4 * k) rx))
  /\ handle_crc res.2 = handle_crc w /\ easy_framing res.2 = easy_framing w
  /\ mtDump res.2 = mtDump w.
Proof.
  intros Hs Hrx. cbv zeta.
  rewrite (check_magic_read_ok w rx)
    by (rewrite Hs; cbn; by rewrite Hrx).
  rewrite bind_run.
  rewrite (check_magic_write_step 3 0 0 rx) by (first [reflexivity | lia | done]).
  cbv zeta. fields. rewrite Hs. cbn [hd tl].
  rewrite (check_magic_write_step 2 (0 + 1) 1 rx);
    [|reflexivity|lia|done|fields; apply probe_frame_tail; [done|lia]..].
  cbv zeta. fields.
  rewrite (check_magic_write_step 1 (0 + 1 + 1) 2 rx);
    [|reflexivity|lia|done|fields; apply probe_frame_tail; [done|lia]..].
  cbv zeta. fields. rewrite Hs. cbn [hd tl check_magic_write].
  change (0 + 1 + 1 + 1 <=? 2) with false. cbn [ret fst snd]. fields.
  rewrite Hs, <- !app_assoc. cbn [app tl].
  do 3 (split; [reflexivity|]). split; [|done].
  intros k Hk. unfold probe_frame.
  rewrite take_app_length'; [done|]. rewrite length_take, length_drop. lia.
Qed.

(** X7.  When the block read succeeds and a page write of the probe fails
    (after [length acks] successful ones), check_magic writes no further
    page: it runs unlock_card next, and returns what unlock_card
    returns. *)
Theorem check_magic_write_fails (w : world) (rx : list Z) (acks : list (list Z))
    (rest : list reply) :
  script w = Ack rx :: (Ack <$> acks) ++ Nak :: rest ->
  length rx = 16%nat -> (length acks <= 2)%nat ->
  let res := check_magic w in
  let halt := take 4 (iso14443a_crc_append (abtHalt w) 2) in
  exists run,
    trace res.2 =
      trace w ++ (NfcMifareCmd MC_READ 0 [], true)
      :: imap (fun k _ =>
                 (NfcMifareCmd MC_WRITE (Z.of_nat k) (probe_frame rx k), true)) acks
      ++ (NfcMifareCmd MC_WRITE (Z.of_nat (length acks))
            (probe_frame rx (length acks)), false) :: run
    /\ backdoor halt run res.1.
Proof.
  intros Hs Hrx Hacks. cbv zeta.
  rewrite (check_magic_read_ok w rx)
    by (rewrite Hs; cbn; by rewrite Hrx).
  rewrite bind_run.
  destruct acks as [|a0 [|a1 [|a2 acks]]]; [| | |cbn in Hacks; lia];
    cbn [fmap list_fmap app length imap] in Hs |- *.
  - rewrite (check_magic_write_step 3 0 0 rx) by (first [reflexivity | lia | done]).
    cbv zeta. fields. rewrite Hs. cbn [hd tl fst snd].
    match goal with |- context [unlock_card ?W] =>
      destruct (unlock_card_run W) as (run & Ht & Hrun) end.
    exists run. split; [|exact Hrun]. rewrite Ht. fields.
    by rewrite <- !app_assoc.
  - rewrite (check_magic_write_step 3 0 0 rx) by (first [reflexivity | lia | done]).
    cbv zeta. fields. rewrite Hs. cbn [hd tl].
    rewrite (check_magic_write_step 2 (0 + 1) 1 rx);
      [|reflexivity|lia|done|fields; apply probe_frame_tail; [done|lia]..].
    cbv zeta. fields. rewrite Hs. cbn [hd tl fst snd].
    match goal with |- context [unlock_card ?W] =>
      destruct (unlock_card_run W) as (run & Ht & Hrun) end.
    exists run. split; [|exact Hrun]. rewrite Ht. fields.
    by rewrite <- !app_assoc.
  - rewrite (check_magic_write_step 3 0 0 rx) by (first [reflexivity | lia | done]).
    cbv zeta. fields. rewrite Hs. cbn [hd tl].
    rewrite (check_magic_write_step 2 (0 + 1) 1 rx);
      [|reflexivity|lia|done|fields; apply probe_frame_tail; [done|lia]..].
    cbv zeta. fields. rewrite Hs. cbn [hd tl].
    rewrite (check_magic_write_step 1 (0 + 1 + 1) 2 rx);
      [|reflexivity|lia|done|fields; apply probe_frame_tail; [done|lia]..].
    cbv zeta. fields. rewrite Hs. cbn [hd tl fst snd].
    match goal with |- context [unlock_card ?W] =>
      destruct (unlock_card_run W) as (run & Ht & Hrun) end.
    exists run. split; [|exact Hrun]. rewrite Ht. fields.
    by rewrite <- !app_assoc.
Qed.

(** ** What the write loop sends *)

Lemma page_frame_built (m img : list Z) (page : Z) :
  0 <= page -> length m = 16%nat -> 4 * page + 4 <= Z.of_nat (length img) ->
  memset (memcpy m 0 (drop (ul (Z.to_nat (page / 4)) + Z.to_nat (page mod 4 * 4)) img) 4)
    4 0 12
  = page_frame img page.
Proof.
  intros Hp Hm Himg. unfold page_frame, memset, memcpy, ul.
  replace (16 * Z.to_nat (page / 4) + Z.to_nat (page mod 4 * 4))%nat
    with (Z.to_nat (4 * page)) by (Z.to_euclidean_division_equations; lia).
  assert (Hl : length (take 4 (drop (Z.to_nat (4 * page)) img)) = 4%nat).
  { rewrite length_take, length_drop. lia. }
  destruct (take 4 (drop (Z.to_nat (4 * page)) img)) as [|b0 [|b1 [|b2 [|b3 [|]]]]];
    try done.
  do 16 (destruct m as [|? m]; [done|]). by destruct m.
Qed.

(** One page of the write loop, as the reader sees it. *)
Lemma write_card_page_calls otp lock dyn page bF c w :
  let r := write_card_page otp lock dyn page bF c w in
  mtDump r.2 = mtDump w /\ uiBlocks r.2 = uiBlocks w
  /\ exists evs,
       trace r.2 = trace w ++ evs
       /\ match r.1 with
          | None => bF = true /\ evs = [(NfcSelectPassiveTarget, false)]
          | Some (bF', _) =>
              forall rest res, session bF' rest res -> session bF (evs ++ rest) res
          end
       /\ (0 <= page < 256 -> length (mp w) = 16%nat ->
           4 * page + 4 <= Z.of_nat (length (mtDump w)) ->
           length (mp r.2) = 16%nat /\ Forall (carries_page (mtDump w)) evs).
Proof.
  cbv zeta. unfold write_card_page.
  rewrite bind_run. cbn [gets fst snd]. rewrite bind_run. cbn [gets fst snd].
  assert (Hskip :
    let r := (LOG (LogMark page MkSkip) ;;; ret (Some (bF, skip_page c))) w in
    mtDump r.2 = mtDump w /\ uiBlocks r.2 = uiBlocks w
    /\ exists evs,
         trace r.2 = trace w ++ evs
         /\ match r.1 with
            | None => bF = true /\ evs = [(NfcSelectPassiveTarget, false)]
            | Some (bF', _) =>
                forall rest res, session bF' rest res -> session bF (evs ++ rest) res
            end
         /\ (0 <= page < 256 -> length (mp w) = 16%nat ->
             4 * page + 4 <= Z.of_nat (length (mtDump w)) ->
             length (mp r.2) = 16%nat /\ Forall (carries_page (mtDump w)) evs)).
  { unfold LOG, bind, modify, ret. cbn. repeat split; try done.
    exists []. rewrite app_nil_r. repeat split; [done..|constructor]. }
  destruct (negb lock && (page =? 2)); [exact Hskip|].
  destruct ((page =? 3) && negb otp); [exact Hskip|].
  destruct (is_dyn_lock_page _ _ page && negb dyn); [exact Hskip|].
  clear Hskip.
  match goal with |- context [if negb _ then ret None else ?body] =>
    set (write := body) end.
  assert (Hwrite : forall w1 : world,
    mtDump w1 = mtDump w -> uiBlocks w1 = uiBlocks w ->
    mtDump (write w1).2 = mtDump w /\ uiBlocks (write w1).2 = uiBlocks w
    /\ exists ok data,
         trace (write w1).2 = trace w1 ++ [(NfcMifareCmd MC_WRITE (wrap8 page) data, ok)]
         /\ (exists c', (write w1).1 = Some (negb ok, c'))
         /\ (0 <= page < 256 -> length (mp w1) = 16%nat ->
             4 * page + 4 <= Z.of_nat (length (mtDump w)) ->
             length (mp (write w1).2) = 16%nat
             /\ wrap8 page = page /\ data = page_frame (mtDump w) page)).
  { intros w1 Hd1 Hn1. subst write. cbv zeta.
    rewrite bind_run. cbn [modify fst snd]. rewrite bind_run. cbn [modify fst snd].
    rewrite bind_run, mifare_write_reply. cbv zeta. fields.
    unfold print_success_or_failure, LOG, bind, modify, ret. fields.
    split; [done|]. split; [done|]. eexists _, _. split; [reflexivity|].
    split; [eauto|]. intros Hp Hm Himg.
    rewrite Hd1, page_frame_built by first [done | lia].
    split; [unfold page_frame; rewrite length_app, length_take, length_drop,
              length_replicate; lia|].
    split; [unfold wrap8; rewrite Z.mod_small; lia|done]. }
  destruct bF.
  - (* the last write failed: the tag is selected again *)
    rewrite bind_run.
    destruct (hd Nak (script w)) as [|rx] eqn:Hhd.
    + rewrite bind_run, (select_nak w Hhd). cbn [fst snd ret negb].
      change (0 <=? 0) with true. cbn [negb ret fst snd]. fields.
      repeat split; try done. eexists. split; [reflexivity|].
      split; [done|]. intros. split; [done|]. by repeat constructor.
    + rewrite bind_run, (select_ack w rx Hhd). cbn [fst snd ret negb].
      change (1 <=? 0) with false. cbn [negb].
      match goal with |- context [write ?W] =>
        destruct (Hwrite W) as (H2 & H3 & ok & data & Ht & (c' & Hr) & Hc);
          [by fields..|] end.
      split; [exact H2|]. split; [exact H3|].
      eexists. split; [rewrite Ht; fields; by rewrite <- app_assoc|].
      split; [rewrite Hr; intros rest res Hrest; by constructor|].
      intros Hp Hm Himg. destruct (Hc Hp Hm Himg) as (Hl & Hw8 & ->).
      split; [exact Hl|]. rewrite Hw8. by repeat constructor.
  - cbn [ret negb fst snd]. rewrite bind_run. cbn [ret fst snd negb].
    destruct (Hwrite w) as (H2 & H3 & ok & data & Ht & (c' & Hr) & Hc); [done..|].
    split; [exact H2|]. split; [exact H3|].
    eexists. split; [exact Ht|].
    split; [rewrite Hr; intros rest res Hrest; by constructor|].
    intros Hp Hm Himg. destruct (Hc Hp Hm Himg) as (Hl & Hw8 & ->).
    split; [exact Hl|]. rewrite Hw8. by repeat constructor.
Qed.

Lemma write_card_loop_calls otp lock dyn fuel : forall page bF c w,
  let r := write_card_loop otp lock dyn fuel page bF c w in
  mtDump r.2 = mtDump w /\ uiBlocks r.2 = uiBlocks w
  /\ exists evs,
       trace r.2 = trace w ++ evs
       /\ session bF evs (if r.1 is Some _ then true else false)
       /\ (0 <= page -> uiBlocks w <= 256 -> length (mp w) = 16%nat ->
           4 * uiBlocks w <= Z.of_nat (length (mtDump w)) ->
           Forall (carries_page (mtDump w)) evs).
Proof.
  induction fuel as [|fuel IH]; intros page bF c w; cbv zeta.
  - cbn. repeat split. exists []. rewrite app_nil_r.
    repeat split; constructor.
  - cbn [write_card_loop]. rewrite bind_run. cbn [gets fst snd].
    destruct (page <? uiBlocks w) eqn:Hlt.
    2:{ cbn. repeat split. exists []. rewrite app_nil_r. repeat split; constructor. }
    apply Z.ltb_lt in Hlt. rewrite bind_run.
    pose proof (write_card_page_calls otp lock dyn page bF c w) as Hpg.
    cbv zeta in Hpg.
    destruct (write_card_page otp lock dyn page bF c w) as [r1 w1].
    cbn [fst snd] in *.
    destruct Hpg as (Hd1 & Hn1 & evs1 & Ht1 & Hs1 & Hc1).
    destruct r1 as [[bF1 c1]|]; cbn [ret fst snd].
    2:{ destruct Hs1 as (-> & ->). split; [done|]. split; [done|].
        eexists. split; [exact Ht1|]. split; [constructor|].
        intros. by repeat constructor. }
    specialize (IH (wrap32 (page + 1)) bF1 c1 w1). cbv zeta in IH.
    destruct (write_card_loop otp lock dyn fuel (wrap32 (page + 1)) bF1 c1 w1)
      as [r2 w2].
    cbn [fst snd] in *.
    destruct IH as (Hd2 & Hn2 & evs2 & Ht2 & Hs2 & Hc2).
    split; [congruence|]. split; [congruence|].
    exists (evs1 ++ evs2). split; [by rewrite Ht2, Ht1, <- app_assoc|].
    split; [by apply Hs1|].
    intros Hp Hn Hm Himg.
    destruct (Hc1 ltac:(lia) Hm ltac:(lia)) as (Hm1 & Hf1).
    apply Forall_app. split; [exact Hf1|].
    rewrite <- Hd1. apply Hc2; rewrite ?Hn1, ?Hd1; try done.
    unfold wrap32. rewrite Z.mod_small; lia.
Qed.

(** write_card runs the page loop in the state the prompts leave. *)
Lemma write_card_after_prompts o l d u w :
  exists w1,
    write_card o l d u w =
      write_card_pages (write_card_prompts o l d u w).1.1.1.1
        (write_card_prompts o l d u w).1.1.1.2
        (write_card_prompts o l d u w).1.1.2
        (write_card_prompts o l d u w).1.2 w1
    /\ trace w1 = trace w /\ mtDump w1 = mtDump w /\ mp w1 = mp w
    /\ uiBlocks w1 = uiBlocks w.
Proof.
  unfold write_card. rewrite bind_run.
  pose proof (write_card_prompts_pres
    (fun w' => trace w' = trace w /\ mtDump w' = mtDump w /\ mp w' = mp w
               /\ uiBlocks w' = uiBlocks w)
    o l d u ltac:(done) w ltac:(by repeat split)) as Hf.
  destruct (write_card_prompts o l d u w) as [f w1]. cbn [fst snd] in *.
  by exists w1.
Qed.

(** The page loop of a session without write-UID. *)
Lemma write_card_pages_calls otp lock dyn w :
  let r := write_card_pages otp lock dyn false w in
  mtDump r.2 = mtDump w
  /\ exists evs,
       trace r.2 = trace w ++ evs /\ session false evs r.1
       /\ (uiBlocks w <= 256 -> length (mp w) = 16%nat ->
           4 * uiBlocks w <= Z.of_nat (length (mtDump w)) ->
           Forall (carries_page (mtDump w)) evs).
Proof.
  cbv zeta. unfold write_card_pages.
  rewrite bind_run. cbn [gets fst snd]. rewrite bind_run. cbn [negb].
  set (w1 := set_journal
               ((journal w ++ [LogMark 0 MkSkip]) ++ [LogMark 1 MkSkip]) w).
  change ((LOG (LogMark 0 MkSkip);;; LOG (LogMark 1 MkSkip);;; ret true) w)
    with (true, w1).
  cbn [fst snd negb uiSkippedPages]. rewrite bind_run.
  pose proof (write_card_loop_calls otp lock dyn (S (Z.to_nat (uiBlocks w))) 2
                false (mkCounters 0 2 0) w1) as Hl.
  cbv zeta in Hl.
  destruct (write_card_loop _ _ _ _ 2 false _ w1) as [r1 w2].
  cbn [fst snd] in *.
  destruct Hl as (Hd & Hn & evs & Ht & Hs & Hc).
  assert (mtDump w2 = mtDump w /\ trace w2 = trace w ++ evs) as [Hd' Ht'] by done.
  destruct r1 as [c'|]; unfold LOG, bind, modify, ret; cbn [fst snd]; fields;
    (split; [exact Hd'|]); exists evs; (split; [exact Ht'|]); (split; [exact Hs|]);
    intros; apply Hc; done.
Qed.

(** The image is as in [w0]. *)
Definition same_image (w0 w : world) : Prop := mtDump w = mtDump w0.

Ltac same_image_leaf := unfold same_image in *; cbn; congruence.

Lemma check_magic_write_same_image w0 fuel : forall page b0 dw,
  preserves (same_image w0) (check_magic_write fuel page b0 dw).
Proof.
  induction fuel as [|fuel IH]; intros page b0 dw; cbn [check_magic_write];
    pres_with same_image_leaf.
Qed.

Lemma check_magic_same_image w0 : preserves (same_image w0) check_magic.
Proof.
  unfold check_magic.
  pres_with same_image_leaf; apply check_magic_write_same_image.
Qed.

(** A write session leaves the image as it is, whatever the flags. *)
Lemma write_card_pages_same_image otp lock dyn uid w :
  mtDump (write_card_pages otp lock dyn uid w).2 = mtDump w.
Proof.
  destruct uid; [|apply write_card_pages_calls].
  unfold write_card_pages.
  rewrite bind_run. cbn [gets fst snd]. rewrite bind_run. cbn [negb].
  pose proof (check_magic_same_image w w eq_refl) as Hd1. unfold same_image in Hd1.
  destruct (check_magic w) as [ok w1]. cbn [fst snd] in *.
  destruct ok; cbn [negb ret fst snd]; [|exact Hd1].
  rewrite bind_run.
  match goal with |- context [write_card_loop ?a ?b ?c ?f ?p ?bF ?cs w1] =>
    pose proof (write_card_loop_calls a b c f p bF cs w1) as (Hd2 & _);
    destruct (write_card_loop a b c f p bF cs w1) as [r1 w2] end.
  cbn [fst snd] in *.
  destruct r1; unfold LOG, bind, modify, ret; cbn [fst snd]; fields; congruence.
Qed.

(** X8.  write_card never changes the image, whatever the flags and the
    answers to the prompts; and in a session that leaves pages 0 and 1
    alone (write-UID unset after the prompts) every page write it sends
    carries the four bytes that the image holds for the page written,
    followed by twelve zero bytes. *)
Theorem write_card_sends_image (o l d u : bool) (w : world) :
  let r := write_card o l d u w in
  mtDump r.2 = mtDump w
  /\ (uiBlocks w <= 256 -> length (mp w) = 16%nat ->
      4 * uiBlocks w <= Z.of_nat (length (mtDump w)) ->
      (write_card_prompts o l d u w).1.2 = false ->
      exists evs,
        trace r.2 = trace w ++ evs /\ Forall (carries_page (mtDump w)) evs).
Proof.
  cbv zeta.
  destruct (write_card_after_prompts o l d u w) as (w1 & -> & Ht & Hd & Hmp & Hb).
  split; [by rewrite write_card_pages_same_image|].
  intros Hn Hm Himg Hu. rewrite Hu.
  destruct (write_card_pages_calls (write_card_prompts o l d u w).1.1.1.1
              (write_card_prompts o l d u w).1.1.1.2
              (write_card_prompts o l d u w).1.1.2 w1) as (Hd2 & evs & Ht2 & _ & Hc).
  exists evs. split; [congruence|].
  rewrite <- Hd. apply Hc; rewrite ?Hb, ?Hmp, ?Hd; done.
Qed.

(** X9.  In a session that leaves pages 0 and 1 alone (write-UID unset
    after the prompts) write_card calls the reader only to write pages and
    to select the tag again: it selects the tag again exactly between a
    failed page write and the next page write, a failed page write alone
    never ends the session, and write_card returns false exactly when a
    re-selection fails, which is then its last call. *)
Theorem write_card_session (o l d u : bool) (w : world) :
  (write_card_prompts o l d u w).1.2 = false ->
  let r := write_card o l d u w in
  exists evs, trace r.2 = trace w ++ evs /\ session false evs r.1.
Proof.
  intros Hu. cbv zeta.
  destruct (write_card_after_prompts o l d u w) as (w1 & -> & Ht & _).
  rewrite Hu.
  destruct (write_card_pages_calls (write_card_prompts o l d u w).1.1.1.1
              (write_card_prompts o l d u w).1.1.1.2
              (write_card_prompts o l d u w).1.1.2 w1) as (_ & evs & Ht2 & Hs & _).
  exists evs. split; [congruence|exact Hs].
Qed.

(** ** The skip policy, as the reader sees it *)

(** One page of the write loop calls the reader only to select the tag
    again and to write this page, and not at all when the plan skips the
    page. *)
Lemma write_card_page_writes otp lock dyn page bF c w :
  0 <= page < 256 ->
  let r := write_card_page otp lock dyn page bF c w in
  exists evs,
    trace r.2 = trace w ++ evs
    /\ Forall (loop_call otp lock dyn (iEV1Type w) (iNTAGType w) page (page + 1)) evs.
Proof.
  intros Hp. cbv zeta. unfold write_card_page.
  rewrite bind_run. cbn [gets fst snd]. rewrite bind_run. cbn [gets fst snd].
  assert (Hskip : forall r : option (bool * counters),
            exists evs,
              trace ((LOG (LogMark page MkSkip) ;;; ret r) w).2 = trace w ++ evs
              /\ Forall (loop_call otp lock dyn (iEV1Type w) (iNTAGType w)
                           page (page + 1)) evs).
  { intros r. exists []. by rewrite app_nil_r. }
  destruct (negb lock && (page =? 2)) eqn:E1; [apply Hskip|].
  destruct ((page =? 3) && negb otp) eqn:E2; [apply Hskip|].
  destruct (is_dyn_lock_page _ _ page && negb dyn) eqn:E3; [apply Hskip|].
  clear Hskip.
  assert (Hcall : forall data ok,
            loop_call otp lock dyn (iEV1Type w) (iNTAGType w) page (page + 1)
              (NfcMifareCmd MC_WRITE (wrap8 page) data, ok)).
  { intros data ok. unfold loop_call, plan_skips, wrap8. cbn [fst].
    rewrite Z.mod_small by lia. rewrite E1, E2, E3. split; [lia|done]. }
  destruct bF.
  - rewrite bind_run.
    destruct (hd Nak (script w)) as [|rx] eqn:Hhd.
    + rewrite bind_run, (select_nak w Hhd). cbn [fst snd ret negb].
      change (0 <=? 0) with true. cbn [negb ret fst snd]. fields.
      eexists. split; [reflexivity|]. by repeat constructor.
    + rewrite bind_run, (select_ack w rx Hhd). cbn [fst snd ret negb].
      change (1 <=? 0) with false. cbn [negb].
      rewrite bind_run. cbn [modify fst snd]. rewrite bind_run. cbn [modify fst snd].
      rewrite bind_run, mifare_write_reply. cbv zeta. fields.
      unfold print_success_or_failure, LOG, bind, modify, ret. fields.
      eexists. split; [by rewrite <- app_assoc|].
      constructor; [done|]. constructor; [apply Hcall|constructor].
  - cbn [ret negb fst snd]. rewrite bind_run. cbn [ret fst snd negb].
    rewrite bind_run. cbn [modify fst snd]. rewrite bind_run. cbn [modify fst snd].
    rewrite bind_run, mifare_write_reply. cbv zeta. fields.
    unfold print_success_or_failure, LOG, bind, modify, ret. fields.
    eexists. split; [reflexivity|]. constructor; [apply Hcall|constructor].
Qed.

Lemma loop_call_mono otp lock dyn ev1 ntag lo hi lo' hi' e :
  lo' <= lo -> hi <= hi' ->
  loop_call otp lock dyn ev1 ntag lo hi e -> loop_call otp lock dyn ev1 ntag lo' hi' e.
Proof.
  unfold loop_call. destruct e as [[] ok]; cbn; try done.
  destruct mc; [done|]. intros ? ? [? ?]. split; [lia|done].
Qed.

(** The write loop from [page] on writes only pages from [page] on that
    the plan does not skip. *)
Lemma write_card_loop_writes otp lock dyn fuel : forall page bF c w,
  0 <= page -> uiBlocks w <= 256 ->
  let r := write_card_loop otp lock dyn fuel page bF c w in
  exists evs,
    trace r.2 = trace w ++ evs
    /\ Forall (loop_call otp lock dyn (iEV1Type w) (iNTAGType w) page (uiBlocks w)) evs.
Proof.
  induction fuel as [|fuel IH]; intros page bF c w Hp Hn; cbv zeta.
  - exists []. by rewrite app_nil_r.
  - cbn [write_card_loop]. rewrite bind_run. cbn [gets fst snd].
    destruct (page <? uiBlocks w) eqn:Hlt; [|exists []; by rewrite app_nil_r].
    apply Z.ltb_lt in Hlt. rewrite bind_run.
    destruct (write_card_page_writes otp lock dyn page bF c w ltac:(lia))
      as (evs1 & Ht1 & He1).
    pose proof (write_card_page_spec otp lock dyn page bF c w)
      as (((Hn1 & Hev1 & Hnt1) & _) & _).
    destruct (write_card_page otp lock dyn page bF c w) as [r1 w1].
    cbn [fst snd] in *.
    assert (He1' : Forall (loop_call otp lock dyn (iEV1Type w) (iNTAGType w)
                             page (uiBlocks w)) evs1).
    { eapply Forall_impl; [exact He1|]. intros e. apply loop_call_mono; lia. }
    destruct r1 as [[bF1 c1]|]; cbn [ret fst snd]; [|by exists evs1].
    destruct (IH (wrap32 (page + 1)) bF1 c1 w1) as (evs2 & Ht2 & He2);
      [unfold wrap32; apply Z.mod_pos_bound; lia|lia|].
    rewrite (wrap32_small (page + 1)) in * by lia.
    rewrite Hn1, Hev1, Hnt1 in He2.
    exists (evs1 ++ evs2). split; [by rewrite Ht2, Ht1, <- app_assoc|].
    apply Forall_app. split; [exact He1'|].
    eapply Forall_impl; [exact He2|]. intros e. apply loop_call_mono; lia.
Qed.

(** The calls made since [w0] are calls of the probe. *)
Definition probing (w0 w : world) : Prop :=
  exists evs, trace w = trace w0 ++ evs /\ Forall probe_call evs.

Ltac probing_leaf :=
  unfold probing in *; cbn;
  match goal with
  | H : exists evs, _ /\ _ |- _ => destruct H as (?evs & ?Ht & ?Hf)
  end;
  first
    [ eexists; split; [eassumption|assumption]
    | eexists; split;
        [match goal with H : _ = _ |- _ => rewrite H end;
         rewrite <- app_assoc; reflexivity
        |apply Forall_app; split; [assumption|by repeat constructor]] ].

Lemma check_magic_write_probing w0 fuel : forall page b0 dw,
  0 <= page -> preserves (probing w0) (check_magic_write fuel page b0 dw).
Proof.
  induction fuel as [|fuel IH]; intros page b0 dw Hp w Hw; cbn [check_magic_write];
    [exact Hw|].
  destruct (page <=? 2) eqn:Hle; [|exact Hw]. apply Z.leb_le in Hle.
  rewrite bind_run. cbn [modify fst snd]. rewrite bind_run, mifare_write_reply.
  cbv zeta. cbn [fst snd].
  match goal with |- probing w0 ((if negb ?ok then _ else _) ?W).2 =>
    assert (Hw1 : probing w0 W) end.
  { destruct Hw as (evs & Ht & Hf). unfold probing. fields.
    eexists. split; [rewrite Ht, <- app_assoc; reflexivity|].
    apply Forall_app. split; [exact Hf|]. constructor; [|constructor].
    unfold probe_call, wrap8. cbn [fst]. rewrite Z.mod_small; lia. }
  destruct (if hd Nak (script _) is Ack _ then true else false); cbn [negb];
    [|exact Hw1].
  apply IH; [unfold wrap32; apply Z.mod_pos_bound; lia|exact Hw1].
Qed.

Lemma check_magic_probing w0 : preserves (probing w0) check_magic.
Proof.
  pose proof (fun b0 dw => check_magic_write_probing w0 4 0 b0 dw ltac:(lia)) as Hw.
  unfold check_magic.
  pres_with probing_leaf.
Qed.

(** A write session after the prompts, as the reader sees it: the calls of
    check_magic, if write-UID is set, and then the calls of the write
    loop. *)
Lemma write_card_pages_writes otp lock dyn uid w :
  uiBlocks w <= 256 ->
  let r := write_card_pages otp lock dyn uid w in
  let probe := if uid then drop (length (trace w)) (trace (check_magic w).2) else [] in
  exists evs,
    trace r.2 = trace w ++ probe ++ evs
    /\ Forall probe_call probe
    /\ Forall (loop_call otp lock dyn (iEV1Type w) (iNTAGType w)
                 (if uid then 0 else 2) (uiBlocks w)) evs.
Proof.
  intros Hn. cbv zeta. unfold write_card_pages.
  rewrite bind_run. cbn [gets fst snd]. rewrite bind_run.
  destruct uid; cbn [negb].
  - destruct (check_magic_probing w w) as (probe & Ht1 & Hp1);
      [exists []; by rewrite app_nil_r|].
    pose proof (check_magic_pres w w ltac:(by repeat split))
      as (_ & (Hn1 & Hev1 & Hnt1) & _).
    rewrite Ht1, drop_app_length.
    destruct (check_magic w) as [ok w1]. cbn [fst snd] in *.
    destruct ok; cbn [negb ret fst snd].
    2:{ exists []. rewrite app_nil_r. done. }
    rewrite bind_run. cbn [uiSkippedPages].
    destruct (write_card_loop_writes otp lock dyn (S (Z.to_nat (uiBlocks w))) 0
                false (mkCounters 0 0 0) w1) as (evs & Ht & He); [lia..|].
    rewrite Hn1, Hev1, Hnt1 in He.
    destruct (write_card_loop _ _ _ _ 0 false _ w1) as [r1 w2].
    cbn [fst snd] in *.
    exists evs.
    destruct r1; unfold LOG, bind, modify, ret; cbn;
      rewrite Ht, Ht1, <- app_assoc; done.
  - set (w1 := set_journal
                 ((journal w ++ [LogMark 0 MkSkip]) ++ [LogMark 1 MkSkip]) w).
    change ((LOG (LogMark 0 MkSkip);;; LOG (LogMark 1 MkSkip);;; ret true) w)
      with (true, w1).
    cbn [fst snd negb uiSkippedPages app]. rewrite bind_run.
    destruct (write_card_loop_writes otp lock dyn (S (Z.to_nat (uiBlocks w))) 2
                false (mkCounters 0 2 0) w1) as (evs & Ht & He); [lia|done|].
    destruct (write_card_loop _ _ _ _ 2 false _ w1) as [r1 w2].
    cbn [fst snd] in *.
    exists evs.
    destruct r1; unfold LOG, bind, modify, ret; cbn; rewrite Ht; done.
Qed.

Lemma loop_call_write_or_select otp lock dyn ev1 ntag lo hi evs :
  Forall (loop_call otp lock dyn ev1 ntag lo hi) evs ->
  Forall (fun e => is_write_or_select e = true) evs.
Proof.
  intros H. eapply Forall_impl; [exact H|].
  intros [[] ok]; cbn; try done. by destruct mc.
Qed.

Lemma loop_call_skips otp lock dyn ev1 ntag lo hi evs p :
  plan_skips otp lock dyn ev1 ntag p = true \/ p < lo ->
  Forall (loop_call otp lock dyn ev1 ntag lo hi) evs ->
  Forall (fun e => is_write_to p e = false) evs.
Proof.
  intros Hp H. eapply Forall_impl; [exact H|].
  intros [[] ok]; cbn; try done.
  destruct mc; [done|]. intros [Hq Hplan]. apply Z.eqb_neq. intros ->.
  destruct Hp as [Hp|Hp]; [congruence|lia].
Qed.

Lemma probe_call_above (evs : list (call * bool)) (p : Z) :
  2 < p -> Forall probe_call evs -> Forall (fun e => is_write_to p e = false) evs.
Proof.
  intros Hp H. eapply Forall_impl; [exact H|].
  intros [[] ok]; cbn; try done.
  destruct mc; [done|]. intros Hq. apply Z.eqb_neq. lia.
Qed.

(** C2, as amended.  In every write session, with the flags as the prompts
    leave them, the calls to the reader are those of check_magic (none
    when write-UID is unset) followed by those of the write loop, which
    are re-selections and page writes only; [marks] are all the marks that
    the session logs.  A page that the flags protect
    is skipped by the write loop: it is never marked as written or failed,
    it is marked 's' whenever the session runs to the end, and the loop
    sends no page write for it; this holds for page 2 when write-lock is
    unset.  Page 3 when write-OTP is unset, the dynamic-lock page of the
    variant when write-dynamic-lock is unset, and pages 0 and 1 when
    write-UID is unset are, beyond that, not written by check_magic
    either, whose page writes go to pages 0 to 2 only: no page write for
    them is sent in the whole session. *)
Theorem write_card_skip_policy (o l d u : bool) (w : world) :
  uiBlocks w <= 256 ->
  let f := (write_card_prompts o l d u w).1 in
  let r := write_card o l d u w in
  let probe :=
    if f.2
    then drop (length (trace w))
           (trace (check_magic (write_card_prompts o l d u w).2).2)
    else [] in
  exists marks rest evs,
    journal r.2 = journal w ++ marks ++ rest
    /\ Forall (fun l => mark_page l = None) rest
    /\ trace r.2 = trace w ++ probe ++ evs
    /\ Forall probe_call probe
    /\ Forall (fun e => is_write_or_select e = true) evs
    /\ let skipped p :=
         (forall m, In (LogMark p m) marks -> m = MkSkip)
         /\ (r.1 = true -> 0 <= p < uiBlocks w -> In (LogMark p MkSkip) marks)
         /\ Forall (fun e => is_write_to p e = false) evs in
       let untouched p :=
         skipped p /\ Forall (fun e => is_write_to p e = false) probe in
       (f.1.1.2 = false -> skipped 0x2)
       /\ (f.1.1.1 = false -> untouched 0x3)
       /\ (f.1.2 = false ->
           (iEV1Type w = EV1_UL21 -> untouched 0x24)
           /\ (iNTAGType w = NTAG_213 -> untouched 0x28)
           /\ (iNTAGType w = NTAG_215 -> untouched 0x82)
           /\ (iNTAGType w = NTAG_216 -> untouched 0xe2))
       /\ (f.2 = false -> untouched 0 /\ untouched 1).
Proof.
  intros Hn. cbv zeta.
  assert (Hrun : write_card o l d u w =
                 write_card_pages (write_card_prompts o l d u w).1.1.1.1
                   (write_card_prompts o l d u w).1.1.1.2
                   (write_card_prompts o l d u w).1.1.2
                   (write_card_prompts o l d u w).1.2
                   (write_card_prompts o l d u w).2).
  { unfold write_card. by rewrite bind_run. }
  rewrite Hrun. clear Hrun.
  pose proof (write_card_prompts_pres
    (fun w' => journal w' = journal w /\ trace w' = trace w /\ same_type w w')
    o l d u ltac:(done) w ltac:(by repeat split)) as (Hj & Ht & Hn1 & Hev & Hnt).
  destruct (write_card_prompts o l d u w) as [[[[otp lock] dyn] uid] w1].
  cbn [fst snd] in *.
  pose proof (write_card_pages_spec otp lock dyn uid w1 ltac:(lia)) as Hs.
  cbv zeta in Hs. destruct Hs as (marks & evs0 & _ & _ & Hmk & Hr).
  destruct (write_card_pages_writes otp lock dyn uid w1 ltac:(lia))
    as (evs & Htr & Hprobe & Hloop).
  rewrite Hn1, Hev, Hnt, Hj, Ht in *.
  set (r := write_card_pages otp lock dyn uid w1) in *.
  set (probe := if uid then drop (length (trace w)) (trace (check_magic w1).2)
                else []) in *.
  assert (Hrest : exists rest, journal r.2 = journal w ++ marks ++ rest
            /\ Forall (fun l => mark_page l = None) rest
            /\ (r.1 = true -> forall p, 0 <= p < uiBlocks w ->
                  p ∈ omap mark_page marks)).
  { destruct r.1.
    - destruct Hr as (c & -> & Hcov & _). eexists. split; [done|].
      split; [by repeat constructor|auto].
    - exists []. rewrite app_nil_r. split; [done|]. split; [constructor|done]. }
  destruct Hrest as (rest & Hjr & Hnomark & Hcov).
  exists marks, rest, evs.
  split; [done|]. split; [done|]. split; [done|]. split; [done|].
  split; [by eapply loop_call_write_or_select|].
  assert (Hsk : forall p,
            page_plan otp lock dyn uid (iEV1Type w) (iNTAGType w) p = true ->
            (forall m, In (LogMark p m) marks -> m = MkSkip)
            /\ (r.1 = true -> 0 <= p < uiBlocks w -> In (LogMark p MkSkip) marks)
            /\ Forall (fun e => is_write_to p e = false) evs).
  { intros p Hplan. rewrite Forall_forall in Hmk.
    assert (H1 : forall m, In (LogMark p m) marks -> m = MkSkip).
    { intros m Hin. apply list_elem_of_In in Hin.
      destruct (Hmk _ Hin) as (p' & m' & Heq & Hm). simplify_eq. by apply Hm. }
    split; [done|]. split.
    - intros Hret Hp.
      specialize (Hcov Hret p Hp).
      apply list_elem_of_omap in Hcov as (l' & Hin & Hpg).
      destruct l' as [p' m| |]; simplify_eq. cbn in Hpg. simplify_eq.
      apply list_elem_of_In in Hin. by rewrite <- (H1 _ Hin).
    - eapply loop_call_skips; [|exact Hloop].
      unfold page_plan in Hplan. apply orb_true_iff in Hplan as [Hu|Hplan];
        [|by left].
      right. apply andb_true_iff in Hu as [Hu Hp]. destruct uid; [done|]. lia. }
  unfold page_plan, plan_skips, is_dyn_lock_page in Hsk.
  split; [intros ->; apply Hsk; by destruct uid|].
  split.
  { intros ->. split; [apply Hsk; by destruct uid, lock|].
    by apply probe_call_above. }
  split.
  { intros ->.
    (split; [|split; [|split]]); intros Hty;
      (split; [|by apply probe_call_above]);
      apply Hsk; rewrite Hty;
      destruct uid, lock, otp; cbn; by rewrite ?andb_false_r. }
  intros ->. subst probe. cbn.
  split; (split; [apply Hsk; done|constructor]).
Qed.

(** ** The prompts *)

(** X10.  write_card does not stop when standard input ends: fgets then
    leaves the buffer as it was, and the prompt reads the answer of the
    last line once more.  With one line of input, every flag that was not
    passed set takes the answer of that line ('y' or 'Y' in its first
    character); the dynamic-lock flag does so only for the tag types that
    are asked about it. *)
Theorem write_card_prompts_end_of_input (o l d u : bool) (c : Z) (w : world) :
  stdin w = [Some c] ->
  let yes := (c =? 0x79) || (c =? 0x59) in
  let asked_dyn := negb (iNTAGType w =? NTAG_NONE) || (iEV1Type w =? EV1_UL21) in
  (write_card_prompts o l d u w).1
  = (o || yes, l || yes, d || (asked_dyn && yes), u || yes).
Proof.
  intros Hs. cbv zeta. unfold write_card_prompts, ask, fgets_stdin, bind, gets, ret.
  destruct o, l, d, u; cbn; rewrite ?Hs; cbn;
    destruct (iNTAGType w =? NTAG_NONE), (iEV1Type w =? EV1_UL21);
    cbn; rewrite ?Hs; cbn; rewrite ?orb_false_r, ?orb_true_r; reflexivity.
Qed.

(** ** What the read loop counts *)

Lemma marks_app m p n1 n2 :
  0 <= n1 -> 0 <= n2 -> marks m p (n1 + n2) = marks m p n1 ++ marks m (p + n1) n2.
Proof. intros. unfold marks. by rewrite seqZ_app, fmap_app. Qed.

Lemma marks_nil m p n : n <= 0 -> marks m p n = [].
Proof. intros. unfold marks. by rewrite seqZ_nil. Qed.

Lemma read_card_count_run k : forall page bF f w,
  0 <= f -> 0 <= uiReadPages w -> f + Z.of_nat k < 2 ^ 32 ->
  uiReadPages w + Z.of_nat k < 2 ^ 32 ->
  let r := read_card_count k page bF f w in
  r.1 = f + (if bF then Z.of_nat k else 0)
  /\ uiReadPages r.2 = uiReadPages w + (if bF then 0 else Z.of_nat k)
  /\ journal r.2
     = journal w ++ marks (if bF then MkFail else MkOk) page (Z.of_nat k)
  /\ script r.2 = script w /\ uiBlocks r.2 = uiBlocks w.
Proof.
  induction k as [|k IH]; intros page bF f w Hf Hr Hfk Hrk; cbv zeta.
  - cbn. rewrite app_nil_r. destruct bF; repeat split; lia.
  - cbn [read_card_count]. rewrite bind_run. cbn [gets fst snd].
    unfold print_success_or_failure, LOG. rewrite !bind_run.
    cbn [modify ret fst snd].
    match goal with |- context [read_card_count k ?p ?b ?g ?W] =>
      specialize (IH p b g W) end.
    cbv zeta in IH. fields_in IH.
    rewrite !wrap32_small in IH |- * by (destruct bF; lia).
    destruct IH as (-> & -> & -> & -> & ->); [destruct bF; lia..|].
    fields. rewrite Nat2Z.inj_succ, <- Z.add_1_l.
    rewrite (marks_app _ page 1) by lia. rewrite <- app_assoc.
    destruct bF; repeat split; lia.
Qed.

(** One stride of the read loop, as it counts: the pages of the stride are
    marked and counted as failed when this block read or an earlier one
    failed. *)
Lemma read_card_stride_counts page bF f w :
  0 <= page < uiBlocks w -> uiBlocks w <= 2 ^ 32 - 4 ->
  0 <= f -> 0 <= uiReadPages w ->
  let m := Z.min 4 (uiBlocks w - page) in
  f + m < 2 ^ 32 -> uiReadPages w + m < 2 ^ 32 ->
  let bF' := if block_of (hd Nak (script w)) is Some _ then bF else true in
  let r := read_card_stride page bF f w in
  r.1 = (bF', f + (if bF' then m else 0))
  /\ uiReadPages r.2 = uiReadPages w + (if bF' then 0 else m)
  /\ journal r.2 = journal w ++ marks (if bF' then MkFail else MkOk) page m
  /\ script r.2 = tl (script w) /\ uiBlocks r.2 = uiBlocks w.
Proof.
  intros Hp Hn Hf Hr. cbv zeta. intros Hf4 Hr4. unfold read_card_stride.
  rewrite bind_run. cbn [gets fst snd]. rewrite bind_run.
  rewrite (wrap32_small (uiBlocks w - page)) by lia.
  set (k := Z.to_nat (if uiBlocks w - page <? 4 then uiBlocks w - page else 4)).
  assert (Hk : Z.of_nat k = Z.min 4 (uiBlocks w - page)).
  { subst k. destruct (uiBlocks w - page <? 4) eqn:E; lia. }
  destruct (block_of (hd Nak (script w))) as [rx|] eqn:Hb.
  - rewrite (mifare_read_ack page w rx Hb). cbn [fst snd].
    rewrite bind_run. cbn [modify fst snd]. rewrite bind_run.
    match goal with |- context [read_card_count k page bF f ?W] =>
      pose proof (read_card_count_run k page bF f W) as Hc; cbv zeta in Hc;
      destruct (read_card_count k page bF f W) as [f2 w2] end.
    cbn [ret fst snd] in Hc |- *. fields_in Hc.
    destruct Hc as (-> & -> & -> & -> & ->); [lia..|].
    rewrite Hk. done.
  - rewrite (mifare_read_fails page w Hb). cbn [fst snd].
    rewrite bind_run. cbn [ret fst snd]. rewrite bind_run.
    match goal with |- context [read_card_count k page true f ?W] =>
      pose proof (read_card_count_run k page true f W) as Hc; cbv zeta in Hc;
      destruct (read_card_count k page true f W) as [f2 w2] end.
    cbn [ret fst snd] in Hc |- *. fields_in Hc.
    destruct Hc as (-> & -> & -> & -> & ->); [lia..|].
    rewrite Hk. done.
Qed.

Lemma read_card_loop_counts fuel : forall page (bF : bool) f w,
  0 <= page -> page mod 4 = 0 -> uiBlocks w <= 2 ^ 32 - 4 ->
  uiBlocks w - page <= 4 * Z.of_nat fuel ->
  0 <= f -> 0 <= uiReadPages w ->
  let pages := Z.max 0 (uiBlocks w - page) in
  f + pages < 2 ^ 32 -> uiReadPages w + pages < 2 ^ 32 ->
  let good :=
    if bF then 0 else Z.min pages (4 * Z.of_nat (leading_blocks (script w))) in
  let r := read_card_loop fuel page bF f w in
  r.1 = (bF || (good <? pages), f + (pages - good))
  /\ uiReadPages r.2 = uiReadPages w + good
  /\ journal r.2
     = journal w ++ marks MkOk page good ++ marks MkFail (page + good) (pages - good).
Proof.
  induction fuel as [|fuel IH]; intros page bF f w Hp Hm Hn Hfuel Hf Hr;
    cbv zeta; intros Hfr Hrr.
  - cbn [read_card_loop ret fst snd].
    replace (Z.max 0 (uiBlocks w - page)) with 0 by lia.
    replace (Z.min 0 _) with 0 by lia.
    destruct bF; rewrite !marks_nil, app_nil_r by lia;
      cbn; repeat split; f_equal; lia.
  - cbn [read_card_loop]. rewrite bind_run. cbn [gets fst snd].
    destruct (page <? uiBlocks w) eqn:Hlt.
    2:{ apply Z.ltb_ge in Hlt. cbn [ret fst snd].
        replace (Z.max 0 (uiBlocks w - page)) with 0 by lia.
        replace (Z.min 0 _) with 0 by lia.
        destruct bF; rewrite !marks_nil, app_nil_r by lia;
          cbn; repeat split; f_equal; lia. }
    apply Z.ltb_lt in Hlt. rewrite bind_run.
    pose proof (read_card_stride_counts page bF f w ltac:(lia) Hn Hf Hr
                  ltac:(lia) ltac:(lia)) as Hs.
    cbv zeta in Hs.
    destruct (read_card_stride page bF f w) as [[bF1 f1] w1]. cbn [fst snd] in *.
    destruct Hs as ([= -> ->] & Hr1 & Hj1 & Hs1 & Hn1).
    rewrite (wrap32_small (page + 4)) by lia.
    set (m := Z.min 4 (uiBlocks w - page)) in *.
    set (pages := Z.max 0 (uiBlocks w - page)).
    set (bF' := if block_of (hd Nak (script w)) is Some _ then bF else true) in *.
    assert (Hpages' : Z.max 0 (uiBlocks w1 - (page + 4)) = pages - m)
      by (rewrite Hn1; subst pages m; lia).
    specialize (IH (page + 4) bF' (f + (if bF' then m else 0)) w1).
    cbv zeta in IH. rewrite Hpages', Hr1, Hj1, Hs1 in IH.
    destruct IH as (-> & -> & ->);
      [lia|Z.to_euclidean_division_equations; lia|lia|lia
      |destruct bF'; lia|destruct bF'; lia|destruct bF'; lia
      |destruct bF'; lia|].
    (* the pages counted as read from this stride on *)
    set (L := leading_blocks (script w)).
    set (L' := leading_blocks (tl (script w))).
    assert (Hgood :
      (if bF then 0 else Z.min pages (4 * Z.of_nat L))
      = (if bF' then 0 else m) + (if bF' then 0 else Z.min (pages - m) (4 * Z.of_nat L'))
      /\ (bF' = true -> (if bF then 0 else Z.min pages (4 * Z.of_nat L)) = 0)
      /\ (bF' = false -> bF = false)).
    { subst bF' L L'. destruct bF; [by destruct (block_of _)|].
      destruct (script w) as [|r0 rs]; [cbn; lia|].
      cbn [hd tl leading_blocks]. destruct (block_of r0); [|cbn; lia].
      rewrite Nat2Z.inj_succ. subst pages m. repeat split; lia. }
    destruct Hgood as (Hg & Hg1 & Hg2).
    destruct bF' eqn:HbF'.
    + rewrite (Hg1 eq_refl). rewrite !Z.sub_0_r, !Z.add_0_r.
      rewrite (marks_nil MkOk) by lia. rewrite (marks_nil MkOk) by lia.
      cbn [app]. rewrite <- app_assoc.
      replace (marks MkFail page pages) with (marks MkFail page (m + (pages - m)))
        by (f_equal; lia).
      rewrite (marks_app MkFail page m (pages - m)) by (subst pages m; lia).
      assert (Hshift : marks MkFail (page + 4) (pages - m)
                       = marks MkFail (page + m) (pages - m)).
      { destruct (decide (m = 4)) as [->|]; [done|].
        rewrite !marks_nil by (subst pages m; lia). done. }
      rewrite Hshift. cbn [orb].
      replace (0 <? pages) with true by (subst pages; lia).
      rewrite orb_true_r. split; [f_equal; lia|]. split; [lia|reflexivity].
    + rewrite (Hg2 eq_refl) in *. rewrite Hg. cbn [orb].
      set (g' := Z.min (pages - m) (4 * Z.of_nat L')).
      rewrite (marks_app MkOk page m g') by (subst pages m g'; lia).
      rewrite <- !app_assoc.
      assert (Hshift : marks MkOk (page + 4) g' = marks MkOk (page + m) g'
                       /\ marks MkFail (page + 4 + g') (pages - m - g')
                          = marks MkFail (page + (m + g')) (pages - (m + g'))).
      { destruct (decide (m = 4)) as [->|].
        - split; f_equal; lia.
        - rewrite !marks_nil by (subst pages m g'; lia). done. }
      destruct Hshift as [-> ->].
      replace (m + g' <? pages) with (g' <? pages - m) by lia.
      split; [f_equal; lia|]. split; [lia|reflexivity].
Qed.

Lemma copy_secrets_counts w0 :
  preserves (fun w => journal w = journal w0 /\ uiReadPages w = uiReadPages w0)
    copy_secrets.
Proof. pres_with ltac:(cbn; tauto). Qed.

(** X11.  read_card counts every page once, and a failed block read
    taints all that follows: with [good] the pages of the strides before
    the first block read that fails (all pages if none fails), it marks
    and counts the first [good] pages as read and every later page as
    failed, whatever the later block reads return; it reports these
    numbers, and it returns true exactly when no block read failed. *)
Theorem read_card_counts (w : world) :
  0 <= uiBlocks w <= 2 ^ 32 - 4 -> 0 <= uiReadPages w ->
  uiReadPages w + uiBlocks w < 2 ^ 32 ->
  let n := uiBlocks w in
  let good := Z.min n (4 * Z.of_nat (leading_blocks (script w))) in
  let r := read_card w in
  r.1 = (n <=? good)
  /\ uiReadPages r.2 = uiReadPages w + good
  /\ journal r.2 =
       journal w ++ marks MkOk 0 good ++ marks MkFail good (n - good)
       ++ [LogReadDone (uiReadPages w + good) n (n - good)].
Proof.
  intros Hn Hr Hrn. cbv zeta. unfold read_card.
  rewrite bind_run. cbn [gets fst snd]. rewrite bind_run.
  pose proof (read_card_loop_counts (S (Z.to_nat (uiBlocks w))) 0 false 0 w
                ltac:(done) ltac:(done) ltac:(lia) ltac:(lia) ltac:(done) Hr) as Hl.
  cbv zeta in Hl. rewrite Z.sub_0_r, Z.max_r in Hl by lia.
  destruct (read_card_loop _ 0 false 0 w) as [[bF f] w1]. cbn [fst snd] in *.
  destruct Hl as ([= -> ->] & Hr1 & Hj1); [lia..|].
  rewrite bind_run. cbn [gets fst snd]. rewrite bind_run.
  unfold LOG. cbn [modify fst snd]. rewrite bind_run.
  match goal with |- context [copy_secrets ?W] =>
    pose proof (copy_secrets_counts W W ltac:(done)) as Hc;
    destruct (copy_secrets W) as [u w2] end.
  cbn [ret fst snd] in *. destruct Hc as (-> & ->). fields.
  rewrite Hr1, Hj1, <- !app_assoc. cbn [orb].
  split; [|done].
  set (good := Z.min _ _).
  destruct (good <? uiBlocks w) eqn:E1, (uiBlocks w <=? good) eqn:E2; (done || lia).
Qed.

(** ** The secrets of an NTAG21x *)

(** X12.  For an NTAG213, NTAG215 or NTAG216, whose password and PACK
    fields lie at the start of their pages, read_card leaves the password
    in the last page but one of the tag (page 43, 133 or 229; the tags have
    45, 135 and 231 pages) and the PACK in the first two bytes of the last
    page, whatever the block reads returned for these pages. *)
Theorem read_card_ntag_secrets (w : world) (n : Z) :
  mbc21356d_pwd = 0%nat -> mbc21356e_pack = 0%nat ->
  iEV1Type w = EV1_NONE ->
  (iNTAGType w = NTAG_213 /\ n = 45) \/ (iNTAGType w = NTAG_215 /\ n = 135)
  \/ (iNTAGType w = NTAG_216 /\ n = 231) ->
  length (iPWD w) = 4%nat -> length (iPACK w) = 2%nat ->
  4 * n <= Z.of_nat (length (mtDump w)) ->
  let w' := (read_card w).2 in
  take 4 (drop (Z.to_nat (4 * (n - 2))) (mtDump w')) = iPWD w
  /\ take 2 (drop (Z.to_nat (4 * (n - 1))) (mtDump w')) = iPACK w.
Proof.
  intros Hpwd Hpack Hev Hty Hl1 Hl2 Hlen. cbv zeta.
  destruct (read_card_run w) as (w1 & -> & _ & Hp1 & Hp2 & Hev1 & Hnt1 & Hlen1).
  destruct (copy_secrets_run w1) as (-> & _ & _).
  unfold secrets_image. cbv zeta.
  rewrite Hev1, Hev, Hnt1, Hpwd, Hpack, Hp1, Hp2.
  change (EV1_NONE =? EV1_UL11) with false.
  change (EV1_NONE =? EV1_UL21) with false. cbv iota.
  unfold nt_.
  destruct Hty as [(-> & ->)|[(-> & ->)|(-> & ->)]]; cbn [Z.eqb Pos.eqb NTAG_213
    NTAG_215 NTAG_216]; cbv iota;
    (split; apply list_eq; intros j; rewrite lookup_take, lookup_drop;
     (case_decide as Hj; [|symmetry; apply lookup_ge_None_2; lia])).
  all: repeat (rewrite lookup_memcpy;
               let Hc := fresh in
               case_decide as Hc; rewrite ?length_memcpy in Hc).
  all: first [f_equal; lia | lia].
Qed.

(** ** What main prints *)

Lemma omap_slice : forall (l : list Z) (a s e : nat) (f : nat -> option Z),
  (forall i, f (a + i)%nat = if (s <=? i)%nat && (i <? e)%nat then l !! i else None) ->
  omap f (seq a (length l)) = take (e - s) (drop s l).
Proof.
  induction l as [|x l IH]; intros a s e f Hf.
  - by rewrite drop_nil, take_nil.
  - cbn [length seq omap list_omap].
    rewrite (IH (S a) (s - 1)%nat (e - 1)%nat f).
    2:{ intros i. replace (S a + i)%nat with (a + S i)%nat by lia.
        rewrite Hf. cbn [lookup list_lookup].
        replace (s - 1 <=? i)%nat with (s <=? S i)%nat
          by (destruct (s <=? S i)%nat eqn:E1, (s - 1 <=? i)%nat eqn:E2;
              first [done | apply Nat.leb_le in E1; apply Nat.leb_gt in E2; lia
                    | apply Nat.leb_gt in E1; apply Nat.leb_le in E2; lia]).
        replace (i <? e - 1)%nat with (S i <? e)%nat
          by (destruct (S i <? e)%nat eqn:E1, (i <? e - 1)%nat eqn:E2;
              first [done | apply Nat.ltb_lt in E1; apply Nat.ltb_ge in E2; lia
                    | apply Nat.ltb_ge in E1; apply Nat.ltb_lt in E2; lia]).
        done. }
    specialize (Hf 0%nat). rewrite Nat.add_0_r in Hf. rewrite Hf.
    destruct s as [|s], e as [|e]; cbn [Nat.leb Nat.ltb andb lookup list_lookup
                                        Nat.sub drop take];
      rewrite ?Nat.sub_0_r, ?take_0; done.
Qed.

(** The output of main_print. *)
Lemma main_print_stdout (start_byte stop_byte : Z) (w : world) :
  0 <= start_byte -> length (mtDump w) = sizeof_maxtag ->
  stdout (main_print start_byte stop_byte w).2 =
    stdout w
    ++ take (Z.to_nat (stop_byte - start_byte)) (drop (Z.to_nat start_byte) (mtDump w))
    ++ [10].
Proof.
  intros Hs Hlen. unfold main_print, modify. cbn [fst snd stdout set_stdout].
  rewrite <- Hlen. do 2 f_equal.
  rewrite (omap_slice (mtDump w) 0 (Z.to_nat start_byte) (Z.to_nat stop_byte)).
  - f_equal. lia.
  - intros i. cbn [Nat.add].
    replace (start_byte <=? Z.of_nat i) with (Z.to_nat start_byte <=? i)%nat
      by (destruct (start_byte <=? Z.of_nat i) eqn:E1,
                   (Z.to_nat start_byte <=? i)%nat eqn:E2;
          first [done | apply Z.leb_le in E1; apply Nat.leb_gt in E2; lia
                | apply Z.leb_gt in E1; apply Nat.leb_le in E2; lia]).
    replace (Z.of_nat i <? stop_byte) with (i <? Z.to_nat stop_byte)%nat
      by (destruct (Z.of_nat i <? stop_byte) eqn:E1,
                   (i <? Z.to_nat stop_byte)%nat eqn:E2;
          first [done | apply Z.ltb_lt in E1; apply Nat.ltb_ge in E2; lia
                | apply Z.ltb_ge in E1; apply Nat.ltb_lt in E2; lia]).
    done.
Qed.

(** X13.  main prints the bytes of the image from index start_byte up to,
    but not including, index stop_byte, cut off at the end of the image,
    and then a newline; it prints only the newline when stop_byte is not
    above start_byte. *)
Theorem main_print_slice (start_byte stop_byte : Z) (w : world) :
  0 <= start_byte -> length (mtDump w) = sizeof_maxtag ->
  stdout (main_print start_byte stop_byte w).2 =
    stdout w
    ++ take (Z.to_nat (stop_byte - start_byte)) (drop (Z.to_nat start_byte) (mtDump w))
    ++ [10].
Proof. exact (main_print_stdout start_byte stop_byte w). Qed.

(** ** The arguments of main *)

(** Where the numbers go: into start_byte, then into stop_byte, while
    these are still -1. *)
Fixpoint assign (start_byte stop_byte : Z) (vals : list Z) : option (Z * Z) :=
  match vals with
  | [] => Some (start_byte, stop_byte)
  | v :: vals' =>
      if start_byte =? -1 then assign v stop_byte vals'
      else if stop_byte =? -1 then assign start_byte v vals'
      else None
  end.

Lemma to_int_range (x : Z) : - 2 ^ 31 <= to_int x < 2 ^ 31.
Proof. unfold to_int. pose proof (Z.mod_pos_bound (x + 2 ^ 31) (2 ^ 32)). lia. Qed.

Lemma positive_numbers_int (argv : list string) :
  Forall (fun v => 0 < v < 2 ^ 31) (positive_numbers argv).
Proof.
  unfold positive_numbers. apply Forall_forall. intros v Hv.
  apply list_elem_of_In, filter_In in Hv as [Hv Hpos].
  apply in_map_iff in Hv as (arg & <- & _).
  pose proof (to_int_range (strtol_10 arg)). unfold atoi in *. lia.
Qed.

Lemma bytes_of_app (a b : string) : bytes_of (a +:+ b) = bytes_of a ++ bytes_of b.
Proof.
  unfold bytes_of. induction a as [|c a IH]; [done|].
  change (String c a +:+ b) with (String c (a +:+ b)).
  cbn [String.list_ascii_of_string fmap list_fmap app]. f_equal. exact IH.
Qed.

Lemma print_usage_run (argv : list string) (w : world) :
  print_usage argv w =
    (tt, set_stdout (stdout w ++ bytes_of (usage_text (hd EmptyString argv))) w).
Proof.
  unfold print_usage, printf, bind, modify, usage_text. cbn [fst snd]. fields.
  rewrite !bytes_of_app, <- !app_assoc. reflexivity.
Qed.

Lemma main_args_run (argv : list string) :
  forall (args : list string) (start_byte stop_byte : Z) (w : world),
  let r := main_args argv args start_byte stop_byte w in
  r.1 = (if existsb unknown_option args then None
         else assign start_byte stop_byte (positive_numbers args))
  /\ mtDump r.2 = mtDump w
  /\ (r.1 <> None ->
      logging r.2 = (if existsb is_option_d args then 1 else logging w)
      /\ wait_for_tag r.2 = (if existsb is_option_w args then 1 else wait_for_tag w)
      /\ stdout r.2 = stdout w)
  /\ (r.1 = None ->
      stdout r.2 = stdout w ++ bytes_of (usage_text (hd EmptyString argv))).
Proof.
  induction args as [|arg args IH]; intros s t w; cbv zeta; [done|].
  cbn [main_args existsb]. unfold positive_numbers, unknown_option, is_option_d,
    is_option_w, is_option in *.
  cbn [List.filter].
  destruct (char_at arg 0 =? 45) eqn:Hopt; cbn [negb andb orb fmap list_fmap].
  - destruct (char_at arg 1 =? 100) eqn:Hd; cbn [negb andb orb].
    + rewrite bind_run. cbn [modify fst snd].
      destruct (IH s t (set_logging 1 w)) as (-> & Hm & Hst & Hu).
      split; [done|]. split; [exact Hm|]. split; [|exact Hu].
      intros Hr. destruct (Hst Hr) as (-> & -> & ->). cbn.
      (split; [|split]); repeat case_match; done.
    + destruct (char_at arg 1 =? 119) eqn:Hw; cbn [negb andb orb].
      * rewrite bind_run. cbn [modify fst snd].
        destruct (IH s t (set_wait_for_tag 1 w)) as (-> & Hm & Hst & Hu).
        split; [done|]. split; [exact Hm|]. split; [|exact Hu].
        intros Hr. destruct (Hst Hr) as (-> & -> & ->). cbn.
        (split; [|split]); repeat case_match; done.
      * rewrite bind_run, print_usage_run. cbn [ret fst snd]. by fields.
  - cbn [List.filter]. destruct (0 <? atoi arg) eqn:Hpos; [|apply IH].
    cbn [assign].
    destruct (s =? -1); [apply IH|]. destruct (t =? -1); [apply IH|].
    rewrite bind_run, print_usage_run. cbn [ret fst snd]. fields.
    split; [by destruct (existsb _ args)|done].
Qed.

(** The argument loop from the start of main. *)
Lemma main_args_values (argv : list string) (w : world) :
  let r := main_args argv argv (-1) (-1) w in
  r.1 = (if existsb unknown_option argv then None
         else match positive_numbers argv with
              | [] => Some (-1, -1)
              | [a] => Some (a, -1)
              | [a; b] => Some (a, b)
              | _ => None
              end)
  /\ mtDump r.2 = mtDump w
  /\ (r.1 <> None ->
      logging r.2 = (if existsb is_option_d argv then 1 else logging w)
      /\ wait_for_tag r.2 = (if existsb is_option_w argv then 1 else wait_for_tag w)
      /\ stdout r.2 = stdout w)
  /\ (r.1 = None ->
      stdout r.2 = stdout w ++ bytes_of (usage_text (hd EmptyString argv))).
Proof.
  cbv zeta. destruct (main_args_run argv argv (-1) (-1) w) as (-> & Hrest).
  split; [|exact Hrest].
  destruct (existsb unknown_option argv); [done|].
  pose proof (positive_numbers_int argv) as Hpos.
  destruct (positive_numbers argv) as [|a [|b [|c vals]]]; [done| | |].
  - done.
  - apply Forall_cons in Hpos as [Ha _]. cbn.
    by replace (a =? -1) with false by lia.
  - apply Forall_cons in Hpos as [Ha Hpos]. apply Forall_cons in Hpos as [Hb _].
    cbn. replace (a =? -1) with false by lia.
    by replace (b =? -1) with false by lia.
Qed.

(** X14.  The argument loop of main, which starts at argv[0]: an option
    other than -d and -w ends the program, and so does a third positive
    number; the usage text, with argv[0] as the name of the program, is
    then what has been printed.  Otherwise nothing is printed, the first
    positive number among the arguments that are not options is start_byte
    and the second is stop_byte, each left at -1 when there is none,
    arguments that atoi does not read as a positive number are passed over,
    -d sets logging and -w sets wait_for_tag.  The numbers are those that
    atoi returns, ints: a numeral too large for an int counts with the
    value its low 32 bits have as an int, and not at all when that is not
    positive. *)
Theorem main_args_spec (argv : list string) (w : world) :
  let r := main_args argv argv (-1) (-1) w in
  Forall (fun v => 0 < v < 2 ^ 31) (positive_numbers argv)
  /\ r.1 = (if existsb unknown_option argv then None
            else match positive_numbers argv with
                 | [] => Some (-1, -1)
                 | [a] => Some (a, -1)
                 | [a; b] => Some (a, b)
                 | _ => None
                 end)
  /\ (r.1 <> None ->
      logging r.2 = (if existsb is_option_d argv then 1 else logging w)
      /\ wait_for_tag r.2 = (if existsb is_option_w argv then 1 else wait_for_tag w)
      /\ stdout r.2 = stdout w)
  /\ (r.1 = None ->
      stdout r.2 = stdout w ++ bytes_of (usage_text (hd EmptyString argv))).
Proof.
  cbv zeta. split; [apply positive_numbers_int|].
  destruct (main_args_values argv w) as (H1 & _ & H2). by split.
Qed.

(** ** Waiting for a tag *)

(** X15.  With wait_for_tag set (option -w), main keeps selecting until a
    tag answers: after [k] failed selections and one that succeeds it goes
    on with the tag selected and wait_for_tag cleared, having made these
    [k + 1] calls and no other. *)
Theorem main_select_waits (k fuel : nat) (rx : list Z) (rest : list reply)
    (w : world) :
  wait_for_tag w <> 0 -> script w = replicate k Nak ++ Ack rx :: rest ->
  (k < fuel)%nat ->
  let r := main_select fuel w in
  r.1 = Some true /\ nt r.2 = rx /\ wait_for_tag r.2 = 0 /\ script r.2 = rest
  /\ trace r.2 =
       trace w ++ replicate k (NfcSelectPassiveTarget, false)
       ++ [(NfcSelectPassiveTarget, true)].
Proof.
  revert fuel w. induction k as [|k IH]; intros fuel w Hw Hs Hfuel; cbv zeta;
    (destruct fuel as [|fuel]; [lia|]); cbn [main_select replicate app] in *.
  - rewrite bind_run, (select_ack w rx) by (by rewrite Hs).
    cbn [fst snd]. change (1 <=? 0) with false. cbv iota.
    unfold bind, modify, ret. fields. by rewrite Hs.
  - rewrite bind_run, (select_nak w) by (by rewrite Hs).
    cbn [fst snd]. change (0 <=? 0) with true. cbv iota.
    rewrite bind_run. cbn [gets fst snd]. fields.
    replace (wait_for_tag w =? 0) with false by lia.
    match goal with |- context [main_select fuel ?W] =>
      destruct (IH fuel W) as (-> & -> & -> & -> & ->) end;
      [done|by fields; rewrite Hs|lia|].
    fields. rewrite <- app_assoc. done.
Qed.

(** ** main as a whole *)

Definition only_reads (w : world) : Prop := Forall reads_only (trace w).

Ltac only_reads_leaf :=
  unfold only_reads in *; cbn;
  try (apply Forall_app; split; [assumption|]; repeat constructor; done);
  try assumption.

Lemma main_args_only_reads argv args : forall a b,
  preserves only_reads (main_args argv args a b).
Proof.
  induction args as [|arg args IH]; intros a b; cbn [main_args];
    pres_with only_reads_leaf.
Qed.

Lemma main_select_only_reads fuel : preserves only_reads (main_select fuel).
Proof.
  induction fuel as [|fuel IH]; cbn [main_select];
    unfold nfc_close, nfc_exit; pres_with only_reads_leaf.
Qed.

Lemma read_card_only_reads : preserves only_reads read_card.
Proof.
  unfold read_card.
  assert (forall fuel page bF f,
            preserves only_reads (read_card_loop fuel page bF f)) as Hl.
  { intros. apply read_card_loop_pres.
    repeat split; intros; only_reads_leaf. }
  pres_with only_reads_leaf.
Qed.

(** X16.  main only reads: whatever the arguments, the reader's replies
    and the input, it never writes a page and never sends a bit frame. *)
Theorem main_reads_only (fuel : nat) (argv : list string) (replies : list reply)
    (lines : list (option Z)) (junk_b0 : list Z) (junk_buf : Z) :
  Forall reads_only
    (trace (main fuel argv (initial_world replies lines junk_b0 junk_buf)).2).
Proof.
  assert (Hmain : preserves only_reads (main fuel argv)).
  { pose proof main_args_only_reads. pose proof main_select_only_reads.
    pose proof read_card_only_reads.
    unfold main, main_tag_type, main_login, main_print, list_passive_targets,
      nfc_call, nfc_close, nfc_exit.
    pres_with only_reads_leaf. }
  apply Hmain. constructor.
Qed.

(** The journal is as in [w0]. *)
Definition same_journal (w0 w : world) : Prop := journal w = journal w0.

Ltac same_journal_leaf := unfold same_journal in *; cbn; congruence.

Lemma main_args_same_journal w0 argv args : forall a b,
  preserves (same_journal w0) (main_args argv args a b).
Proof.
  induction args as [|arg args IH]; intros a b; cbn [main_args];
    pres_with same_journal_leaf.
Qed.

Lemma main_select_same_journal w0 fuel :
  preserves (same_journal w0) (main_select fuel).
Proof.
  induction fuel as [|fuel IH]; cbn [main_select];
    unfold nfc_close, nfc_exit; pres_with same_journal_leaf.
Qed.

(** The read loop only adds to the journal. *)
Definition journal_grows (w0 w : world) : Prop := journal w0 `prefix_of` journal w.

Ltac journal_grows_leaf :=
  unfold journal_grows in *; cbn; first [assumption | by apply prefix_app_r].

Lemma read_card_count_grows w0 n : forall page bF f,
  preserves (journal_grows w0) (read_card_count n page bF f).
Proof.
  induction n as [|n IH]; intros page bF f; cbn [read_card_count];
    pres_with journal_grows_leaf.
Qed.

Lemma read_card_loop_grows w0 fuel : forall page bF f,
  preserves (journal_grows w0) (read_card_loop fuel page bF f).
Proof.
  pose proof (read_card_count_grows w0).
  induction fuel as [|fuel IH]; intros page bF f; cbn [read_card_loop];
    pres_with journal_grows_leaf.
Qed.

(** read_card ends its report with the summary line. *)
Lemma read_card_reports w :
  exists l a b c, journal (read_card w).2 = journal w ++ l ++ [LogReadDone a b c].
Proof.
  unfold read_card. rewrite bind_run. cbn [gets fst snd]. rewrite bind_run.
  assert (Hl : forall fuel page bF f w1,
            exists l, journal (read_card_loop fuel page bF f w1).2 = journal w1 ++ l).
  { intros fuel page bF f w1.
    apply (read_card_loop_grows w1 fuel page bF f w1).
    unfold journal_grows. reflexivity. }
  destruct (Hl (S (Z.to_nat (uiBlocks w))) 0 false 0 w) as (l & Hj).
  destruct (read_card_loop _ 0 false 0 w) as [r w1]. cbn [fst snd] in *.
  rewrite bind_run. cbn [gets fst snd]. rewrite bind_run.
  unfold LOG. cbn [modify fst snd]. rewrite bind_run.
  match goal with |- context [copy_secrets ?W] =>
    pose proof (copy_secrets_counts W W ltac:(done)) as Hc;
    destruct (copy_secrets W) as [u w2] end.
  cbn [ret fst snd] in *. destruct Hc as (-> & _). fields.
  rewrite Hj, <- app_assoc. eauto.
Qed.

(** X17.  The exit status of main tells whether the tool got as far as
    reading, not whether anything was read: main exits with EXIT_SUCCESS
    exactly when read_card has run and logged its summary, whatever the
    numbers in it, and it has then closed the reader and released libnfc
    as its last two calls. *)
Theorem main_exit_status (fuel : nat) (argv : list string) (replies : list reply)
    (lines : list (option Z)) (junk_b0 : list Z) (junk_buf : Z) :
  let r := main fuel argv (initial_world replies lines junk_b0 junk_buf) in
  (r.1 = Some EXIT_SUCCESS <-> Exists is_read_done (journal r.2))
  /\ (r.1 = Some EXIT_SUCCESS ->
      exists evs, trace r.2 = evs ++ [(NfcClose, true); (NfcExit, true)]).
Proof.
  cbv zeta.
  set (w0 := initial_world replies lines junk_b0 junk_buf).
  assert (H0 : same_journal w0 w0) by done.
  revert H0. generalize w0 at 2 3 4 5 6 as w.
  change (ensures (same_journal w0) (main fuel argv)
            (fun r w =>
               (r = Some EXIT_SUCCESS <-> Exists is_read_done (journal w))
               /\ (r = Some EXIT_SUCCESS ->
                   exists evs, trace w = evs ++ [(NfcClose, true); (NfcExit, true)]))).
  assert (Hstop : forall (r : option exit_status) w,
            same_journal w0 w -> r <> Some EXIT_SUCCESS ->
            (r = Some EXIT_SUCCESS <-> Exists is_read_done (journal w))
            /\ (r = Some EXIT_SUCCESS ->
                exists evs, trace w = evs ++ [(NfcClose, true); (NfcExit, true)])).
  { intros r w Hw Hr. split; [|done]. split; [done|].
    rewrite Hw. subst w0. cbn. by intros ?%Exists_nil. }
  pose proof (main_args_same_journal w0).
  pose proof (main_select_same_journal w0).
  unfold main, list_passive_targets, nfc_call, nfc_close, nfc_exit.
  cbv zeta.
  repeat lazymatch goal with
  | |- ensures _ (bind (modify (set_mtDump _)) _) _ => fail
  | |- ensures _ (bind _ _) _ =>
      apply ensures_bind_pres;
      [unfold main_tag_type, main_login, nfc_close, nfc_exit;
       pres_with same_journal_leaf|intros ?]
  | |- ensures _ (ret _) _ => intros ? ?; by apply Hstop
  | |- ensures _ (if ?b then _ else _) _ => destruct b
  | |- ensures _ (match ?x with _ => _ end) _ => destruct x
  end.
  (* the path through read_card *)
  intros w Hw. rewrite bind_run. cbn [modify fst snd].
  set (w1 := set_mtDump _ w).
  rewrite bind_run.
  destruct (read_card_reports w1) as (l & n1 & n2 & n3 & Hj).
  destruct (read_card w1) as [rf w2]. cbn [fst snd] in *.
  unfold main_print, issued, bind, modify, ret. cbn [fst snd]. fields.
  split.
  - split; [intros _|done]. rewrite Hj.
    apply Exists_app. right. apply Exists_app. right. by constructor.
  - intros _. eexists. by rewrite <- app_assoc.
Qed.

(** ** The image of a plain Ultralight *)

(** X18.  For a plain Ultralight (no secrets to copy) the image after
    read_card holds, in the pages of every stride whose block read
    succeeded, the bytes that were read, up to the last page of the tag;
    every other byte of the image is as it was before (zero in main, which
    clears the image first). *)
Theorem read_card_image_plain (w : world) (i : nat) :
  iEV1Type w = EV1_NONE -> iNTAGType w = NTAG_NONE ->
  0 <= uiBlocks w <= 2 ^ 32 - 4 ->
  4 * uiBlocks w <= Z.of_nat (length (mtDump w)) ->
  mtDump (read_card w).2 !! i =
    if decide (Z.of_nat i < 4 * uiBlocks w) then
      match block_of (nth (i / 16) (script w) Nak) with
      | Some rx => rx !! (i mod 16)%nat
      | None => mtDump w !! i
      end
    else mtDump w !! i.
Proof.
  intros Hev Hnt Hn Hlen.
  destruct (read_card_run w) as (w1 & -> & Himg & _ & _ & Hev1 & Hnt1 & _).
  destruct (copy_secrets_run w1) as (-> & _ & _).
  unfold secrets_image. cbv zeta. rewrite Hev1, Hnt1, Hev, Hnt. cbn.
  rewrite Himg, read_card_loop_image by (first [done | lia]).
  rewrite Z.mul_0_r, Z.sub_0_r.
  replace (Z.to_nat (Z.of_nat i / 16)) with (i / 16)%nat
    by (rewrite <- (Nat2Z.id (i / 16)), Nat2Z.inj_div; done).
  replace (Z.to_nat (Z.of_nat i mod 16)) with (i mod 16)%nat
    by (rewrite <- (Nat2Z.id (i mod 16)), Nat2Z.inj_mod; done).
  repeat case_decide; first [done | lia].
Qed.

(** ** The password text, round trip *)

(** X19.  Round trip: ev1_load_pwd reads the text that main logs for a
    password back as that password. *)
Theorem ev1_load_pwd_print_pwd (target pwd : list Z) :
  length pwd = 4%nat -> Forall (fun b => 0 <= b < 256) pwd ->
  ev1_load_pwd target (print_pwd pwd) = (true, list_inserts 0 pwd target).
Proof.
  intros Hlen Hb.
  destruct pwd as [|b0 [|b1 [|b2 [|b3 [|]]]]]; try done.
  apply Forall_cons in Hb as [H0 Hb]. apply Forall_cons in Hb as [H1 Hb].
  apply Forall_cons in Hb as [H2 Hb]. apply Forall_cons in Hb as [H3 _].
  unfold print_pwd, printf_02x. cbn [lookup_total list_lookup_total].
  change (ev1_load_pwd target
            (String (hex_char (b0 / 16)) (String (hex_char (b0 mod 16))
            (String (hex_char (b1 / 16)) (String (hex_char (b1 mod 16))
            (String (hex_char (b2 / 16)) (String (hex_char (b2 mod 16))
            (String (hex_char (b3 / 16)) (String (hex_char (b3 mod 16))
               EmptyString))))))))
          = (true, list_inserts 0 [b0; b1; b2; b3] target)).
  unfold ev1_load_pwd. cbn [sscanf_2x].
  assert (Hn : forall b, 0 <= b < 256 ->
            hex_value (hex_char (b / 16)) = Some (b / 16)
            /\ hex_value (hex_char (b mod 16)) = Some (b mod 16)).
  { intros b Hb. split; apply hex_char_value; Z.to_euclidean_division_equations; lia. }
  rewrite (scan_2x_two _ _ _ _ _ (proj1 (Hn b0 H0)) (proj2 (Hn b0 H0))),
    (scan_2x_two _ _ _ _ _ (proj1 (Hn b1 H1)) (proj2 (Hn b1 H1))),
    (scan_2x_two _ _ _ _ _ (proj1 (Hn b2 H2)) (proj2 (Hn b2 H2))),
    (scan_2x_two _ _ _ _ _ (proj1 (Hn b3 H3)) (proj2 (Hn b3 H3))).
  cbn [length Nat.eqb negb fmap list_fmap].
  rewrite !wrap8_byte by (Z.to_euclidean_division_equations; lia).
  assert (Hb : forall b, 16 * (b / 16) + b mod 16 = b)
    by (intros; Z.to_euclidean_division_equations; lia).
  by rewrite !Hb.
Qed.

(** ** From the arguments to the output *)

(** Nothing has been printed and the image has its full size. *)
Definition before_print (w : world) : Prop :=
  stdout w = [] /\ length (mtDump w) = sizeof_maxtag.

Ltac before_print_leaf :=
  unfold before_print in *; cbn; rewrite ?length_memcpy; tauto.

Lemma main_select_before_print fuel : preserves before_print (main_select fuel).
Proof.
  induction fuel as [|fuel IH]; cbn [main_select];
    unfold nfc_close, nfc_exit; pres_with before_print_leaf.
Qed.

Lemma read_card_before_print : preserves before_print read_card.
Proof.
  unfold read_card.
  assert (forall fuel page bF f,
            preserves before_print (read_card_loop fuel page bF f)) as Hl.
  { intros. apply read_card_loop_pres.
    repeat split; intros; before_print_leaf. }
  pres_with before_print_leaf.
Qed.

(** X20.  From the arguments to the output: when main exits with
    EXIT_SUCCESS, what it has printed is the bytes of the image, as
    read_card left it, from index start up to but not including index
    stop, and a newline, where start and stop are the first two positive
    numbers among the arguments, as atoi reads them into an int, and 28 and
    45 where these are missing. *)
Theorem main_prints_range (fuel : nat) (argv : list string) (replies : list reply)
    (lines : list (option Z)) (junk_b0 : list Z) (junk_buf : Z) :
  let r := main fuel argv (initial_world replies lines junk_b0 junk_buf) in
  let range := byte_range argv in
  r.1 = Some EXIT_SUCCESS ->
  stdout r.2 =
    take (Z.to_nat (range.2 - range.1)) (drop (Z.to_nat range.1) (mtDump r.2))
    ++ [10].
Proof.
  cbv zeta.
  set (w0 := initial_world replies lines junk_b0 junk_buf).
  assert (H0 : before_print w0) by (split; [done|apply length_replicate]).
  unfold main. cbv zeta. rewrite bind_run.
  destruct (main_args_values argv w0) as (Hargs & Hm & Hst & _).
  destruct (main_args argv argv (-1) (-1) w0) as [a w1]. cbn [fst snd] in *.
  destruct a as [[s t]|]; [|by intros [=]].
  assert (H1 : before_print w1).
  { destruct (Hst ltac:(done)) as (_ & _ & Hout).
    split; [by rewrite Hout|rewrite Hm; apply H0]. }
  clear Hm Hst.
  assert (Hrange : (if s <? 0 then 28 else s) = (byte_range argv).1
                   /\ (if t <? 0 then 45 else t) = (byte_range argv).2
                   /\ 0 <= (byte_range argv).1).
  { unfold byte_range.
    pose proof (positive_numbers_int argv) as Hpos.
    destruct (existsb unknown_option argv); [done|].
    destruct (positive_numbers argv) as [|a [|b [|c vals]]]; [| | |done];
      injection Hargs as -> ->; [done| |].
    - apply Forall_cons in Hpos as [Ha _]. cbn.
      replace (a <? 0) with false by lia. repeat split; lia.
    - apply Forall_cons in Hpos as [Ha Hpos]. apply Forall_cons in Hpos as [Hb _].
      cbn. replace (a <? 0) with false by lia.
      replace (b <? 0) with false by lia. repeat split; lia. }
  destruct Hrange as (-> & -> & Hstart). clear Hargs H0.
  revert H1. generalize w1 as w. clear w1.
  set (start := (byte_range argv).1) in *. set (stop := (byte_range argv).2).
  match goal with |- forall w, _ -> (?m w).1 = _ -> _ =>
    change (ensures before_print m
              (fun r w => r = Some EXIT_SUCCESS ->
                 stdout w = take (Z.to_nat (stop - start))
                              (drop (Z.to_nat start) (mtDump w)) ++ [10])) end.
  pose proof main_select_before_print.
  unfold list_passive_targets, nfc_call, nfc_close, nfc_exit.
  repeat lazymatch goal with
  | |- ensures _ (bind (modify (set_mtDump _)) _) _ => fail
  | |- ensures _ (bind _ _) _ =>
      apply ensures_bind_pres;
      [unfold main_tag_type, main_login, nfc_close, nfc_exit;
       pres_with before_print_leaf|intros ?]
  | |- ensures _ (ret _) _ => by intros ? ? ?
  | |- ensures _ (if ?b then _ else _) _ => destruct b
  | |- ensures _ (match ?x with _ => _ end) _ => destruct x
  end.
  (* the path through read_card *)
  intros w Hw _. rewrite bind_run. cbn [modify fst snd].
  set (w1 := set_mtDump _ w).
  assert (Hw1 : before_print w1).
  { destruct Hw as [Hout _]. split; [exact Hout|]. subst w1. cbn.
    apply length_replicate. }
  rewrite bind_run.
  pose proof (read_card_before_print w1 Hw1) as [Hout Hlen].
  destruct (read_card w1) as [rf w2]. cbn [fst snd] in *.
  rewrite bind_run.
  pose proof (main_print_stdout start stop w2 Hstart Hlen) as Hp.
  assert (Hd : mtDump (main_print start stop w2).2 = mtDump w2) by done.
  destruct (main_print start stop w2) as [u w3]. cbn [fst snd] in *.
  unfold issued, bind, modify, ret. cbn [fst snd]. fields.
  by rewrite Hp, Hout, Hd.
Qed.

(** ** Raw mode entered by half *)

(** X21.  When the reader accepts the first property change of
    raw_mode_start and refuses the second, get_ev1_version gives up at
    once: it returns false after these two calls, without sending the
    version query and without calling raw_mode_end, so that CRC handling
    stays off and framing stays as it was. *)
Theorem get_ev1_version_half_raw (w : world) (a : list Z) (rest : list reply) :
  script w = Ack a :: Nak :: rest ->
  let res := get_ev1_version w in
  res.1 = false /\ handle_crc res.2 = false
  /\ easy_framing res.2 = easy_framing w /\ script res.2 = rest
  /\ trace res.2 =
       trace w ++ [(NfcSetProperty NP_HANDLE_CRC false, true);
                   (NfcSetProperty NP_EASY_FRAMING false, false)].
Proof.
  intros Hs. cbv zeta. unfold get_ev1_version, raw_mode_start.
  step (set_property_ack NP_HANDLE_CRC false w) Hs.
  change (0 <? 0) with false. cbv iota.
  step (set_property_nak NP_EASY_FRAMING false) Hs.
  change (-1 <? 0) with true. cbv iota. cbn [ret negb fst snd]. fields.
  rewrite Hs, <- app_assoc. done.
Qed.

(** ** The dynamic lock page *)

(** X22.  The page that write_card protects as the dynamic lock page of a
    tag type is a page of the tag as main has sized it: whenever the type
    test of main succeeds from the initial type, the dynamic lock page of
    the type it has set, if the type has one, is the fifth page from the
    end (36 of 41, 40 of 45, 130 of 135, 226 of 231). *)
Theorem dyn_lock_page_in_tag (w : world) (page : Z) :
  uiBlocks w = 0x10 -> iEV1Type w = EV1_NONE -> iNTAGType w = NTAG_NONE ->
  let r := main_tag_type w in
  r.1 = true ->
  is_dyn_lock_page (iEV1Type r.2) (iNTAGType r.2) page = true ->
  page = uiBlocks r.2 - 5.
Proof.
  intros Hn Hev Hnt. cbv zeta.
  pose proof (get_ev1_version_same_type w w) as Hp.
  unfold main_tag_type. rewrite bind_run.
  destruct (get_ev1_version w) as [ok w1]. cbn [fst snd] in *.
  destruct Hp as (Hn1 & Hev1 & Hnt1); [done|].
  rewrite Hev in Hev1. rewrite Hnt in Hnt1.
  destruct ok.
  - unfold bind, gets, modify, ret. cbn.
    set (b := abtRx w1 !!! 6%nat).
    destruct ((b =? 11) || (b =? 0)) eqn:E1;
      [|destruct (b =? 14) eqn:E2;
        [|destruct (b =? 15) eqn:E3;
          [|destruct (b =? 17) eqn:E4; [|destruct (b =? 19) eqn:E5]]]];
      cbn; rewrite ?Hev1, ?Hnt1; unfold is_dyn_lock_page; cbn; intros _ Hd;
      try done; rewrite ?orb_false_r in Hd; lia.
  - pose proof (select_same_type w w1) as Hs.
    rewrite bind_run.
    destruct (nfc_initiator_select_passive_target w1) as [r w2].
    cbn [fst snd] in *.
    destruct Hs as (Hn2 & Hev2 & Hnt2); [unfold same_type; repeat split; congruence|].
    case_match.
    + unfold nfc_close, nfc_exit, issued, bind, modify, ret; cbn. done.
    + cbn. rewrite Hev2, Hnt2, Hev, Hnt. unfold is_dyn_lock_page. cbn. done.
Qed.

(** ** Leaving main *)

Lemma ensures_bind {A B} P (m : M A) (k : A -> M B) (R : A -> world -> Prop) Q :
  ensures P m R -> (forall a, ensures (R a) (k a) Q) -> ensures P (bind m k) Q.
Proof. intros Hm Hk w Hw. rewrite bind_run. apply Hk, Hm, Hw. Qed.

Lemma ensures_any {A} P (m : M A) : ensures P m (fun _ _ => True).
Proof. done. Qed.

(** The reader has not been opened. *)
Definition not_opened (w : world) : Prop := ~ In (NfcOpen, true) (trace w).

Lemma main_args_not_opened argv args : forall a b,
  preserves not_opened (main_args argv args a b).
Proof.
  induction args as [|arg args IH]; intros a b; cbn [main_args];
    pres_with ltac:(unfold not_opened in *; cbn; assumption).
Qed.

(** The selection loop closes the reader when it gives up. *)
Lemma main_select_closes fuel :
  ensures (fun _ => True) (main_select fuel)
    (fun r w => r = Some false -> closed_last (trace w)).
Proof.
  induction fuel as [|fuel IH]; intros w _; cbn [main_select]; [done|].
  rewrite bind_run.
  destruct (nfc_initiator_select_passive_target w) as [r w1]. cbn [fst snd].
  destruct (r <=? 0); [|done].
  rewrite bind_run. cbn [gets fst snd].
  destruct (wait_for_tag w1 =? 0); [|by apply IH].
  intros _. unfold nfc_close, nfc_exit, issued, bind, modify, ret. cbn.
  eexists. by rewrite <- app_assoc.
Qed.

(** The type test ends the program with the reader closed, except for a
    version byte it does not know: then the last call was the one that
    ended raw mode. *)
Lemma main_tag_type_closes :
  ensures (fun _ => True) main_tag_type
    (fun r w =>
       r = false ->
       closed_last (trace w)
       \/ ((exists pre,
              trace w = pre ++ [(NfcSetProperty NP_EASY_FRAMING true, true)])
           /\ ~ In (abtRx w !!! 6%nat) known_version_bytes)).
Proof.
  intros w _. unfold main_tag_type. rewrite bind_run.
  assert (Hev : let r := get_ev1_version w in
            r.1 = true ->
            exists pre, trace r.2 = pre ++ [(NfcSetProperty NP_EASY_FRAMING true, true)]).
  { cbv zeta. unfold get_ev1_version. rewrite bind_run.
    destruct (raw_mode_start w) as [ok w1]. cbn [fst snd].
    destruct ok; cbn [negb ret fst snd]; [|done].
    rewrite bind_run. cbn [modify fst snd]. rewrite bind_run. cbn [gets fst snd].
    rewrite bind_run.
    destruct (transmit_bytes _ 3 _) as [ok w2]. cbn [fst snd].
    destruct ok; cbn [negb]; [|by rewrite bind_run].
    rewrite bind_run.
    destruct (raw_mode_run true raw_mode_end w2 eq_refl) as (_ & Hr).
    destruct (raw_mode_end w2) as [ok w3]. cbn [fst snd] in *.
    destruct Hr as [(-> & Ht)|[(-> & Ht)|(-> & Ht)]]; cbn [negb ret fst snd];
      [done..|].
    rewrite bind_run. cbn [gets fst snd].
    destruct (szRx w3 =? 0); cbn [ret fst snd]; [done|].
    intros _. exists (trace w2 ++ [(NfcSetProperty NP_HANDLE_CRC true, true)]).
    by rewrite Ht, <- app_assoc. }
  cbv zeta in Hev.
  destruct (get_ev1_version w) as [ok w1]. cbn [fst snd] in *.
  destruct ok.
  - rewrite bind_run. cbn [gets fst snd].
    destruct (Hev eq_refl) as (pre & Ht).
    set (b := abtRx w1 !!! 6%nat).
    destruct (b =? 11) eqn:E1; [done|].
    destruct (b =? 0) eqn:E2; [done|]. cbn [orb].
    destruct (b =? 14) eqn:E3; [done|].
    destruct (b =? 15) eqn:E4; [done|].
    destruct (b =? 17) eqn:E5; [done|].
    destruct (b =? 19) eqn:E6; [done|].
    intros _. right. split; [by exists pre|].
    apply Z.eqb_neq in E1, E2, E3, E4, E5, E6.
    unfold known_version_bytes. cbn [In ret snd]. fold b. lia.
  - rewrite bind_run.
    destruct (nfc_initiator_select_passive_target w1) as [r w2]. cbn [fst snd].
    destruct (r <=? 0); [|done].
    intros _. left. unfold nfc_close, nfc_exit, issued, bind, modify, ret. cbn.
    eexists. by rewrite <- app_assoc.
Qed.

(** X23.  Once the reader is open, main closes it (nfc_close, then
    nfc_exit) as its last two calls before every exit, except one: on a
    version byte it does not know it exits with EXIT_FAILURE straight after
    the version probe, with the reader still open. *)
Theorem main_closes_reader (fuel : nat) (argv : list string) (replies : list reply)
    (lines : list (option Z)) (junk_b0 : list Z) (junk_buf : Z) (s : exit_status) :
  let r := main fuel argv (initial_world replies lines junk_b0 junk_buf) in
  r.1 = Some s -> In (NfcOpen, true) (trace r.2) ->
  closed_last (trace r.2)
  \/ (s = EXIT_FAILURE
      /\ (exists pre,
            trace r.2 = pre ++ [(NfcSetProperty NP_EASY_FRAMING true, true)])
      /\ ~ In (abtRx r.2 !!! 6%nat) known_version_bytes).
Proof.
  cbv zeta.
  set (w0 := initial_world replies lines junk_b0 junk_buf).
  assert (H0 : not_opened w0) by (by intros []).
  revert H0. generalize w0 as w. clear w0.
  set (Q := fun (r : option exit_status) (w : world) =>
              r = Some s -> In (NfcOpen, true) (trace w) ->
              closed_last (trace w)
              \/ (s = EXIT_FAILURE
                  /\ (exists pre,
                        trace w = pre ++ [(NfcSetProperty NP_EASY_FRAMING true, true)])
                  /\ ~ In (abtRx w !!! 6%nat) known_version_bytes)).
  change (ensures not_opened (main fuel argv) Q).
  assert (Hclosing : forall (P : world -> Prop) (x : option exit_status),
            ensures P (nfc_close ;;; nfc_exit ;;; ret x) Q).
  { intros P x w _ _ _. left.
    unfold nfc_close, nfc_exit, issued, bind, modify, ret. cbn.
    eexists. by rewrite <- app_assoc. }
  unfold main. cbv zeta.
  (* before the reader is opened *)
  apply ensures_bind_pres; [apply main_args_not_opened|intros a].
  destruct a as [[start_byte stop_byte]|]; [|by intros w Hw _ Hin].
  apply ensures_bind_pres;
    [unfold nfc_call; pres_with ltac:(unfold not_opened in *; cbn;
       rewrite ?in_app_iff; cbn; intuition congruence)|intros ok].
  destruct ok; cbn [negb]; [|by intros w Hw _ Hin].
  apply (ensures_bind _ _ _ (fun ok w => ok = false -> not_opened w)).
  { intros w Hw. unfold nfc_call, take_reply, issued, bind, modify, ret.
    destruct (hd Nak (script w)); cbn; [|done].
    intros _. unfold not_opened in *. cbn. rewrite in_app_iff. cbn.
    intuition congruence. }
  intros ok. destruct ok; cbn [negb].
  2:{ intros w Hw _ Hin. exfalso. revert Hin.
      unfold nfc_exit, issued, bind, modify, ret. cbn.
      rewrite in_app_iff. cbn. specialize (Hw eq_refl). unfold not_opened in Hw.
      intuition congruence. }
  (* the reader is open *)
  apply (ensures_bind _ _ _ (fun _ _ => True)); [done|intros r].
  destruct (negb (r =? 0)); [apply Hclosing|].
  apply (ensures_bind _ _ _ (fun _ _ => True)); [done|intros ok1].
  destruct (negb ok1); [apply Hclosing|].
  apply (ensures_bind _ _ _ (fun _ _ => True)); [done|intros r1].
  destruct (r1 <? 0); [apply Hclosing|].
  apply (ensures_bind _ _ _ _ _ (main_select_closes fuel)). intros sel.
  destruct sel as [[|]|]; [|by intros w Hw _ _; left; apply Hw|by intros w _ [=]].
  apply (ensures_bind _ _ _ (fun _ _ => True)); [done|intros atqa1].
  destruct (negb (atqa1 =? 0x44)); [apply Hclosing|].
  apply (ensures_bind _ _ _
           (fun r w =>
              r = false ->
              closed_last (trace w)
              \/ ((exists pre,
                     trace w = pre ++ [(NfcSetProperty NP_EASY_FRAMING true, true)])
                  /\ ~ In (abtRx w !!! 6%nat) known_version_bytes))).
  { intros w _. by apply main_tag_type_closes. }
  intros ok. destruct ok; cbn [negb].
  2:{ intros w Hw [= <-] _. destruct (Hw eq_refl) as [Hc|[Ht Hb]]; [by left|].
      right. done. }
  apply (ensures_bind _ _ _ (fun ok _ => ok = true)); [done|intros ok].
  destruct ok; cbn [negb]; [|by intros w [=]].
  apply (ensures_bind _ _ _ (fun _ _ => True)); [done|intros _].
  apply (ensures_bind _ _ _ (fun _ _ => True)); [done|intros _].
  apply (ensures_bind _ _ _ (fun _ _ => True)); [done|intros _].
  apply Hclosing.
Qed.

End Verification.

(** ** Runs on concrete inputs *)

Lemma main_tag_type_classify_witness :
  (uiBlocks ntag213_probe = 0x10 /\ iEV1Type ntag213_probe = EV1_NONE
   /\ iNTAGType ntag213_probe = NTAG_NONE)
  /\ (@main_tag_type libnfc ntag213_probe).1 = true
  /\ variant_of (@main_tag_type libnfc ntag213_probe).2 = Some NTAG213
  /\ uiBlocks (@main_tag_type libnfc ntag213_probe).2 = 45.
Proof.
  split; [repeat split|].
  pose proof (@main_tag_type_classify libnfc ntag213_probe eq_refl eq_refl eq_refl) as H.
  vm_compute in H. vm_compute. tauto.
Defined.

(** C4 (the code at three failing transmissions).  Entering raw mode
    succeeds and the frame is not transmitted: ev1_pwd_auth and unlock_card
    return with CRC handling and framing still off and without the two
    calls of raw_mode_end in the trace; get_ev1_version switches both back
    on. *)
Theorem raw_mode_left_on_after_failed_transceive :
  let auth := @ev1_pwd_auth libnfc [0; 0; 0; 0]
                (@initial_world libnfc [Ack []; Ack []; Nak] [] [] 0) in
  let unlock := @unlock_card libnfc
                  (@initial_world libnfc [Ack []; Ack []; Ack []; Nak] [] [] 0) in
  let probe := @get_ev1_version libnfc
                 (@initial_world libnfc [Ack []; Ack []; Nak; Ack []; Ack []] [] [] 0) in
  (auth.1 = false /\ handle_crc auth.2 = false /\ easy_framing auth.2 = false
   /\ trace auth.2 =
        [(NfcSetProperty NP_HANDLE_CRC false, true);
         (NfcSetProperty NP_EASY_FRAMING false, true);
         (NfcTransceiveBytes [0x1B; 0; 0; 0; 0; 0xFA; 0xF3], false)])
  /\ (unlock.1 = false /\ handle_crc unlock.2 = false
      /\ easy_framing unlock.2 = false
      /\ trace unlock.2 =
           [(NfcSetProperty NP_HANDLE_CRC false, true);
            (NfcSetProperty NP_EASY_FRAMING false, true);
            (NfcTransceiveBytes [0x50; 0; 0x57; 0xCD], true);
            (NfcTransceiveBits [0x40] 7, false)])
  /\ (probe.1 = false /\ handle_crc probe.2 = true /\ easy_framing probe.2 = true
      /\ trace probe.2 =
           [(NfcSetProperty NP_HANDLE_CRC false, true);
            (NfcSetProperty NP_EASY_FRAMING false, true);
            (NfcTransceiveBytes [0x60; 0xF8; 0x32], false);
            (NfcSetProperty NP_HANDLE_CRC true, true);
            (NfcSetProperty NP_EASY_FRAMING true, true)]).
Proof. vm_compute. repeat split. Qed.

(** C3 (the code at a failing first stride).  The tool runs to the end on
    a 16-page tag; the block read of pages 0-3 fails and those of pages
    4-15 succeed and are copied into the image, yet all 16 pages are marked
    and counted as failed and none as read. *)
Theorem read_card_counts_later_strides_as_failed :
  let r := @main libnfc 1 ["nfc-ctc"] first_stride_fails in
  r.1 = Some EXIT_SUCCESS
  /\ List.filter is_mifare_cmd (trace r.2) =
       [(NfcMifareCmd MC_READ 0 [], false); (NfcMifareCmd MC_READ 4 [], true);
        (NfcMifareCmd MC_READ 8 [], true); (NfcMifareCmd MC_READ 12 [], true)]
  /\ take 64 (mtDump r.2) =
       replicate 16 0 ++ replicate 16 0x41 ++ replicate 16 0x42 ++ replicate 16 0x43
  /\ uiReadPages r.2 = 0
  /\ journal r.2 =
       ((fun p => LogMark p MkFail) <$> seqZ 0 16) ++ [LogReadDone 0 16 16].
Proof. vm_compute. repeat split. Qed.

Lemma read_card_stride_size_witness :
  let img := mtDump (read_card_loop 42 0 false 0 ul21_last_stride).2 in
  take 4 (drop 160 img) = [11; 11; 11; 11]
  /\ take 12 (drop 164 img) = replicate 12 0.
Proof.
  apply (read_card_stride_size ul21_last_stride 40 (replicate 16 11));
    vm_compute; try done; intros; done.
Defined.

Lemma read_card_ul11_secrets_witness :
  let img := mtDump (@read_card libnfc ul11_with_secrets).2 in
  take 4 (drop (4 * 18) img) = [0xAA; 0xBB; 0xCC; 0xDD]
  /\ take 2 (drop (4 * 19) img) = [0xEE; 0xFF].
Proof.
  pose proof (@read_card_ul11_secrets libnfc ul11_with_secrets eq_refl eq_refl
                eq_refl eq_refl eq_refl eq_refl) as H.
  cbv zeta in H |- *. split; apply H; vm_compute; lia.
Defined.

(** C8 as stated fails: after a fully successful read of an MF0UL11 with
    password AA BB CC DD and PACK EE FF, page 4 and the first two bytes of
    page 5 hold what the tag returned for them (here 02), not the secrets;
    the secrets are in pages 18 and 19. *)
Lemma read_card_ul11_page4_not_password :
  let r := @read_card libnfc ul11_with_secrets in
  r.1 = true
  /\ take 4 (drop (4 * 4) (mtDump r.2)) = [2; 2; 2; 2]
  /\ take 2 (drop (4 * 5) (mtDump r.2)) = [2; 2]
  /\ take 4 (drop (4 * 18) (mtDump r.2)) = [0xAA; 0xBB; 0xCC; 0xDD]
  /\ take 2 (drop (4 * 19) (mtDump r.2)) = [0xEE; 0xFF].
Proof. vm_compute. repeat split. Qed.

Lemma ev1_load_pwd_hex_witness :
  ev1_load_pwd [0; 0; 0; 0] "1a2B3c4D" = (true, [0x1a; 0x2b; 0x3c; 0x4d])
  /\ ev1_load_pwd [0; 0; 0; 0] "1a2b3c" = (false, [0; 0; 0; 0])
  /\ ev1_load_pwd [0; 0; 0; 0] "zzzzzzzz" = (false, [0; 0; 0; 0])
  /\ ev1_load_pwd [0; 0; 0; 0] "1a2b3cXY" = (false, [0; 0; 0; 0])
  /\ ev1_load_pwd [0; 0; 0; 0] " 1-2 3 +4" = (true, [1; 0xfe; 3; 4]).
Proof.
  destruct (ev1_load_pwd_hex [0; 0; 0; 0]) as (Hhex & Hyes & Hno & _).
  split; [|split; [|split; [|split]]].
  - apply (Hhex "1"%char "a"%char "2"%char "B"%char "3"%char "c"%char "4"%char
             "D"%char 1 10 2 11 3 12 4 13 ""%string);
      reflexivity.
  - apply (Hno "1a2b3c"%string [16 * 1 + 10; 16 * 2 + 11; 16 * 3 + 12] ""%string); [cbn; lia| |constructor].
    repeat (eapply hex_fields_cons; [by apply hex_field_two|]). constructor.
  - apply (Hno "zzzzzzzz"%string [] "zzzzzzzz"%string); [cbn; lia|constructor|].
    by apply no_hex_field_char.
  - apply (Hno "1a2b3cXY"%string [16 * 1 + 10; 16 * 2 + 11; 16 * 3 + 12] "XY"%string); [cbn; lia| |].
    + repeat (eapply hex_fields_cons; [by apply hex_field_two|]). constructor.
    + by apply no_hex_field_char.
  - apply (Hyes " 1-2 3 +4"%string [1; wrap32 (Z.opp 2); 3; 4] ""%string); [done|].
    eapply hex_fields_cons.
    { apply hex_field_space; [done|]. apply hex_field_one; [done|].
      by intros c2 rest' [= <- <-]. }
    eapply hex_fields_cons; [by apply hex_field_minus|].
    eapply hex_fields_cons.
    { apply hex_field_space; [done|]. apply hex_field_one; [done|].
      by intros c2 rest' [= <- <-]. }
    eapply hex_fields_cons.
    { apply hex_field_space; [done|]. by apply hex_field_plus. }
    constructor.
Defined.

(** C7 as stated fails: ev1_load_pwd also accepts text that is not four
    groups of two hexadecimal digits: seven digits (the last group has one
    digit), ten digits (what follows the fourth group is ignored), and
    digits separated by white space. *)
Lemma ev1_load_pwd_accepts_other_text :
  (four_hex_groups "1a2b3c4" = false
   /\ ev1_load_pwd [0; 0; 0; 0] "1a2b3c4" = (true, [0x1a; 0x2b; 0x3c; 0x04]))
  /\ (four_hex_groups "1a2b3c4d5e" = false
      /\ ev1_load_pwd [0; 0; 0; 0] "1a2b3c4d5e" = (true, [0x1a; 0x2b; 0x3c; 0x4d]))
  /\ (four_hex_groups " 1 2 3 4" = false
      /\ ev1_load_pwd [0; 0; 0; 0] " 1 2 3 4" = (true, [1; 2; 3; 4])).
Proof. vm_compute. repeat split. Qed.

(** C5 (the code at a failed block read).  The block read of the probe
    fails, and check_magic still sends the three page writes of the probe,
    to pages 0, 1 and 2, with the indeterminate bytes of its local buffer;
    only then does it run the backdoor sequence. *)
Theorem check_magic_writes_after_failed_read :
  let r := @check_magic libnfc unreadable_tag in
  r.1 = true
  /\ trace r.2 =
       [(NfcMifareCmd MC_READ 0 [], false);
        (NfcMifareCmd MC_WRITE 0
           [0xDE; 0xAD; 0xBE; 0xEF; 0; 0; 0; 0; 0; 0; 0; 0; 0; 0; 0; 0], true);
        (NfcMifareCmd MC_WRITE 1
           [0x01; 0x02; 0x03; 0x04; 0; 0; 0; 0; 0; 0; 0; 0; 0; 0; 0; 0], true);
        (NfcMifareCmd MC_WRITE 2
           [0x05; 0x06; 0x07; 0x08; 0; 0; 0; 0; 0; 0; 0; 0; 0; 0; 0; 0], true);
        (NfcSetProperty NP_HANDLE_CRC false, true);
        (NfcSetProperty NP_EASY_FRAMING false, true);
        (NfcTransceiveBytes [0x50; 0; 0x57; 0xCD], false);
        (NfcTransceiveBits [0x40] 7, true);
        (NfcTransceiveBytes [0x43], true);
        (NfcSetProperty NP_HANDLE_CRC true, true);
        (NfcSetProperty NP_EASY_FRAMING true, true)].
Proof. vm_compute. repeat split. Qed.

Lemma write_card_accounts_every_page_witness :
  let r := @write_card libnfc false true true false ntag213_write in
  (2 <= uiBlocks ntag213_write < 2 ^ 32 /\ r.1 = true)
  /\ last (journal r.2) = Some (LogWriteDone 42 45 3 0)
  /\ exists marks c,
       journal r.2 =
         journal ntag213_write ++ marks
         ++ [LogWriteDone (uiWrittenPages c) (uiBlocks ntag213_write)
               (uiSkippedPages c) (uiFailedPages c)]
       /\ omap mark_page marks = seqZ 0 (uiBlocks ntag213_write)
       /\ uiWrittenPages c + uiSkippedPages c + uiFailedPages c
          = uiBlocks ntag213_write.
Proof.
  cbv zeta. split; [split; [cbn; lia|by vm_compute]|].
  split; [by vm_compute|].
  apply (@write_card_accounts_every_page libnfc false true true false
           ntag213_write); [cbn; lia|by vm_compute].
Defined.

Lemma write_card_skip_policy_witness :
  let r := @write_card libnfc false true true false ntag213_write in
  uiBlocks ntag213_write <= 256
  /\ exists marks rest evs,
       journal r.2 = journal ntag213_write ++ marks ++ rest
       /\ trace r.2 = trace ntag213_write ++ evs
       /\ In (LogMark 3 MkSkip) marks
       /\ In (LogMark 0 MkSkip) marks /\ In (LogMark 1 MkSkip) marks
       /\ Forall (fun e => is_write_or_select e = true) evs
       /\ Forall (fun e => is_write_to 3 e = false) evs
       /\ Forall (fun e => is_write_to 0 e = false) evs
       /\ Forall (fun e => is_write_to 1 e = false) evs.
Proof.
  cbv zeta. split; [cbn; lia|].
  pose proof (@write_card_skip_policy libnfc false true true false ntag213_write
                ltac:(cbn; lia)) as H.
  cbv beta zeta in H.
  change ((write_card_prompts false true true false ntag213_write).1)
    with (false, true, true, false) in H.
  cbn [fst snd app] in H.
  destruct H as (marks & rest & evs & Hj & _ & Ht & _ & Hevs & _ & Hotp & _ & Huid).
  exists marks, rest, evs. split; [exact Hj|]. split; [exact Ht|].
  destruct (Hotp eq_refl) as ((_ & H3 & Hw3) & _).
  destruct (Huid eq_refl) as (((_ & H0 & Hw0) & _) & ((_ & H1 & Hw1) & _)).
  split; [|split; [|split; [|split; [exact Hevs|split; [exact Hw3|split;
    [exact Hw0|exact Hw1]]]]]].
  - apply H3; [by vm_compute|cbn; lia].
  - apply H0; [by vm_compute|cbn; lia].
  - apply H1; [by vm_compute|cbn; lia].
Defined.

(** C2 as stated fails: in a session with write-UID set and write-lock
    unset, page 2 is marked 's' by the write loop, and yet a page write for
    page 2 has been sent: check_magic, which runs before the loop, writes
    pages 0 to 2 back. *)
Lemma write_card_probe_writes_page_2 :
  let f := (write_card_prompts false false false true uid_write_session).1 in
  let r := @write_card libnfc false false false true uid_write_session in
  f.1.1.2 = false /\ f.2 = true /\ r.1 = true
  /\ In (LogMark 2 MkSkip) (journal r.2)
  /\ In (NfcMifareCmd MC_WRITE 2
           [8; 9; 10; 11; 4; 5; 6; 7; 8; 9; 10; 11; 12; 13; 14; 15], true)
       (trace r.2)
  /\ List.filter (is_write_to 2) (trace r.2) =
       [(NfcMifareCmd MC_WRITE 2
           [8; 9; 10; 11; 4; 5; 6; 7; 8; 9; 10; 11; 12; 13; 14; 15], true)].
Proof. vm_compute. intuition. Qed.

Lemma main_never_logs_in_witness :
  let r := @main libnfc 1 ["nfc-ctc"; "-d"] ntag213_dump in
  r.1 = Some EXIT_SUCCESS
  /\ @secret_fields libnfc r.2 = [(172, 4); (176, 2)]%nat
  /\ take 6 (drop 166 (mtDump r.2)) = [0xFF; 0xFF; 0xFF; 0xFF; 0xFF; 0xFF]
  /\ iPWD r.2 = [0; 0; 0; 0] /\ iPACK r.2 = [0; 0]
  /\ @secrets_zero libnfc r.2.
Proof.
  cbv zeta.
  split; [by vm_compute|]. split; [by vm_compute|]. split; [by vm_compute|].
  destruct (@main_never_logs_in libnfc 1 ["nfc-ctc"; "-d"]
              ([Ack []; Ack []; Ack []; Ack []; Ack []; Ack [];
                Ack [0x00; 0x44; 0x04; 0x01; 0x02; 0x03; 0x04; 0x05; 0x06];
                Ack []; Ack [];
                Ack [0x00; 0x04; 0x04; 0x02; 0x01; 0x00; 0x0f; 0x03];
                Ack []; Ack []]
               ++ replicate 12 (Ack (replicate 16 0xFF))) [] [] 0)
    as (Hp & Hk & _ & _ & Hz).
  split; [exact Hp|]. split; [exact Hk|].
  apply Hz. by vm_compute.
Defined.

Lemma str_to_uid_spec_witness :
  str_to_uid "04:A1:b2-zz 3" (replicate 12 7)
  = (3, [0x04; 0xa1; 0xb2; 0x30; 0; 0; 0; 0; 0; 0; 7; 7]).
Proof.
  rewrite (str_to_uid_spec "04:A1:b2-zz 3" (replicate 12 7)) by (unfold MAX_UID_LEN; cbn; lia).
  reflexivity.
Defined.

Lemma str_to_uid_print_uid_witness :
  str_to_uid (print_uid [0x04; 0xa1; 0xb2; 0xff; 0x00; 0x10; 0x80]) (replicate 10 7)
  = (7, [0x04; 0xa1; 0xb2; 0xff; 0x00; 0x10; 0x80; 0; 0; 0]).
Proof.
  rewrite (str_to_uid_print_uid [0x04; 0xa1; 0xb2; 0xff; 0x00; 0x10; 0x80]
             (replicate 10 7)).
  - reflexivity.
  - repeat constructor; lia.
  - unfold MAX_UID_LEN; cbn; lia.
  - unfold MAX_UID_LEN; cbn; lia.
Defined.

Lemma get_ev1_version_restores_witness :
  let res := @get_ev1_version libnfc (@initial_world libnfc [Ack []; Ack []; Nak; Ack []; Ack []] [] [] 0) in
  res.1 = false /\ handle_crc res.2 = true /\ easy_framing res.2 = true
  /\ script res.2 = [].
Proof.
  pose proof (@get_ev1_version_restores libnfc
                (@initial_world libnfc [Ack []; Ack []; Nak; Ack []; Ack []] [] [] 0)
                [] [] [] [] Nak [] eq_refl) as H.
  cbv zeta in H |- *. destruct H as (H1 & H2 & H3 & _).
  split; [reflexivity|]. split; [exact H1|]. split; [exact H2|exact H3].
Defined.

Lemma main_tag_type_short_response_witness :
  let r := @main_tag_type libnfc
             (@initial_world libnfc [Ack []; Ack []; Ack [0xAF]; Ack []; Ack []] [] [] 0) in
  r.1 = true /\ iEV1Type r.2 = EV1_UL11 /\ uiBlocks r.2 = 20 /\ script r.2 = [].
Proof.
  apply (@main_tag_type_short_response libnfc
           (@initial_world libnfc [Ack []; Ack []; Ack [0xAF]; Ack []; Ack []] [] [] 0)
           [] [] [0xAF] [] [] []); [reflexivity|cbn; lia|reflexivity].
Defined.

Lemma main_login_pack_witness :
  let w := set_iPWD [0xAA; 0xBB; 0xCC; 0xDD]
             (@initial_world libnfc [Ack []; Ack []; Ack []; Ack []; Ack []] [] [] 0) in
  let res := @main_login libnfc true w in
  res.1 = true /\ iPACK res.2 = [0; 0]
  /\ handle_crc res.2 = true /\ easy_framing res.2 = true.
Proof.
  cbv zeta.
  pose proof (@main_login_pack libnfc
                (set_iPWD [0xAA; 0xBB; 0xCC; 0xDD]
                   (@initial_world libnfc [Ack []; Ack []; Ack []; Ack []; Ack []]
                      [] [] 0))
                [] [] [] [] [] [] eq_refl) as H.
  cbv zeta in H.
  destruct H as (H1 & _ & H3 & H4 & H5 & _);
    [unfold MAX_FRAME_LEN; cbn; lia|reflexivity|reflexivity|reflexivity
    |unfold MAX_FRAME_LEN; cbn; lia|].
  split; [exact H1|]. split; [exact H3|]. split; [exact H4|exact H5].
Defined.

Lemma check_magic_direct_write_witness :
  let res := @check_magic libnfc direct_write_tag in
  res.1 = true /\ script res.2 = []
  /\ trace res.2 =
       [(NfcMifareCmd MC_READ 0 [], true);
        (NfcMifareCmd MC_WRITE 0 (seqZ 0 16), true);
        (NfcMifareCmd MC_WRITE 1 ([4; 5; 6; 7] ++ seqZ 4 12), true);
        (NfcMifareCmd MC_WRITE 2 ([8; 9; 10; 11] ++ seqZ 4 12), true)].
Proof.
  destruct (@check_magic_direct_write libnfc direct_write_tag (seqZ 0 16) [] [] [] []
              eq_refl eq_refl) as (H1 & H2 & H3 & _).
  split; [exact H1|]. split; [exact H2|exact H3].
Defined.

Lemma check_magic_write_fails_witness :
  let res := @check_magic libnfc write_protected_tag in
  exists run,
    trace res.2 =
      [(NfcMifareCmd MC_READ 0 [], true);
       (NfcMifareCmd MC_WRITE 0 (seqZ 0 16), true);
       (NfcMifareCmd MC_WRITE 1 ([4; 5; 6; 7] ++ seqZ 4 12), false)] ++ run
    /\ backdoor [0x50; 0x00; 0x57; 0xcd] run res.1.
Proof.
  apply (@check_magic_write_fails libnfc write_protected_tag (seqZ 0 16) [[]] []);
    [reflexivity|reflexivity|cbn; lia].
Defined.

Lemma write_card_sends_image_witness :
  let r := @write_card libnfc false true true false ntag213_write in
  mtDump r.2 = mtDump ntag213_write
  /\ exists evs,
       trace r.2 = trace ntag213_write ++ evs
       /\ Forall (carries_page (mtDump ntag213_write)) evs.
Proof.
  destruct (@write_card_sends_image libnfc false true true false ntag213_write)
    as (Hd & Hev).
  split; [exact Hd|].
  apply Hev; [by vm_compute|reflexivity|by vm_compute|reflexivity].
Defined.

Lemma write_card_session_witness :
  let r := @write_card libnfc false false false false tag_removed_while_writing in
  r.1 = false
  /\ exists evs,
       trace r.2 = trace tag_removed_while_writing ++ evs /\ session false evs r.1.
Proof.
  split; [reflexivity|].
  apply (@write_card_session libnfc false false false false
           tag_removed_while_writing).
  reflexivity.
Defined.

Lemma write_card_prompts_end_of_input_witness :
  (@write_card_prompts false false false false one_answer_yes).1
  = (true, true, true, true).
Proof.
  exact (write_card_prompts_end_of_input false false false false 0x79
           one_answer_yes eq_refl).
Defined.

Lemma read_card_counts_witness :
  let r := @read_card libnfc second_stride_fails in
  r.1 = false /\ uiReadPages r.2 = 4
  /\ journal r.2 = marks MkOk 0 4 ++ marks MkFail 4 12 ++ [LogReadDone 4 16 12].
Proof.
  apply (@read_card_counts libnfc second_stride_fails); by vm_compute.
Defined.

Lemma read_card_ntag_secrets_witness :
  let img := mtDump (@read_card libnfc ntag213_with_secrets).2 in
  take 4 (drop (4 * 43) img) = [0xAA; 0xBB; 0xCC; 0xDD]
  /\ take 2 (drop (4 * 44) img) = [0xEE; 0xFF].
Proof.
  apply (@read_card_ntag_secrets libnfc ntag213_with_secrets 45);
    first [reflexivity | by left | by vm_compute].
Defined.

Lemma main_print_slice_witness :
  stdout (@main_print libnfc 28 45 counting_image).2 = seqZ 28 17 ++ [10].
Proof.
  rewrite (@main_print_slice libnfc 28 45 counting_image); [reflexivity|lia|reflexivity].
Defined.

Lemma main_args_spec_witness :
  (main_args ["nfc-ctc"; "-d"; "30"; "x"; "40"] ["nfc-ctc"; "-d"; "30"; "x"; "40"]
     (-1) (-1) (@initial_world libnfc [] [] [] 0)).1 = Some (30, 40)
  /\ positive_numbers ["nfc-ctc"; "4294967326"; "40"] = [30; 40]
  /\ positive_numbers ["1"; "2"; "2147483648"] = [1; 2]
  /\ (main_args ["1"; "2"; "2147483648"] ["1"; "2"; "2147483648"]
        (-1) (-1) (@initial_world libnfc [] [] [] 0)).1 = Some (1, 2).
Proof.
  destruct (main_args_spec ["nfc-ctc"; "-d"; "30"; "x"; "40"]
              (@initial_world libnfc [] [] [] 0)) as (_ & -> & _).
  destruct (main_args_spec ["1"; "2"; "2147483648"]
              (@initial_world libnfc [] [] [] 0)) as (_ & -> & _).
  repeat split.
Defined.

Lemma main_select_waits_witness :
  let r := main_select 5 tag_arrives_late in
  r.1 = Some true /\ wait_for_tag r.2 = 0 /\ script r.2 = []
  /\ trace r.2 = [(NfcSelectPassiveTarget, false); (NfcSelectPassiveTarget, false);
                  (NfcSelectPassiveTarget, true)].
Proof.
  destruct (main_select_waits 2 5 [0x00; 0x44; 0x04; 0x01; 0x02; 0x03; 0x04; 0x05; 0x06]
              [] tag_arrives_late) as (H1 & _ & H3 & H4 & H5);
    [by vm_compute|reflexivity|lia|].
  split; [exact H1|]. split; [exact H3|]. split; [exact H4|exact H5].
Defined.

Lemma main_exit_status_witness :
  let r := @main libnfc 1 ["nfc-ctc"] first_stride_fails in
  r.1 = Some EXIT_SUCCESS /\ uiReadPages r.2 = 0
  /\ Exists is_read_done (journal r.2).
Proof.
  split; [reflexivity|]. split; [reflexivity|].
  apply (@main_exit_status libnfc 1 ["nfc-ctc"]). reflexivity.
Defined.

Lemma read_card_image_plain_witness :
  mtDump (@read_card libnfc second_stride_fails).2 !! 15%nat = Some 0x41
  /\ mtDump (@read_card libnfc second_stride_fails).2 !! 16%nat = Some 0
  /\ mtDump (@read_card libnfc second_stride_fails).2 !! 64%nat = Some 0.
Proof.
  rewrite !(@read_card_image_plain libnfc second_stride_fails)
    by first [reflexivity | by vm_compute].
  by vm_compute.
Defined.

Lemma ev1_load_pwd_print_pwd_witness :
  print_pwd [0xAA; 0x0B; 0xC0; 0x0D] = "aa0bc00d"
  /\ ev1_load_pwd [0; 0; 0; 0] (print_pwd [0xAA; 0x0B; 0xC0; 0x0D])
     = (true, [0xAA; 0x0B; 0xC0; 0x0D]).
Proof.
  split; [reflexivity|].
  rewrite (ev1_load_pwd_print_pwd [0; 0; 0; 0] [0xAA; 0x0B; 0xC0; 0x0D]);
    [reflexivity|reflexivity|repeat constructor; lia].
Defined.

Lemma main_prints_range_witness :
  let r := @main libnfc 1 ["nfc-ctc"] first_stride_fails in
  let r' := @main libnfc 1 ["nfc-ctc"; "4294967326"; "40"] first_stride_fails in
  (r.1 = Some EXIT_SUCCESS
   /\ stdout r.2 = replicate 4 0x41 ++ replicate 13 0x42 ++ [10])
  /\ (r'.1 = Some EXIT_SUCCESS
      /\ stdout r'.2 = replicate 2 0x41 ++ replicate 8 0x42 ++ [10]).
Proof.
  split; (split; [reflexivity|]); unfold first_stride_fails.
  - rewrite (@main_prints_range libnfc 1 ["nfc-ctc"]); reflexivity.
  - rewrite (@main_prints_range libnfc 1 ["nfc-ctc"; "4294967326"; "40"]);
      reflexivity.
Defined.

Lemma get_ev1_version_half_raw_witness :
  let res := @get_ev1_version libnfc (@initial_world libnfc [Ack []; Nak] [] [] 0) in
  res.1 = false /\ handle_crc res.2 = false /\ easy_framing res.2 = true.
Proof.
  destruct (@get_ev1_version_half_raw libnfc (@initial_world libnfc [Ack []; Nak] [] [] 0)
              [] [] eq_refl) as (H1 & H2 & H3 & _).
  split; [exact H1|]. split; [exact H2|exact H3].
Defined.

Lemma dyn_lock_page_in_tag_witness :
  is_dyn_lock_page (iEV1Type (@main_tag_type libnfc ntag213_probe).2)
    (iNTAGType (@main_tag_type libnfc ntag213_probe).2) 0x28 = true
  /\ 0x28 = uiBlocks (@main_tag_type libnfc ntag213_probe).2 - 5.
Proof.
  split; [reflexivity|].
  apply (@dyn_lock_page_in_tag libnfc ntag213_probe 0x28); reflexivity.
Defined.

Lemma main_closes_reader_witness :
  let r := @main libnfc 1 ["nfc-ctc"]
             (@initial_world libnfc unknown_version_replies [] [] 0) in
  r.1 = Some EXIT_FAILURE /\ In (NfcOpen, true) (trace r.2)
  /\ ~ closed_last (trace r.2)
  /\ (closed_last (trace r.2)
      \/ (EXIT_FAILURE = EXIT_FAILURE
          /\ (exists pre,
                trace r.2 = pre ++ [(NfcSetProperty NP_EASY_FRAMING true, true)])
          /\ ~ In (abtRx r.2 !!! 6%nat) known_version_bytes)).
Proof.
  split; [reflexivity|]. split; [vm_compute; tauto|]. split.
  - intros [pre H].
    apply (f_equal (fun l => List.last l (NfcInit, true))) in H.
    change (pre ++ [(NfcClose, true); (NfcExit, true)])
      with (pre ++ [(NfcClose, true)] ++ [(NfcExit, true)]) in H.
    rewrite app_assoc, List.last_last in H.
    vm_compute in H. discriminate H.
  - apply (@main_closes_reader libnfc 1 ["nfc-ctc"] unknown_version_replies [] [] 0);
      [reflexivity|vm_compute; tauto].
Defined.
